(** * Threshold analysis and health scoring of the System Analysis Tool

    A shallow embedding of [src/analysis/performance.py],
    [src/analysis/security.py] and [src/analysis/resources.py], followed by
    the properties of the evaluators and of the score aggregation.

    The analyzers read a metrics snapshot made of loosely typed Python
    values, so the snapshot is a tree of [PyVal]; an operation that Python
    rejects at run time ([None.get], ['x' >= 90.0], [len(3)]) raises in the
    [result] monad. *)

From Stdlib Require Import ZArith QArith Bool List String Ascii Lia Lqa.
From Stdlib Require Import Permutation Sorted.
Import ListNotations.

Local Open Scope string_scope.
Local Open Scope list_scope.
Local Open Scope Z_scope.

(** ** Python values *)

(** The values a snapshot can hold.  A finite [float] is the rational it
    denotes; Python compares [int], [float] and [bool] by value, which is all
    the analyzers do with numbers.  The percentages and counters of a
    snapshot are finite: [nan] and the infinities are not among the values.
    A [dict] keeps insertion order and is read by its first binding of a
    key. *)
#[warnings="-register-all"]
Inductive PyVal : Type :=
| PNone
| PBool (b : bool)
| PInt (z : Z)
| PFloat (q : Q)
| PStr (s : string)
| PList (l : list PyVal)
| PDict (d : list (string * PyVal)).

Definition dict : Type := list (string * PyVal).

(** The exceptions the analyzers can meet. *)
Inductive exn : Type := TypeError | AttributeError.

Inductive result (A : Type) : Type :=
| Ok (a : A)
| Raise (e : exn).
Arguments Ok {A} a.
Arguments Raise {A} e.

Definition bind {A B : Type} (c : result A) (k : A -> result B) : result B :=
  match c with
  | Ok a => k a
  | Raise e => Raise e
  end.

Notation "x <- c ;; k" := (bind c (fun x => k))
  (at level 61, c at next level, right associativity).

Definition returns {A : Type} (c : result A) : Prop := exists a, c = Ok a.

(** [for x in xs: body], threading the loop's accumulator. *)
Fixpoint for_each {A S : Type} (body : S -> A -> result S) (xs : list A) (s : S)
  : result S :=
  match xs with
  | [] => Ok s
  | x :: xs' => s' <- body s x ;; for_each body xs' s'
  end.

(** [d[k]] when present: the first binding of [k]. *)
Fixpoint lookup {V : Type} (k : string) (d : list (string * V)) : option V :=
  match d with
  | [] => None
  | (k', v) :: d' => if String.eqb k k' then Some v else lookup k d'
  end.

(** [d.get(k, default)] on a dict. *)
Definition dict_get (d : dict) (k : string) (default : PyVal) : PyVal :=
  match lookup k d with
  | Some v => v
  | None => default
  end.

(** [v.get(k, default)]: only a dict has the method. *)
Definition py_get (v : PyVal) (k : string) (default : PyVal) : result PyVal :=
  match v with
  | PDict d => Ok (dict_get d k default)
  | _ => Raise AttributeError
  end.

(** The number a value compares as, if it is one. *)
Definition as_num (v : PyVal) : option Q :=
  match v with
  | PBool b => Some (if b then 1 else 0)%Q
  | PInt z => Some (inject_Z z)
  | PFloat q => Some q
  | _ => None
  end.

(** [v >= t] and [v > t] against a number [t]. *)
Definition py_ge (v : PyVal) (t : Q) : result bool :=
  match as_num v with
  | Some q => Ok (Qle_bool t q)
  | None => Raise TypeError
  end.

Definition py_gt (v : PyVal) (t : Q) : result bool :=
  match as_num v with
  | Some q => Ok (negb (Qle_bool q t))
  | None => Raise TypeError
  end.

(** Truth value of [v] in a condition. *)
Definition truthy (v : PyVal) : bool :=
  match v with
  | PNone => false
  | PBool b => b
  | PInt z => negb (z =? 0)
  | PFloat q => negb (Qeq_bool q 0)
  | PStr s => negb (String.eqb s "")
  | PList l => match l with [] => false | _ => true end
  | PDict d => match d with [] => false | _ => true end
  end.

Fixpoint chars (s : string) : list PyVal :=
  match s with
  | EmptyString => []
  | String a s' => PStr (String a EmptyString) :: chars s'
  end.

(** [len(v)]. *)
Definition py_len (v : PyVal) : result Z :=
  match v with
  | PList l => Ok (Z.of_nat (List.length l))
  | PDict d => Ok (Z.of_nat (List.length d))
  | PStr s => Ok (Z.of_nat (String.length s))
  | _ => Raise TypeError
  end.

(** The elements [for x in v] visits: a dict yields its keys, a string its
    characters. *)
Definition py_iter (v : PyVal) : result (list PyVal) :=
  match v with
  | PList l => Ok l
  | PDict d => Ok (map (fun kv => PStr (fst kv)) d)
  | PStr s => Ok (chars s)
  | _ => Raise TypeError
  end.

(** [v == s] for a string literal [s]. *)
Definition py_eq_str (v : PyVal) (s : string) : bool :=
  match v with
  | PStr s' => String.eqb s' s
  | _ => false
  end.

(** [str.lower()] on ASCII letters. *)
Definition lower_ascii (a : ascii) : ascii :=
  let n := nat_of_ascii a in
  if andb (Nat.leb 65 n) (Nat.leb n 90) then ascii_of_nat (n + 32) else a.

Fixpoint lower (s : string) : string :=
  match s with
  | EmptyString => EmptyString
  | String a s' => String (lower_ascii a) (lower s')
  end.

Definition py_lower (v : PyVal) : result string :=
  match v with
  | PStr s => Ok (lower s)
  | _ => Raise AttributeError
  end.

(** ** Results *)

(** An f-string before rendering: literal text and interpolated values. *)
Inductive frag : Type :=
| Lit (s : string)
| Val (v : PyVal).

Definition fstring : Type := list frag.

(** ['normal'], ['warning'], ['critical']. *)
Inductive Status : Type := Normal | Warning | Critical.

(** The dict an evaluator returns: its own fields, then ['status'] and
    ['issues']. *)
Record CategoryResult : Type := mkCategory {
  fields : dict;
  status : Status;
  issues : list fstring
}.

(** ['healthy'], ['secure'], ['warning'], ['critical']. *)
Inductive HealthStatus : Type := Healthy | Secure | HWarning | HCritical.

Record HealthResult : Type := mkHealth {
  health_status : HealthStatus;
  score : Z;
  health_issues : list fstring
}.

(** A value of the dict [analyze] returns. *)
Inductive Entry : Type :=
| ECategory (r : CategoryResult)
| EHealth (h : HealthResult).

Definition AnalysisResult : Type := list (string * Entry).

Definition set_status (r : CategoryResult) (s : Status) : CategoryResult :=
  mkCategory (fields r) s (issues r).

Definition append_issue (r : CategoryResult) (m : fstring) : CategoryResult :=
  mkCategory (fields r) (status r) (issues r ++ [m]).

(** ** Configuration *)

(** The two cutoffs of a metric in an analyzer whose configuration gives
    numbers for them.  The code stores a configured value unchecked, and a
    value that is not a number makes the usage comparison raise
    [TypeError]; such an analyzer is outside this record, and every
    property of the evaluators below is one of analyzers whose cutoffs are
    numbers. *)
Record Threshold : Type := mkThreshold {
  warning : Q;
  critical : Q
}.

(** [t.update(values)]: only ['warning'] and ['critical'] are ever read. *)
Definition update_threshold (t : Threshold) (values : list (string * Q))
  : Threshold :=
  fold_left
    (fun acc kv =>
       if String.eqb (fst kv) "warning" then mkThreshold (snd kv) (critical acc)
       else if String.eqb (fst kv) "critical" then mkThreshold (warning acc) (snd kv)
       else acc)
    values t.

(** The part of [config_data] the analyzers read: [analysis.<domain>], for
    a configuration file that holds a mapping whose [analysis] entry and
    its [performance], [security] and [resources] entries are mappings when
    present.  The [checks] entry is kept as the value the configuration
    file holds, since the loader iterates over it and hashes its elements
    whatever they are. *)
Record DomainConfig : Type := mkDomainConfig {
  cfg_thresholds : option (list (string * list (string * Q)));
  cfg_checks : option PyVal
}.

Record AnalysisConfig : Type := mkAnalysisConfig {
  cfg_performance : option DomainConfig;
  cfg_security : option DomainConfig;
  cfg_resources : option DomainConfig
}.

Record Config : Type := mkConfig {
  config_data : option AnalysisConfig
}.

(** ** Performance analyzer ([src/analysis/performance.py]) *)

Module PerformanceAnalyzer.

(** [self.thresholds]: the dict of dicts keyed ['cpu'], ['memory'],
    ['disk']. *)
Record Thresholds : Type := mkThresholds {
  cpu : Threshold;
  memory : Threshold;
  disk : Threshold
}.

Record Self : Type := mkSelf {
  config : Config;
  thresholds : Thresholds
}.

Definition update_metric (ths : Thresholds)
    (entry : string * list (string * Q)) : Thresholds :=
  let (metric, values) := entry in
  if String.eqb metric "cpu" then
    mkThresholds (update_threshold (cpu ths) values) (memory ths) (disk ths)
  else if String.eqb metric "memory" then
    mkThresholds (cpu ths) (update_threshold (memory ths) values) (disk ths)
  else if String.eqb metric "disk" then
    mkThresholds (cpu ths) (memory ths) (update_threshold (disk ths) values)
  else ths.

Definition _load_thresholds (cfg : Config) : Thresholds :=
  let thresholds :=
    mkThresholds (mkThreshold 80.0 90.0) (mkThreshold 75.0 85.0)
                 (mkThreshold 80.0 90.0) in
  match config_data cfg with
  | Some analysis =>
      match cfg_performance analysis with
      | Some performance =>
          match cfg_thresholds performance with
          | Some config_thresholds =>
              fold_left update_metric config_thresholds thresholds
          | None => thresholds
          end
      | None => thresholds
      end
  | None => thresholds
  end.

Definition __init__ (cfg : Config) : Self :=
  mkSelf cfg (_load_thresholds cfg).

Definition _analyze_cpu (self : Self) (cpu_metrics : PyVal)
  : result CategoryResult :=
  usage <- py_get cpu_metrics "usage" (PFloat 0.0) ;;
  let results := mkCategory [("usage", usage)] Normal [] in
  is_critical <- py_ge usage (critical (cpu (thresholds self))) ;;
  if is_critical then
    Ok (append_issue (set_status results Critical)
          [Lit "CPU usage is critically high: "; Val usage; Lit "%"])
  else
    is_warning <- py_ge usage (warning (cpu (thresholds self))) ;;
    if is_warning then
      Ok (append_issue (set_status results Warning)
            [Lit "CPU usage is high: "; Val usage; Lit "%"])
    else Ok results.

Definition _analyze_memory (self : Self) (memory_metrics : PyVal)
  : result CategoryResult :=
  usage <- py_get memory_metrics "usage" (PFloat 0.0) ;;
  available <- py_get memory_metrics "available" (PInt 0) ;;
  total <- py_get memory_metrics "total" (PInt 0) ;;
  let results :=
    mkCategory [("usage", usage); ("available", available); ("total", total)]
               Normal [] in
  is_critical <- py_ge usage (critical (memory (thresholds self))) ;;
  if is_critical then
    Ok (append_issue (set_status results Critical)
          [Lit "Memory usage is critically high: "; Val usage; Lit "%"])
  else
    is_warning <- py_ge usage (warning (memory (thresholds self))) ;;
    if is_warning then
      Ok (append_issue (set_status results Warning)
            [Lit "Memory usage is high: "; Val usage; Lit "%"])
    else Ok results.

Definition _analyze_disk (self : Self) (disk_metrics : PyVal)
  : result CategoryResult :=
  usage <- py_get disk_metrics "usage" (PFloat 0.0) ;;
  free <- py_get disk_metrics "free" (PInt 0) ;;
  total <- py_get disk_metrics "total" (PInt 0) ;;
  let results :=
    mkCategory [("usage", usage); ("free", free); ("total", total)]
               Normal [] in
  is_critical <- py_ge usage (critical (disk (thresholds self))) ;;
  if is_critical then
    Ok (append_issue (set_status results Critical)
          [Lit "Disk usage is critically high: "; Val usage; Lit "%"])
  else
    is_warning <- py_ge usage (warning (disk (thresholds self))) ;;
    if is_warning then
      Ok (append_issue (set_status results Warning)
            [Lit "Disk usage is high: "; Val usage; Lit "%"])
    else Ok results.

Definition _analyze_network (self : Self) (network_metrics : PyVal)
  : result CategoryResult :=
  bytes_sent <- py_get network_metrics "bytes_sent" (PInt 0) ;;
  bytes_recv <- py_get network_metrics "bytes_recv" (PInt 0) ;;
  packets_sent <- py_get network_metrics "packets_sent" (PInt 0) ;;
  packets_recv <- py_get network_metrics "packets_recv" (PInt 0) ;;
  Ok (mkCategory [("bytes_sent", bytes_sent); ("bytes_recv", bytes_recv);
                  ("packets_sent", packets_sent);
                  ("packets_recv", packets_recv)]
                 Normal []).


(** One turn of [for process in processes]; the accumulator is
    [(high_cpu, high_memory)]. *)
Definition process_step (acc : list PyVal * list PyVal) (process : PyVal)
  : result (list PyVal * list PyVal) :=
  let (high_cpu, high_memory) := acc in
  cpu_percent <- py_get process "cpu_percent" (PInt 0) ;;
  is_high_cpu <- py_gt cpu_percent 50 ;;
  high_cpu' <-
    (if is_high_cpu then
       pid <- py_get process "pid" PNone ;;
       name <- py_get process "name" PNone ;;
       cpu_percent' <- py_get process "cpu_percent" PNone ;;
       Ok (high_cpu ++ [PDict [("pid", pid); ("name", name);
                               ("cpu_percent", cpu_percent')]])
     else Ok high_cpu) ;;
  memory_percent <- py_get process "memory_percent" (PInt 0) ;;
  is_high_memory <- py_gt memory_percent 5 ;;
  high_memory' <-
    (if is_high_memory then
       pid <- py_get process "pid" PNone ;;
       name <- py_get process "name" PNone ;;
       memory_percent' <- py_get process "memory_percent" PNone ;;
       Ok (high_memory ++ [PDict [("pid", pid); ("name", name);
                                  ("memory_percent", memory_percent')]])
     else Ok high_memory) ;;
  Ok (high_cpu', high_memory').

Definition _analyze_processes (self : Self) (processes : PyVal)
  : result CategoryResult :=
  total <- py_len processes ;;
  items <- py_iter processes ;;
  acc <- for_each process_step items ([], []) ;;
  let (high_cpu, high_memory) := acc in
  let results :=
    mkCategory [("total", PInt total); ("high_cpu", PList high_cpu);
                ("high_memory", PList high_memory)]
               Normal [] in
  let n_cpu := Z.of_nat (List.length high_cpu) in
  let n_memory := Z.of_nat (List.length high_memory) in
  let results :=
    if 5 <? n_cpu then
      append_issue (set_status results Warning)
        [Lit "High number of CPU-intensive processes: "; Val (PInt n_cpu)]
    else results in
  let results :=
    if 5 <? n_memory then
      append_issue (set_status results Warning)
        [Lit "High number of memory-intensive processes: ";
         Val (PInt n_memory)]
    else results in
  Ok results.

(** One turn of [for component, result in results.items()]. *)
Definition health_step (health : HealthResult)
    (item : string * CategoryResult) : HealthResult :=
  let (component, result) := item in
  if String.eqb component "health" then health
  else
    match status result with
    | Critical =>
        mkHealth (health_status health) (score health - 25)
                 (health_issues health ++ issues result)
    | Warning =>
        mkHealth (health_status health) (score health - 10)
                 (health_issues health ++ issues result)
    | Normal => health
    end.

Definition _calculate_health (self : Self)
    (results : list (string * CategoryResult)) : HealthResult :=
  let health := fold_left health_step results (mkHealth Healthy 100 []) in
  if score health <=? 50 then
    mkHealth HCritical (score health) (health_issues health)
  else if score health <=? 75 then
    mkHealth HWarning (score health) (health_issues health)
  else health.

Definition analyze (self : Self) (metrics : dict) : result AnalysisResult :=
  r_cpu <- _analyze_cpu self (dict_get metrics "cpu" (PDict [])) ;;
  r_memory <- _analyze_memory self (dict_get metrics "memory" (PDict [])) ;;
  r_disk <- _analyze_disk self (dict_get metrics "disk" (PDict [])) ;;
  r_network <- _analyze_network self (dict_get metrics "network" (PDict [])) ;;
  r_processes <-
    _analyze_processes self (dict_get metrics "processes" (PList [])) ;;
  let results :=
    [("cpu", r_cpu); ("memory", r_memory); ("disk", r_disk);
     ("network", r_network); ("processes", r_processes)] in
  Ok (map (fun kv => (fst kv, ECategory (snd kv))) results
      ++ [("health", EHealth (_calculate_health self results))]).

End PerformanceAnalyzer.

(** ** Security analyzer ([src/analysis/security.py]) *)

Module SecurityAnalyzer.

Record Self : Type := mkSelf {
  config : Config;
  checks : list (string * bool)
}.

(** [d[k] = v] for a key the dict may hold. *)
Fixpoint assign {V : Type} (k : string) (v : V) (d : list (string * V))
  : list (string * V) :=
  match d with
  | [] => [(k, v)]
  | (k', v') :: d' =>
      if String.eqb k k' then (k', v) :: d' else (k', v') :: assign k v d'
  end.

Definition mem_key {V : Type} (k : string) (d : list (string * V)) : bool :=
  match lookup k d with
  | Some _ => true
  | None => false
  end.

(** One turn of [for check in config_checks].  [check in checks] hashes
    [check] first, which a list or a dict refuses; only a string can equal
    one of the keys. *)
Definition check_step (checks : list (string * bool)) (check : PyVal)
  : result (list (string * bool)) :=
  match check with
  | PList _ | PDict _ => Raise TypeError
  | PStr name =>
      if mem_key name checks then Ok (assign name true checks) else Ok checks
  | _ => Ok checks
  end.

Definition _load_security_checks (cfg : Config)
  : result (list (string * bool)) :=
  let checks :=
    [("open_ports", true); ("running_services", true);
     ("system_updates", true); ("firewall_status", true);
     ("antivirus_status", true); ("ssl_certificates", true)] in
  match config_data cfg with
  | Some analysis =>
      match cfg_security analysis with
      | Some security =>
          match cfg_checks security with
          | Some config_checks =>
              items <- py_iter config_checks ;;
              for_each check_step items checks
          | None => Ok checks
          end
      | None => Ok checks
      end
  | None => Ok checks
  end.

Definition __init__ (cfg : Config) : result Self :=
  checks <- _load_security_checks cfg ;;
  Ok (mkSelf cfg checks).

Definition vulnerable_ports : list (Z * string) :=
  [(21, "FTP"); (22, "SSH"); (23, "Telnet"); (25, "SMTP"); (3389, "RDP")].

(** [vulnerable_ports[v]] when [v in vulnerable_ports]: a key is found by
    value, and a list or a dict cannot be hashed. *)
Definition find_port (v : PyVal) : result (option string) :=
  match v with
  | PList _ | PDict _ => Raise TypeError
  | _ =>
      match as_num v with
      | Some q =>
          Ok (option_map snd
                (find (fun kv => Qeq_bool (inject_Z (fst kv)) q)
                      vulnerable_ports))
      | None => Ok None
      end
  end.

(** One turn of [for port in ports]; the accumulator is [results['open']]. *)
Definition port_step (open : list PyVal) (port : PyVal)
  : result (list PyVal) :=
  port_num <- py_get port "port" PNone ;;
  service <- find_port port_num ;;
  match service with
  | Some name =>
      state <- py_get port "state" (PStr "unknown") ;;
      Ok (open ++ [PDict [("port", port_num); ("service", PStr name);
                          ("state", state)]])
  | None => Ok open
  end.

Definition _analyze_ports (self : Self) (ports : PyVal)
  : result CategoryResult :=
  total <- py_len ports ;;
  items <- py_iter ports ;;
  open <- for_each port_step items [] ;;
  let results :=
    mkCategory [("total", PInt total); ("open", PList open)] Normal [] in
  if truthy (PList open) then
    Ok (append_issue (set_status results Warning)
          [Lit "Found "; Val (PInt (Z.of_nat (List.length open)));
           Lit " potentially vulnerable ports open"])
  else Ok results.

Definition vulnerable_services : list string :=
  ["telnet"; "ftp"; "rsh"; "rlogin"; "rexec"].

(** One turn of [for service in services]. *)
Definition service_step (vulnerable : list PyVal) (service : PyVal)
  : result (list PyVal) :=
  raw <- py_get service "name" (PStr "") ;;
  name <- py_lower raw ;;
  if existsb (String.eqb name) vulnerable_services then
    st <- py_get service "status" (PStr "unknown") ;;
    Ok (vulnerable ++ [PDict [("name", PStr name); ("status", st)]])
  else Ok vulnerable.

Definition _analyze_services (self : Self) (services : PyVal)
  : result CategoryResult :=
  total <- py_len services ;;
  items <- py_iter services ;;
  vulnerable <- for_each service_step items [] ;;
  let results :=
    mkCategory [("total", PInt total); ("vulnerable", PList vulnerable)]
               Normal [] in
  if truthy (PList vulnerable) then
    Ok (append_issue (set_status results Warning)
          [Lit "Found "; Val (PInt (Z.of_nat (List.length vulnerable)));
           Lit " potentially vulnerable services running"])
  else Ok results.

Definition _analyze_updates (self : Self) (updates : PyVal)
  : result CategoryResult :=
  last_update <- py_get updates "last_update" (PStr "unknown") ;;
  updates_available <- py_get updates "updates_available" (PInt 0) ;;
  let results :=
    mkCategory [("last_update", last_update);
                ("updates_available", updates_available)]
               Normal [] in
  pending <- py_gt updates_available 0 ;;
  if pending then
    Ok (append_issue (set_status results Warning)
          [Lit "System has "; Val updates_available;
           Lit " updates available"])
  else Ok results.

Definition _analyze_firewall (self : Self) (firewall : PyVal)
  : result CategoryResult :=
  enabled <- py_get firewall "enabled" (PBool false) ;;
  rules <- py_get firewall "rules" (PList []) ;;
  let results :=
    mkCategory [("enabled", enabled); ("rules", rules)] Normal [] in
  if negb (truthy enabled) then
    Ok (append_issue (set_status results Critical)
          [Lit "Firewall is not enabled"])
  else Ok results.

Definition _analyze_antivirus (self : Self) (antivirus : PyVal)
  : result CategoryResult :=
  enabled <- py_get antivirus "enabled" (PBool false) ;;
  last_scan <- py_get antivirus "last_scan" (PStr "unknown") ;;
  let results :=
    mkCategory [("enabled", enabled); ("last_scan", last_scan)] Normal [] in
  if negb (truthy enabled) then
    Ok (append_issue (set_status results Critical)
          [Lit "Antivirus is not enabled"])
  else Ok results.

(** One turn of [for cert in ssl_certs]; the accumulator is
    [(expired, expiring_soon)]. *)
Definition cert_step (acc : list PyVal * list PyVal) (cert : PyVal)
  : result (list PyVal * list PyVal) :=
  let (expired, expiring_soon) := acc in
  is_expired <- py_get cert "expired" (PBool false) ;;
  if truthy is_expired then Ok (expired ++ [cert], expiring_soon)
  else
    is_expiring <- py_get cert "expiring_soon" (PBool false) ;;
    if truthy is_expiring then Ok (expired, expiring_soon ++ [cert])
    else Ok (expired, expiring_soon).

Definition _analyze_ssl (self : Self) (ssl_certs : PyVal)
  : result CategoryResult :=
  total <- py_len ssl_certs ;;
  items <- py_iter ssl_certs ;;
  acc <- for_each cert_step items ([], []) ;;
  let (expired, expiring_soon) := acc in
  let results :=
    mkCategory [("total", PInt total); ("expired", PList expired);
                ("expiring_soon", PList expiring_soon)]
               Normal [] in
  if truthy (PList expired) then
    Ok (append_issue (set_status results Critical)
          [Lit "Found "; Val (PInt (Z.of_nat (List.length expired)));
           Lit " expired SSL certificates"])
  else if truthy (PList expiring_soon) then
    Ok (append_issue (set_status results Warning)
          [Lit "Found "; Val (PInt (Z.of_nat (List.length expiring_soon)));
           Lit " SSL certificates expiring soon"])
  else Ok results.

(** One turn of [for component, result in results.items()]. *)
Definition score_step (acc : HealthResult)
    (item : string * CategoryResult) : HealthResult :=
  let (component, result) := item in
  if String.eqb component "security_score" then acc
  else
    match status result with
    | Critical =>
        mkHealth (health_status acc) (score acc - 25)
                 (health_issues acc ++ issues result)
    | Warning =>
        mkHealth (health_status acc) (score acc - 10)
                 (health_issues acc ++ issues result)
    | Normal => acc
    end.

Definition _calculate_security_score (self : Self)
    (results : list (string * CategoryResult)) : HealthResult :=
  let acc := fold_left score_step results (mkHealth Secure 100 []) in
  if score acc <=? 50 then
    mkHealth HCritical (score acc) (health_issues acc)
  else if score acc <=? 75 then
    mkHealth HWarning (score acc) (health_issues acc)
  else acc.

Definition analyze (self : Self) (metrics : dict) : result AnalysisResult :=
  r_ports <- _analyze_ports self (dict_get metrics "ports" (PList [])) ;;
  r_services <-
    _analyze_services self (dict_get metrics "services" (PList [])) ;;
  r_updates <- _analyze_updates self (dict_get metrics "updates" (PDict [])) ;;
  r_firewall <-
    _analyze_firewall self (dict_get metrics "firewall" (PDict [])) ;;
  r_antivirus <-
    _analyze_antivirus self (dict_get metrics "antivirus" (PDict [])) ;;
  r_ssl <- _analyze_ssl self (dict_get metrics "ssl" (PList [])) ;;
  let results :=
    [("ports", r_ports); ("services", r_services); ("updates", r_updates);
     ("firewall", r_firewall); ("antivirus", r_antivirus); ("ssl", r_ssl)] in
  Ok (map (fun kv => (fst kv, ECategory (snd kv))) results
      ++ [("security_score", EHealth (_calculate_security_score self results))]).

End SecurityAnalyzer.

(** ** Resource analyzer ([src/analysis/resources.py]) *)

Module ResourceAnalyzer.

(** [self.thresholds]: the dict of dicts keyed ['disk'], ['memory'],
    ['swap']. *)
Record Thresholds : Type := mkThresholds {
  disk : Threshold;
  memory : Threshold;
  swap : Threshold
}.

Record Self : Type := mkSelf {
  config : Config;
  thresholds : Thresholds
}.

Definition update_metric (ths : Thresholds)
    (entry : string * list (string * Q)) : Thresholds :=
  let (metric, values) := entry in
  if String.eqb metric "disk" then
    mkThresholds (update_threshold (disk ths) values) (memory ths) (swap ths)
  else if String.eqb metric "memory" then
    mkThresholds (disk ths) (update_threshold (memory ths) values) (swap ths)
  else if String.eqb metric "swap" then
    mkThresholds (disk ths) (memory ths) (update_threshold (swap ths) values)
  else ths.

Definition _load_thresholds (cfg : Config) : Thresholds :=
  let thresholds :=
    mkThresholds (mkThreshold 80.0 90.0) (mkThreshold 75.0 85.0)
                 (mkThreshold 70.0 80.0) in
  match config_data cfg with
  | Some analysis =>
      match cfg_resources analysis with
      | Some resources =>
          match cfg_thresholds resources with
          | Some config_thresholds =>
              fold_left update_metric config_thresholds thresholds
          | None => thresholds
          end
      | None => thresholds
      end
  | None => thresholds
  end.

Definition __init__ (cfg : Config) : Self :=
  mkSelf cfg (_load_thresholds cfg).

Definition _analyze_disk (self : Self) (disk_metrics : PyVal)
  : result CategoryResult :=
  usage <- py_get disk_metrics "usage" (PFloat 0.0) ;;
  free <- py_get disk_metrics "free" (PInt 0) ;;
  total <- py_get disk_metrics "total" (PInt 0) ;;
  let results :=
    mkCategory [("usage", usage); ("free", free); ("total", total)]
               Normal [] in
  is_critical <- py_ge usage (critical (disk (thresholds self))) ;;
  if is_critical then
    Ok (append_issue (set_status results Critical)
          [Lit "Disk usage is critically high: "; Val usage; Lit "%"])
  else
    is_warning <- py_ge usage (warning (disk (thresholds self))) ;;
    if is_warning then
      Ok (append_issue (set_status results Warning)
            [Lit "Disk usage is high: "; Val usage; Lit "%"])
    else Ok results.

Definition _analyze_memory (self : Self) (memory_metrics : PyVal)
  : result CategoryResult :=
  usage <- py_get memory_metrics "usage" (PFloat 0.0) ;;
  available <- py_get memory_metrics "available" (PInt 0) ;;
  total <- py_get memory_metrics "total" (PInt 0) ;;
  let results :=
    mkCategory [("usage", usage); ("available", available); ("total", total)]
               Normal [] in
  is_critical <- py_ge usage (critical (memory (thresholds self))) ;;
  if is_critical then
    Ok (append_issue (set_status results Critical)
          [Lit "Memory usage is critically high: "; Val usage; Lit "%"])
  else
    is_warning <- py_ge usage (warning (memory (thresholds self))) ;;
    if is_warning then
      Ok (append_issue (set_status results Warning)
            [Lit "Memory usage is high: "; Val usage; Lit "%"])
    else Ok results.

Definition _analyze_swap (self : Self) (swap_metrics : PyVal)
  : result CategoryResult :=
  usage <- py_get swap_metrics "usage" (PFloat 0.0) ;;
  free <- py_get swap_metrics "free" (PInt 0) ;;
  total <- py_get swap_metrics "total" (PInt 0) ;;
  let results :=
    mkCategory [("usage", usage); ("free", free); ("total", total)]
               Normal [] in
  is_critical <- py_ge usage (critical (swap (thresholds self))) ;;
  if is_critical then
    Ok (append_issue (set_status results Critical)
          [Lit "Swap usage is critically high: "; Val usage; Lit "%"])
  else
    is_warning <- py_ge usage (warning (swap (thresholds self))) ;;
    if is_warning then
      Ok (append_issue (set_status results Warning)
            [Lit "Swap usage is high: "; Val usage; Lit "%"])
    else Ok results.

(** One turn of the comprehension over [results['largest_files']]. *)
Definition large_file_step (large_files : list PyVal) (f : PyVal)
  : result (list PyVal) :=
  size <- py_get f "size" (PInt 0) ;;
  is_large <- py_gt size (inject_Z (1024 * 1024 * 1024)) ;;
  if is_large then Ok (large_files ++ [f]) else Ok large_files.

Definition _analyze_file_system (self : Self) (fs_metrics : PyVal)
  : result CategoryResult :=
  total_files <- py_get fs_metrics "total_files" (PInt 0) ;;
  total_dirs <- py_get fs_metrics "total_dirs" (PInt 0) ;;
  largest_files <- py_get fs_metrics "largest_files" (PList []) ;;
  let results :=
    mkCategory [("total_files", total_files); ("total_dirs", total_dirs);
                ("largest_files", largest_files)]
               Normal [] in
  items <- py_iter largest_files ;;
  large_files <- for_each large_file_step items [] ;;
  if truthy (PList large_files) then
    Ok (append_issue (set_status results Warning)
          [Lit "Found "; Val (PInt (Z.of_nat (List.length large_files)));
           Lit " files larger than 1GB"])
  else Ok results.

(** One turn of [for process in processes]; the accumulator is
    [(high_cpu, high_memory, zombie)]. *)
Definition process_step (acc : list PyVal * list PyVal * list PyVal)
    (process : PyVal) : result (list PyVal * list PyVal * list PyVal) :=
  let '(high_cpu, high_memory, zombie) := acc in
  cpu_percent <- py_get process "cpu_percent" (PInt 0) ;;
  is_high_cpu <- py_gt cpu_percent 50 ;;
  high_cpu' <-
    (if is_high_cpu then
       pid <- py_get process "pid" PNone ;;
       name <- py_get process "name" PNone ;;
       cpu_percent' <- py_get process "cpu_percent" PNone ;;
       Ok (high_cpu ++ [PDict [("pid", pid); ("name", name);
                               ("cpu_percent", cpu_percent')]])
     else Ok high_cpu) ;;
  memory_percent <- py_get process "memory_percent" (PInt 0) ;;
  is_high_memory <- py_gt memory_percent 5 ;;
  high_memory' <-
    (if is_high_memory then
       pid <- py_get process "pid" PNone ;;
       name <- py_get process "name" PNone ;;
       memory_percent' <- py_get process "memory_percent" PNone ;;
       Ok (high_memory ++ [PDict [("pid", pid); ("name", name);
                                  ("memory_percent", memory_percent')]])
     else Ok high_memory) ;;
  st <- py_get process "status" PNone ;;
  zombie' <-
    (if py_eq_str st "zombie" then
       pid <- py_get process "pid" PNone ;;
       name <- py_get process "name" PNone ;;
       Ok (zombie ++ [PDict [("pid", pid); ("name", name)]])
     else Ok zombie) ;;
  Ok (high_cpu', high_memory', zombie').

Definition _analyze_processes (self : Self) (processes : PyVal)
  : result CategoryResult :=
  total <- py_len processes ;;
  items <- py_iter processes ;;
  acc <- for_each process_step items ([], [], []) ;;
  let '(high_cpu, high_memory, zombie) := acc in
  let results :=
    mkCategory [("total", PInt total); ("high_cpu", PList high_cpu);
                ("high_memory", PList high_memory); ("zombie", PList zombie)]
               Normal [] in
  let n_cpu := Z.of_nat (List.length high_cpu) in
  let n_memory := Z.of_nat (List.length high_memory) in
  let results :=
    if truthy (PList zombie) then
      append_issue (set_status results Warning)
        [Lit "Found "; Val (PInt (Z.of_nat (List.length zombie)));
         Lit " zombie processes"]
    else results in
  let results :=
    if 5 <? n_cpu then
      append_issue (set_status results Warning)
        [Lit "High number of CPU-intensive processes: "; Val (PInt n_cpu)]
    else results in
  let results :=
    if 5 <? n_memory then
      append_issue (set_status results Warning)
        [Lit "High number of memory-intensive processes: ";
         Val (PInt n_memory)]
    else results in
  Ok results.

(** One turn of [for component, result in results.items()]. *)
Definition health_step (health : HealthResult)
    (item : string * CategoryResult) : HealthResult :=
  let (component, result) := item in
  if String.eqb component "health" then health
  else
    match status result with
    | Critical =>
        mkHealth (health_status health) (score health - 25)
                 (health_issues health ++ issues result)
    | Warning =>
        mkHealth (health_status health) (score health - 10)
                 (health_issues health ++ issues result)
    | Normal => health
    end.

Definition _calculate_health (self : Self)
    (results : list (string * CategoryResult)) : HealthResult :=
  let health := fold_left health_step results (mkHealth Healthy 100 []) in
  if score health <=? 50 then
    mkHealth HCritical (score health) (health_issues health)
  else if score health <=? 75 then
    mkHealth HWarning (score health) (health_issues health)
  else health.

Definition analyze (self : Self) (metrics : dict) : result AnalysisResult :=
  r_disk <- _analyze_disk self (dict_get metrics "disk" (PDict [])) ;;
  r_memory <- _analyze_memory self (dict_get metrics "memory" (PDict [])) ;;
  r_swap <- _analyze_swap self (dict_get metrics "swap" (PDict [])) ;;
  r_file_system <-
    _analyze_file_system self (dict_get metrics "file_system" (PDict [])) ;;
  r_processes <-
    _analyze_processes self (dict_get metrics "processes" (PList [])) ;;
  let results :=
    [("disk", r_disk); ("memory", r_memory); ("swap", r_swap);
     ("file_system", r_file_system); ("processes", r_processes)] in
  Ok (map (fun kv => (fst kv, ECategory (snd kv))) results
      ++ [("health", EHealth (_calculate_health self results))]).

End ResourceAnalyzer.

(** ** Vocabulary of the properties *)

(** The aggregation the three analyzers each write out: [skip] is the key
    the loop passes over and [init] the status the score starts with. *)
Definition aggregate_step (skip : string) (acc : HealthResult)
    (item : string * CategoryResult) : HealthResult :=
  let (component, result) := item in
  if String.eqb component skip then acc
  else
    match status result with
    | Critical =>
        mkHealth (health_status acc) (score acc - 25)
                 (health_issues acc ++ issues result)
    | Warning =>
        mkHealth (health_status acc) (score acc - 10)
                 (health_issues acc ++ issues result)
    | Normal => acc
    end.

Definition aggregate (skip : string) (init : HealthStatus)
    (results : list (string * CategoryResult)) : HealthResult :=
  let acc := fold_left (aggregate_step skip) results (mkHealth init 100 []) in
  if score acc <=? 50 then mkHealth HCritical (score acc) (health_issues acc)
  else if score acc <=? 75 then
    mkHealth HWarning (score acc) (health_issues acc)
  else acc.

(** The entries the loop visits: every one but the aggregate's own key. *)
Definition visited (skip : string) (results : list (string * CategoryResult))
  : list (string * CategoryResult) :=
  filter (fun kv => negb (String.eqb (fst kv) skip)) results.

Definition status_eqb (a b : Status) : bool :=
  match a, b with
  | Normal, Normal | Warning, Warning | Critical, Critical => true
  | _, _ => false
  end.

(** How many of the entries carry status [s]. *)
Definition count_status (s : Status) (results : list (string * CategoryResult))
  : Z :=
  Z.of_nat (List.length (filter (fun kv => status_eqb (status (snd kv)) s)
                                results)).

(** The issues of the entries that are not Normal, in the entries' order. *)
Definition contributed (results : list (string * CategoryResult))
  : list fstring :=
  flat_map (fun kv => match status (snd kv) with
                      | Normal => []
                      | _ => issues (snd kv)
                      end) results.

Definition all_normal (results : list (string * CategoryResult)) : Prop :=
  Forall (fun kv => status (snd kv) = Normal) results.

(** The entry of an analysis under key [k], read as a category or as the
    aggregate. *)
Definition category_of (r : AnalysisResult) (k : string)
  : option CategoryResult :=
  match lookup k r with
  | Some (ECategory c) => Some c
  | _ => None
  end.

Definition health_of (r : AnalysisResult) (k : string) : option HealthResult :=
  match lookup k r with
  | Some (EHealth h) => Some h
  | _ => None
  end.

Definition category_status (r : AnalysisResult) (k : string) : option Status :=
  option_map status (category_of r k).

(** A configuration file without an [analysis] section, and one that lists
    security checks. *)
Definition default_config : Config := mkConfig None.


(** A category result with nothing to report, and one reporting [s]. *)
Definition quiet : CategoryResult := mkCategory [] Normal [].

Definition reporting (s : Status) (msg : string) : CategoryResult :=
  mkCategory [] s [[Lit msg]].

(** Six security categories, all Normal. *)
Definition secure_results : list (string * CategoryResult) :=
  [("ports", quiet); ("services", quiet); ("updates", quiet);
   ("firewall", quiet); ("antivirus", quiet); ("ssl", quiet)].

(** A host with no firewall and no antivirus record, an expired
    certificate, SSH open, telnet running and updates pending. *)
Definition exposed_host : dict :=
  [("ports", PList [PDict [("port", PInt 22); ("state", PStr "open")]]);
   ("services", PList [PDict [("name", PStr "Telnet");
                              ("status", PStr "running")]]);
   ("updates", PDict [("updates_available", PInt 3)]);
   ("ssl", PList [PDict [("expired", PBool true)]])].

(** The six names [_load_security_checks] starts from, all enabled. *)
Definition all_checks_enabled : list (string * bool) :=
  [("open_ports", true); ("running_services", true);
   ("system_updates", true); ("firewall_status", true);
   ("antivirus_status", true); ("ssl_certificates", true)].

(** The security analyzer built from [default_config]. *)
Definition default_security : SecurityAnalyzer.Self :=
  SecurityAnalyzer.mkSelf default_config all_checks_enabled.


(** The status the security aggregate gives where the others give [s]. *)
Definition security_label (s : HealthStatus) : HealthStatus :=
  match s with
  | Healthy => Secure
  | other => other
  end.

(** No entry is named after an aggregate. *)
Definition no_aggregate_key (results : list (string * CategoryResult))
  : bool :=
  forallb (fun kv => negb (String.eqb (fst kv) "health")
                     && negb (String.eqb (fst kv) "security_score"))
          results.

(** What a usage-percentage evaluator owes for a record whose usage reads
    as the number [u], against the cutoffs [t] with [warning t <= critical t]:
    the status by the two inclusive cutoffs, and one issue exactly when the
    status is not Normal. *)
Definition usage_rule (evaluate : PyVal -> result CategoryResult)
    (t : Threshold) : Prop :=
  forall (record : dict) (u : Q),
    as_num (dict_get record "usage" (PFloat 0.0)) = Some u ->
    (warning t <= critical t)%Q ->
    exists r,
      evaluate (PDict record) = Ok r
      /\ (status r = Critical <-> (critical t <= u)%Q)
      /\ (status r = Warning <-> (warning t <= u)%Q /\ (u < critical t)%Q)
      /\ (status r = Normal <-> (u < warning t)%Q)
      /\ (issues r = [] <-> status r = Normal)
      /\ (status r <> Normal -> exists msg, issues r = [msg])
      /\ ((u == critical t)%Q -> status r = Critical)
      /\ ((u == warning t)%Q -> (warning t < critical t)%Q ->
          status r = Warning).

Definition is_dict (v : PyVal) : bool :=
  match v with
  | PDict _ => true
  | _ => false
  end.

(** The truth value of a certificate's [expired] and [expiring_soon]
    fields, absent fields reading as [False]. *)
Definition cert_expired (cert : PyVal) : bool :=
  match cert with
  | PDict d => truthy (dict_get d "expired" (PBool false))
  | _ => false
  end.

Definition cert_expiring_soon (cert : PyVal) : bool :=
  match cert with
  | PDict d => truthy (dict_get d "expiring_soon" (PBool false))
  | _ => false
  end.

Definition nonempty {A : Type} (l : list A) : bool :=
  match l with
  | [] => false
  | _ :: _ => true
  end.

(** A value Python can hash, hence look up in a dict. *)
Definition hashable (v : PyVal) : bool :=
  match v with
  | PList _ | PDict _ => false
  | _ => true
  end.





(** The [port] and [state] a port record reads as. *)
Definition port_number (port : PyVal) : PyVal :=
  match port with
  | PDict d => dict_get d "port" PNone
  | _ => PNone
  end.

Definition port_state (port : PyVal) : PyVal :=
  match port with
  | PDict d => dict_get d "state" (PStr "unknown")
  | _ => PStr "unknown"
  end.

Definition port_record (port : PyVal) : bool :=
  is_dict port && hashable (port_number port).

(** The vulnerable set, and whether a value is one of its numbers. *)
Definition vulnerable_numbers : list Z := [21; 22; 23; 25; 3389].

Definition number_in (v : PyVal) (zs : list Z) : bool :=
  match as_num v with
  | Some q => existsb (fun z => Qeq_bool (inject_Z z) q) zs
  | None => false
  end.

Definition port_vulnerable (port : PyVal) : bool :=
  number_in (port_number port) vulnerable_numbers.

Definition port_open (port : PyVal) : bool :=
  py_eq_str (port_state port) "open".

(** The entry [_analyze_ports] appends for a flagged port. *)
Definition flagged_entry (port : PyVal) : PyVal :=
  PDict [("port", port_number port);
         ("service",
          PStr match SecurityAnalyzer.find_port (port_number port) with
               | Ok (Some name) => name
               | _ => ""
               end);
         ("state", port_state port)].

(** The port numbers listed in [results['open']]. *)
Definition flagged_numbers (r : CategoryResult) : list PyVal :=
  match lookup "open" (fields r) with
  | Some (PList entries) => map port_number entries
  | _ => []
  end.

(** ** Well-shaped snapshots *)

Definition is_number (v : PyVal) : bool :=
  match as_num v with
  | Some _ => true
  | None => false
  end.

Definition is_string (v : PyVal) : bool :=
  match v with
  | PStr _ => true
  | _ => false
  end.

(** [v] is a record whose field [k], absent fields reading as [default],
    passes [check]. *)
Definition field_is (check : PyVal -> bool) (k : string) (default : PyVal)
    (v : PyVal) : bool :=
  match v with
  | PDict d => check (dict_get d k default)
  | _ => false
  end.

(** [v] is a list whose elements all pass [check]. *)
Definition list_of (check : PyVal -> bool) (v : PyVal) : bool :=
  match v with
  | PList l => forallb check l
  | _ => false
  end.

Definition usage_record : PyVal -> bool :=
  field_is is_number "usage" (PFloat 0.0).

Definition process_record (p : PyVal) : bool :=
  field_is is_number "cpu_percent" (PInt 0) p
  && field_is is_number "memory_percent" (PInt 0) p.

Definition service_record : PyVal -> bool :=
  field_is is_string "name" (PStr "").

Definition file_system_record : PyVal -> bool :=
  field_is (list_of (field_is is_number "size" (PInt 0)))
           "largest_files" (PList []).

(** Every category a snapshot holds has the shape its evaluator reads; a
    category it lacks is read as the evaluator's empty default. *)
Definition performance_shape (m : dict) : bool :=
  usage_record (dict_get m "cpu" (PDict []))
  && usage_record (dict_get m "memory" (PDict []))
  && usage_record (dict_get m "disk" (PDict []))
  && is_dict (dict_get m "network" (PDict []))
  && list_of process_record (dict_get m "processes" (PList [])).

Definition security_shape (m : dict) : bool :=
  list_of port_record (dict_get m "ports" (PList []))
  && list_of service_record (dict_get m "services" (PList []))
  && field_is is_number "updates_available" (PInt 0)
       (dict_get m "updates" (PDict []))
  && is_dict (dict_get m "firewall" (PDict []))
  && is_dict (dict_get m "antivirus" (PDict []))
  && list_of is_dict (dict_get m "ssl" (PList [])).

Definition resources_shape (m : dict) : bool :=
  usage_record (dict_get m "disk" (PDict []))
  && usage_record (dict_get m "memory" (PDict []))
  && usage_record (dict_get m "swap" (PDict []))
  && file_system_record (dict_get m "file_system" (PDict []))
  && list_of process_record (dict_get m "processes" (PList [])).

(** The category keys the three analyzers read. *)
Definition category_keys : list string :=
  ["cpu"; "memory"; "disk"; "swap"; "network"; "processes"; "file_system";
   "ports"; "services"; "updates"; "firewall"; "antivirus"; "ssl"].

(** A process whose counters the collector could not read. *)
Definition unreadable_process : PyVal :=
  PDict [("pid", PInt 1); ("name", PStr "init"); ("status", PStr "sleeping");
         ("cpu_percent", PNone); ("memory_percent", PNone)].


(** ** Vocabulary of the evaluators *)

(** The field [k] of a record, absent fields reading as [default]. *)
Definition record_field (v : PyVal) (k : string) (default : PyVal) : PyVal :=
  match v with
  | PDict d => dict_get d k default
  | _ => default
  end.

(** [v] is a number above [t]. *)
Definition exceeds (v : PyVal) (t : Q) : bool :=
  match as_num v with
  | Some q => negb (Qle_bool q t)
  | None => false
  end.

Definition count_where {A : Type} (f : A -> bool) (l : list A) : Z :=
  Z.of_nat (List.length (filter f l)).

(** What a usage-percentage evaluator does whatever the order of the two
    cutoffs. *)
Definition usage_rule_unordered (evaluate : PyVal -> result CategoryResult)
    (t : Threshold) : Prop :=
  forall (record : dict) (u : Q),
    as_num (dict_get record "usage" (PFloat 0.0)) = Some u ->
    exists r,
      evaluate (PDict record) = Ok r
      /\ (status r = Critical <-> (critical t <= u)%Q)
      /\ (status r = Warning <-> (warning t <= u)%Q /\ (u < critical t)%Q)
      /\ (status r = Normal <-> (u < warning t)%Q /\ (u < critical t)%Q)
      /\ ((critical t <= warning t)%Q -> status r <> Warning).

(** When a usage-percentage evaluator raises, and with what. *)
Definition usage_failures (evaluate : PyVal -> result CategoryResult) : Prop :=
  forall v : PyVal,
    (is_dict v = false -> evaluate v = Raise AttributeError)
    /\ (is_dict v = true ->
        is_number (record_field v "usage" (PFloat 0.0)) = false ->
        evaluate v = Raise TypeError)
    /\ (returns (evaluate v) <-> usage_record v = true).

(** Processes above the fixed cutoffs, and the entries kept for them. *)
Definition high_cpu (p : PyVal) : bool :=
  exceeds (record_field p "cpu_percent" (PInt 0)) 50.

Definition high_memory (p : PyVal) : bool :=
  exceeds (record_field p "memory_percent" (PInt 0)) 5.

Definition is_zombie (p : PyVal) : bool :=
  py_eq_str (record_field p "status" PNone) "zombie".

Definition high_cpu_entry (p : PyVal) : PyVal :=
  PDict [("pid", record_field p "pid" PNone);
         ("name", record_field p "name" PNone);
         ("cpu_percent", record_field p "cpu_percent" PNone)].

Definition high_memory_entry (p : PyVal) : PyVal :=
  PDict [("pid", record_field p "pid" PNone);
         ("name", record_field p "name" PNone);
         ("memory_percent", record_field p "memory_percent" PNone)].

Definition zombie_entry (p : PyVal) : PyVal :=
  PDict [("pid", record_field p "pid" PNone);
         ("name", record_field p "name" PNone)].

(** One gibibyte, and the files above it. *)
Definition gibibyte : Z := 1073741824.

Definition large_file (f : PyVal) : bool :=
  exceeds (record_field f "size" (PInt 0)) (inject_Z gibibyte).

(** The name a service is matched by, and the entry kept for it. *)
Definition service_name (s : PyVal) : string :=
  match record_field s "name" (PStr "") with
  | PStr n => lower n
  | _ => ""
  end.

Definition service_vulnerable (s : PyVal) : bool :=
  existsb (String.eqb (service_name s))
          ["telnet"; "ftp"; "rsh"; "rlogin"; "rexec"].

Definition service_entry (s : PyVal) : PyVal :=
  PDict [("name", PStr (service_name s));
         ("status", record_field s "status" (PStr "unknown"))].

Definition b2z (b : bool) : Z := if b then 1 else 0.

(** A configuration that raises the CPU warning cutoff above the critical
    one, which stays at its default 90. *)
Definition inverted_config : Config :=
  mkConfig (Some (mkAnalysisConfig
                    (Some (mkDomainConfig
                             (Some [("cpu", [("warning", 95.0%Q)])]) None))
                    None None)).

(** The six category keys the security analyzer reads. *)
Definition security_keys : list string :=
  ["ports"; "services"; "updates"; "firewall"; "antivirus"; "ssl"].

(** The threshold overrides a configuration file gives for one domain, and
    among them the values given for one metric. *)
Definition configured_thresholds (cfg : Config)
    (domain : AnalysisConfig -> option DomainConfig)
  : list (string * list (string * Q)) :=
  match config_data cfg with
  | Some analysis =>
      match domain analysis with
      | Some section =>
          match cfg_thresholds section with
          | Some config_thresholds => config_thresholds
          | None => []
          end
      | None => []
      end
  | None => []
  end.

Definition overrides_for (metric : string)
    (config_thresholds : list (string * list (string * Q)))
  : list (string * Q) :=
  flat_map snd
    (filter (fun entry => String.eqb (fst entry) metric) config_thresholds).

(** ** Metrics collector ([src/monitoring/metrics_collector.py]) *)

Module MetricsCollector.

(** What the operating system answers during one collection.  Each record
    is the named tuple of one [psutil] call; numbers are kept as the values
    the call returned. *)
Record CpuFreq : Type := mkCpuFreq {
  freq_current : PyVal;
  freq_min : PyVal;
  freq_max : PyVal
}.

(** [iowait] exists on some platforms only. *)
Record CpuTimes : Type := mkCpuTimes {
  times_user : PyVal;
  times_system : PyVal;
  times_idle : PyVal;
  times_iowait : option PyVal
}.

Record VirtualMemory : Type := mkVirtualMemory {
  vm_total : PyVal;
  vm_available : PyVal;
  vm_used : PyVal;
  vm_free : PyVal;
  vm_percent : PyVal
}.

Record SwapMemory : Type := mkSwapMemory {
  sw_total : PyVal;
  sw_used : PyVal;
  sw_free : PyVal;
  sw_percent : PyVal
}.

Record DiskUsage : Type := mkDiskUsage {
  du_total : PyVal;
  du_used : PyVal;
  du_free : PyVal;
  du_percent : PyVal
}.

(** A partition and what [psutil.disk_usage] gave for its mount point,
    [None] when the call raised. *)
Record Partition : Type := mkPartition {
  part_device : string;
  part_mountpoint : string;
  part_fstype : string;
  part_opts : string;
  part_usage : option DiskUsage
}.

Record DiskIO : Type := mkDiskIO {
  io_read_bytes : PyVal;
  io_write_bytes : PyVal;
  io_read_count : PyVal;
  io_write_count : PyVal;
  io_read_time : PyVal;
  io_write_time : PyVal
}.

Record NetIO : Type := mkNetIO {
  net_bytes_sent : PyVal;
  net_bytes_recv : PyVal;
  net_packets_sent : PyVal;
  net_packets_recv : PyVal;
  net_errin : PyVal;
  net_errout : PyVal;
  net_dropin : PyVal;
  net_dropout : PyVal
}.

(** An interface address; [addr_family] is [str(addr.family)]. *)
Record Address : Type := mkAddress {
  addr_family : string;
  addr_address : PyVal;
  addr_netmask : PyVal;
  addr_broadcast : PyVal
}.

(** [proc.info] for the six attributes asked of [process_iter]. *)
Record ProcessInfo : Type := mkProcessInfo {
  info_pid : PyVal;
  info_name : PyVal;
  info_username : PyVal;
  info_status : PyVal;
  info_cpu_percent : PyVal;
  info_memory_percent : PyVal
}.

(** One step of [os.walk]: the directory, its sub-directories and its
    files, each file with what [os.path.getsize] gave for it, [None] when
    the call raised [OSError]. *)
Record WalkEntry : Type := mkWalkEntry {
  walk_root : string;
  walk_dirs : list string;
  walk_files : list (string * option Z)
}.

(** [loadavg] is the tuple of the three load averages; the snapshot keeps
    it as a sequence.  [net_connections] is the number of connections
    [psutil.net_connections()] lists. *)
Record Host : Type := mkHost {
  now : string;
  hostname : string;
  platform_system : string;
  platform_version : string;
  platform_machine : string;
  platform_processor : string;
  boot_time : string;
  cpu_percent : PyVal;
  cpu_count : PyVal;
  cpu_count_logical : PyVal;
  cpu_freq : option CpuFreq;
  cpu_times : CpuTimes;
  loadavg : PyVal * PyVal * PyVal;
  virtual_memory : VirtualMemory;
  swap_memory : SwapMemory;
  disk_partitions : list Partition;
  disk_io_counters : DiskIO;
  net_io_counters : NetIO;
  net_connections : nat;
  net_if_addrs : list (string * list Address);
  process_iter : list (option ProcessInfo);
  walk : list WalkEntry
}.

Definition _collect_system_info (host : Host) : PyVal :=
  PDict [("hostname", PStr (hostname host));
         ("platform", PStr (platform_system host));
         ("platform_version", PStr (platform_version host));
         ("architecture", PStr (platform_machine host));
         ("processor", PStr (platform_processor host));
         ("boot_time", PStr (boot_time host))].

(** [psutil.cpu_freq().<field> if psutil.cpu_freq() else None]. *)
Definition freq_or_none (host : Host) (field : CpuFreq -> PyVal) : PyVal :=
  match cpu_freq host with
  | Some freq => field freq
  | None => PNone
  end.

Definition _collect_cpu_metrics (host : Host) : PyVal :=
  let cpu_times := cpu_times host in
  let '(load1, load5, load15) := loadavg host in
  PDict [("usage_percent", cpu_percent host);
         ("count", cpu_count host);
         ("count_logical", cpu_count_logical host);
         ("frequency",
          PDict [("current", freq_or_none host freq_current);
                 ("min", freq_or_none host freq_min);
                 ("max", freq_or_none host freq_max)]);
         ("times",
          PDict [("user", times_user cpu_times);
                 ("system", times_system cpu_times);
                 ("idle", times_idle cpu_times);
                 ("iowait", match times_iowait cpu_times with
                            | Some t => t
                            | None => PInt 0
                            end)]);
         ("load_average", PList [load1; load5; load15])].

Definition _collect_memory_metrics (host : Host) : PyVal :=
  let memory := virtual_memory host in
  let swap := swap_memory host in
  PDict [("virtual",
          PDict [("total", vm_total memory);
                 ("available", vm_available memory);
                 ("used", vm_used memory);
                 ("free", vm_free memory);
                 ("usage", vm_percent memory)]);
         ("swap",
          PDict [("total", sw_total swap);
                 ("used", sw_used swap);
                 ("free", sw_free swap);
                 ("usage", sw_percent swap)])].

(** One turn of [for partition in psutil.disk_partitions()]; a partition
    whose usage could not be read is logged and left out. *)
Definition partition_step (partitions : list PyVal) (partition : Partition)
  : list PyVal :=
  match part_usage partition with
  | Some usage =>
      partitions
      ++ [PDict [("device", PStr (part_device partition));
                 ("mountpoint", PStr (part_mountpoint partition));
                 ("fstype", PStr (part_fstype partition));
                 ("opts", PStr (part_opts partition));
                 ("total", du_total usage);
                 ("used", du_used usage);
                 ("free", du_free usage);
                 ("usage", du_percent usage)]]
  | None => partitions
  end.

Definition _collect_disk_metrics (host : Host) : PyVal :=
  let partitions := fold_left partition_step (disk_partitions host) [] in
  let io_counters := disk_io_counters host in
  PDict [("partitions", PList partitions);
         ("io",
          PDict [("read_bytes", io_read_bytes io_counters);
                 ("write_bytes", io_write_bytes io_counters);
                 ("read_count", io_read_count io_counters);
                 ("write_count", io_write_count io_counters);
                 ("read_time", io_read_time io_counters);
                 ("write_time", io_write_time io_counters)])].

Definition _get_network_interfaces (host : Host) : PyVal :=
  PList
    (map (fun item : string * list Address =>
            let (interface, addrs) := item in
            PDict [("name", PStr interface);
                   ("addresses",
                    PList (map (fun addr =>
                                  PDict [("family", PStr (addr_family addr));
                                         ("address", addr_address addr);
                                         ("netmask", addr_netmask addr);
                                         ("broadcast", addr_broadcast addr)])
                               addrs))])
         (net_if_addrs host)).

Definition _collect_network_metrics (host : Host) : PyVal :=
  let net_io := net_io_counters host in
  PDict [("io",
          PDict [("bytes_sent", net_bytes_sent net_io);
                 ("bytes_recv", net_bytes_recv net_io);
                 ("packets_sent", net_packets_sent net_io);
                 ("packets_recv", net_packets_recv net_io);
                 ("errin", net_errin net_io);
                 ("errout", net_errout net_io);
                 ("dropin", net_dropin net_io);
                 ("dropout", net_dropout net_io)]);
         ("connections", PInt (Z.of_nat (net_connections host)));
         ("interfaces", _get_network_interfaces host)].

(** One turn of [for proc in psutil.process_iter(...)]; [None] is a process
    for which one of the three caught exceptions was raised. *)
Definition process_step (processes : list PyVal)
    (proc : option ProcessInfo) : list PyVal :=
  match proc with
  | Some process_info =>
      processes
      ++ [PDict [("pid", info_pid process_info);
                 ("name", info_name process_info);
                 ("username", info_username process_info);
                 ("status", info_status process_info);
                 ("cpu_percent", info_cpu_percent process_info);
                 ("memory_percent", info_memory_percent process_info)]]
  | None => processes
  end.

Definition _collect_process_metrics (host : Host) : PyVal :=
  PList (fold_left process_step (process_iter host) []).

(** [os.path.join(root, file)] on a POSIX host. *)
Fixpoint ends_with_slash (s : string) : bool :=
  match s with
  | EmptyString => false
  | String a EmptyString => Ascii.eqb a "/"
  | String _ s' => ends_with_slash s'
  end.

Definition starts_with_slash (s : string) : bool :=
  match s with
  | String a _ => Ascii.eqb a "/"
  | EmptyString => false
  end.

Definition path_join (root file : string) : string :=
  if starts_with_slash file then file
  else if orb (String.eqb root "") (ends_with_slash root)
       then String.append root file
       else String.append root (String.append "/" file).

(** One turn of [for file in files]: a file above 1 MiB is tracked, a file
    whose size cannot be read is passed over. *)
Definition file_step (root : string) (largest_files : list (string * Z))
    (file : string * option Z) : list (string * Z) :=
  let file_path := path_join root (fst file) in
  match snd file with
  | Some size =>
      if 1024 * 1024 <? size then largest_files ++ [(file_path, size)]
      else largest_files
  | None => largest_files
  end.

(** [for root, dirs, files in os.walk(root_dir)], left once more than a
    million files were counted; the state is
    [(total_files, total_dirs, largest_files)]. *)
Fixpoint walk_loop (entries : list WalkEntry)
    (state : Z * Z * list (string * Z)) : Z * Z * list (string * Z) :=
  match entries with
  | [] => state
  | entry :: rest =>
      let '(total_files, total_dirs, largest_files) := state in
      let total_dirs := total_dirs + Z.of_nat (List.length (walk_dirs entry)) in
      let total_files :=
        total_files + Z.of_nat (List.length (walk_files entry)) in
      let largest_files :=
        fold_left (file_step (walk_root entry)) (walk_files entry)
                  largest_files in
      if 1000000 <? total_files then (total_files, total_dirs, largest_files)
      else walk_loop rest (total_files, total_dirs, largest_files)
  end.

(** [list.sort(key=size, reverse=True)]: by decreasing size, files of equal
    size staying in the order they had. *)
Fixpoint insert_by_size (x : string * Z) (l : list (string * Z))
  : list (string * Z) :=
  match l with
  | [] => [x]
  | y :: l' => if snd x <? snd y then y :: insert_by_size x l' else x :: l
  end.

Definition sort_by_size (l : list (string * Z)) : list (string * Z) :=
  fold_right insert_by_size [] l.

Definition file_entry (file : string * Z) : PyVal :=
  PDict [("path", PStr (fst file)); ("size", PInt (snd file))].

Definition _collect_file_system_metrics (host : Host) : PyVal :=
  let '(total_files, total_dirs, largest_files) :=
    walk_loop (walk host) (0, 0, []) in
  let largest_files := firstn 100 (sort_by_size largest_files) in
  PDict [("total_files", PInt total_files);
         ("total_dirs", PInt total_dirs);
         ("largest_files", PList (map file_entry largest_files))].

Definition collect_all (host : Host) : dict :=
  [("timestamp", PStr (now host));
   ("system", _collect_system_info host);
   ("cpu", _collect_cpu_metrics host);
   ("memory", _collect_memory_metrics host);
   ("disk", _collect_disk_metrics host);
   ("network", _collect_network_metrics host);
   ("processes", _collect_process_metrics host);
   ("file_system", _collect_file_system_metrics host)].

End MetricsCollector.

(** ** Report generator ([src/reporting/report_generator.py]) *)

Module ReportGenerator.

(** [health.get('score', 0)] for the value found under [health]: the
    aggregate's score, a category's [score] field if it had one, and 0 for
    the empty dict that stands for an absent key. *)
Definition get_score (health : option Entry) : PyVal :=
  match health with
  | Some (EHealth h) => PInt (score h)
  | Some (ECategory c) => dict_get (fields c) "score" (PInt 0)
  | None => PInt 0
  end.

(** [analysis_results.get(domain, {}).get('health', {}).get('score', 0)]. *)
Definition domain_score (analysis_results : list (string * AnalysisResult))
    (domain : string) : PyVal :=
  let result :=
    match lookup domain analysis_results with
    | Some r => r
    | None => []
    end in
  get_score (lookup "health" result).

(** The [scores] that [_plot_health_scores] hands to the bar chart. *)
Definition _plot_health_scores
    (analysis_results : list (string * AnalysisResult))
  : list (string * PyVal) :=
  [("Performance", domain_score analysis_results "performance");
   ("Security", domain_score analysis_results "security");
   ("Resources", domain_score analysis_results "resources")].

End ReportGenerator.

(** The cutoffs of a usage evaluator are both above zero. *)
Definition positive_cutoffs (t : Threshold) : Prop :=
  (0 < warning t)%Q /\ (0 < critical t)%Q.

(** The files a walk tracks, before they are sorted and cut to 100. *)
Definition tracked_files (host : MetricsCollector.Host) : list (string * Z) :=
  snd (MetricsCollector.walk_loop (MetricsCollector.walk host) (0, 0, [])).

Definition above_gibibyte (file : string * Z) : bool := gibibyte <? snd file.

(** Files in decreasing order of size. *)
Definition by_size (a b : string * Z) : Prop := snd b <= snd a.

(** A loaded host running the given processes: the CPU at 97.3 percent,
    memory at 91 percent, and a walk that meets two files above one
    gibibyte. *)
Definition host_running (procs : list (option MetricsCollector.ProcessInfo))
  : MetricsCollector.Host :=
  MetricsCollector.mkHost
    "2024-05-01T12:00:00" "web-1" "Linux" "6.1.0" "x86_64" "x86_64"
    "2024-04-01T08:00:00"
    (PFloat 97.3) (PInt 4) (PInt 8)
    (Some (MetricsCollector.mkCpuFreq (PFloat 2400.0) (PFloat 800.0)
             (PFloat 3600.0)))
    (MetricsCollector.mkCpuTimes (PFloat 100.5) (PFloat 40.25) (PFloat 12.0)
       (Some (PFloat 0.5)))
    (PFloat 7.5, PFloat 6.25, PFloat 5.0)
    (MetricsCollector.mkVirtualMemory (PInt 16000) (PInt 1440) (PInt 14560)
       (PInt 200) (PFloat 91.0))
    (MetricsCollector.mkSwapMemory (PInt 4000) (PInt 3900) (PInt 100)
       (PFloat 97.5))
    [MetricsCollector.mkPartition "/dev/sda1" "/" "ext4" "rw"
       (Some (MetricsCollector.mkDiskUsage (PInt 1000) (PInt 990) (PInt 10)
                (PFloat 99.0)));
     MetricsCollector.mkPartition "/dev/sr0" "/media" "iso9660" "ro" None]
    (MetricsCollector.mkDiskIO (PInt 1) (PInt 2) (PInt 3) (PInt 4) (PInt 5)
       (PInt 6))
    (MetricsCollector.mkNetIO (PInt 10) (PInt 20) (PInt 30) (PInt 40)
       (PInt 0) (PInt 0) (PInt 0) (PInt 0))
    12
    [("eth0", [MetricsCollector.mkAddress "AddressFamily.AF_INET"
                 (PStr "10.0.0.2") (PStr "255.255.255.0") PNone])]
    procs
    [MetricsCollector.mkWalkEntry "/" ["var"; "tmp"]
       [("swapfile", Some 4294967296); ("vmlinuz", Some 8000000)];
     MetricsCollector.mkWalkEntry "/var" []
       [("dump.bin", Some 2147483648); ("lock", None);
        ("notes.txt", Some 512)]].

(** The loaded host with a process whose counters could not be read, and
    with readable processes only. *)
Definition busy_host : MetricsCollector.Host :=
  host_running
    [Some (MetricsCollector.mkProcessInfo (PInt 1) (PStr "init")
             (PStr "root") (PStr "sleeping") (PFloat 0.0) (PFloat 0.1));
     None;
     Some (MetricsCollector.mkProcessInfo (PInt 77) (PStr "worker")
             (PStr "app") (PStr "running") PNone PNone)].

Definition readable_host : MetricsCollector.Host :=
  host_running
    [Some (MetricsCollector.mkProcessInfo (PInt 1) (PStr "init")
             (PStr "root") (PStr "sleeping") (PFloat 0.0) (PFloat 0.1));
     Some (MetricsCollector.mkProcessInfo (PInt 77) (PStr "worker")
             (PStr "app") (PStr "running") (PFloat 99.0) (PFloat 60.0))].

(** ** The aggregation *)

Section Aggregation.

Variable skip : string.

Lemma visited_cons : forall k r rest,
  visited skip ((k, r) :: rest)
  = if String.eqb k skip then visited skip rest
    else (k, r) :: visited skip rest.
Proof.
  intros. unfold visited. cbn [filter fst].
  destruct (String.eqb k skip); reflexivity.
Qed.

Lemma count_status_cons : forall s k r rest,
  count_status s ((k, r) :: rest)
  = (if status_eqb (status r) s then 1 else 0) + count_status s rest.
Proof.
  intros. unfold count_status. cbn [filter snd].
  destruct (status_eqb (status r) s); cbn [List.length]; lia.
Qed.

Lemma contributed_cons : forall k r rest,
  contributed ((k, r) :: rest)
  = match status r with Normal => [] | _ => issues r end ++ contributed rest.
Proof. reflexivity. Qed.

Lemma fold_aggregate_step : forall results acc,
  let out := fold_left (aggregate_step skip) results acc in
  health_status out = health_status acc
  /\ score out = score acc
                 - 25 * count_status Critical (visited skip results)
                 - 10 * count_status Warning (visited skip results)
  /\ health_issues out = health_issues acc ++ contributed (visited skip results).
Proof.
  induction results as [|[k r] rest IH]; intros acc; cbn zeta.
  - unfold visited, count_status, contributed.
    cbn [fold_left filter flat_map List.length].
    rewrite app_nil_r. repeat split; try reflexivity; lia.
  - cbn [fold_left]. specialize (IH (aggregate_step skip acc (k, r))).
    cbn zeta in IH. destruct IH as (Hst & Hsc & Hiss).
    rewrite Hst, Hsc, Hiss, visited_cons. unfold aggregate_step.
    destruct (String.eqb k skip).
    + repeat split; reflexivity.
    + rewrite !count_status_cons, contributed_cons.
      destruct (status r); cbn [status_eqb health_status score health_issues];
        repeat split; try reflexivity; try lia.
      * now rewrite app_assoc.
      * now rewrite app_assoc.
Qed.

Variable init : HealthStatus.

Lemma aggregate_score : forall results,
  score (aggregate skip init results)
  = 100 - 25 * count_status Critical (visited skip results)
        - 10 * count_status Warning (visited skip results).
Proof.
  intros results. unfold aggregate.
  destruct (fold_aggregate_step results (mkHealth init 100 [])) as (_ & Hsc & _).
  cbn zeta in Hsc. cbn [score] in Hsc.
  repeat match goal with |- context [if ?b then _ else _] => destruct b end;
    cbn [score]; exact Hsc.
Qed.

Lemma aggregate_issues : forall results,
  health_issues (aggregate skip init results)
  = contributed (visited skip results).
Proof.
  intros results. unfold aggregate.
  destruct (fold_aggregate_step results (mkHealth init 100 [])) as (_ & _ & Hi).
  cbn zeta in Hi. cbn [health_issues app] in Hi.
  repeat match goal with |- context [if ?b then _ else _] => destruct b end;
    cbn [health_issues]; exact Hi.
Qed.

Lemma aggregate_status : forall results,
  health_status (aggregate skip init results)
  = if score (aggregate skip init results) <=? 50 then HCritical
    else if score (aggregate skip init results) <=? 75 then HWarning
    else init.
Proof.
  intros results. unfold aggregate.
  destruct (fold_aggregate_step results (mkHealth init 100 [])) as (Hst & _ & _).
  cbn zeta in Hst. cbn [health_status] in Hst.
  set (acc := fold_left (aggregate_step skip) results (mkHealth init 100 [])) in *.
  destruct (score acc <=? 50) eqn:E1; cbn [score health_status].
  - rewrite E1. reflexivity.
  - destruct (score acc <=? 75) eqn:E2; cbn [score health_status].
    + rewrite E1, E2. reflexivity.
    + rewrite E1, E2. exact Hst.
Qed.

Lemma count_status_nonneg : forall s results, 0 <= count_status s results.
Proof. intros. unfold count_status. lia. Qed.

Lemma count_status_app : forall s l1 l2,
  count_status s (l1 ++ l2) = count_status s l1 + count_status s l2.
Proof.
  intros. unfold count_status. rewrite filter_app, length_app. lia.
Qed.

Lemma visited_app : forall l1 l2,
  visited skip (l1 ++ l2) = visited skip l1 ++ visited skip l2.
Proof. intros. unfold visited. apply filter_app. Qed.

Lemma all_normal_counts : forall results s,
  all_normal results -> s <> Normal ->
  count_status s (visited skip results) = 0.
Proof.
  intros results s Hall Hs. unfold count_status, visited.
  induction Hall as [|[k r] rest Hr _ IH]; [reflexivity|].
  cbn [filter fst]. destruct (negb (String.eqb k skip)); [|exact IH].
  cbn [filter snd]. cbn in Hr. rewrite Hr.
  destruct s; cbn [status_eqb]; try exact IH. congruence.
Qed.

Lemma all_normal_contributed : forall results,
  all_normal results -> contributed (visited skip results) = [].
Proof.
  intros results Hall. unfold visited.
  induction Hall as [|[k r] rest Hr _ IH]; [reflexivity|].
  cbn [filter fst]. destruct (negb (String.eqb k skip)); [|exact IH].
  cbn [contributed flat_map snd]. cbn in Hr. rewrite Hr. exact IH.
Qed.

End Aggregation.

(** Each analyzer's aggregation is the common one at its own key and
    starting status. *)
Lemma performance_calculate_health : forall self results,
  PerformanceAnalyzer._calculate_health self results
  = aggregate "health" Healthy results.
Proof. reflexivity. Qed.

Lemma resources_calculate_health : forall self results,
  ResourceAnalyzer._calculate_health self results
  = aggregate "health" Healthy results.
Proof. reflexivity. Qed.

Lemma security_calculate_score : forall self results,
  SecurityAnalyzer._calculate_security_score self results
  = aggregate "security_score" Secure results.
Proof. reflexivity. Qed.

Lemma health_result_eq : forall h st sc iss,
  health_status h = st -> score h = sc -> health_issues h = iss ->
  h = mkHealth st sc iss.
Proof. intros [] ? ? ? <- <- <-. reflexivity. Qed.

Lemma aggregate_all_normal : forall skip init results,
  all_normal results -> aggregate skip init results = mkHealth init 100 [].
Proof.
  intros skip init results Hall.
  assert (Hsc : score (aggregate skip init results) = 100).
  { rewrite aggregate_score.
    rewrite !(all_normal_counts skip results) by (assumption || discriminate).
    reflexivity. }
  apply health_result_eq.
  - rewrite aggregate_status, Hsc. reflexivity.
  - exact Hsc.
  - rewrite aggregate_issues. now apply all_normal_contributed.
Qed.

Lemma aggregate_monotone : forall skip init before after k r r',
  status r = Normal ->
  score (aggregate skip init (before ++ (k, r') :: after))
  <= score (aggregate skip init (before ++ (k, r) :: after)).
Proof.
  intros skip init before after k r r' Hr.
  rewrite !aggregate_score, !visited_app, !visited_cons.
  destruct (String.eqb k skip); [lia|].
  rewrite !count_status_app, !count_status_cons, Hr. cbn [status_eqb].
  destruct (status r'); cbn [status_eqb]; lia.
Qed.

(** ** Properties of the aggregation *)

(** C2: the performance aggregator starts from 100, takes 25 off and keeps
    the issues for each Critical result, takes 10 off and keeps the issues
    for each Warning result, passes over Normal results, and labels the
    score Critical up to 50, Warning up to 75 and Healthy above; one Critical
    among Normal results gives 75 and Warning, two give 50 and Critical. The
    results are those the loop visits, every key but the aggregate's own
    [health]. *)
Theorem calculate_health_spec :
  forall (self : PerformanceAnalyzer.Self) results,
    let h := PerformanceAnalyzer._calculate_health self results in
    let cs := visited "health" results in
    score h = 100 - 25 * count_status Critical cs
                  - 10 * count_status Warning cs
    /\ health_issues h = contributed cs
    /\ (health_status h = HCritical <-> score h <= 50)
    /\ (health_status h = HWarning <-> 50 < score h <= 75)
    /\ (health_status h = Healthy <-> 75 < score h)
    /\ (count_status Critical cs = 1 -> count_status Warning cs = 0 ->
        score h = 75 /\ health_status h = HWarning)
    /\ (count_status Critical cs = 2 -> count_status Warning cs = 0 ->
        score h = 50 /\ health_status h = HCritical).
Proof.
  intros self results h cs. subst h cs.
  rewrite performance_calculate_health.
  pose proof (aggregate_score "health" Healthy results) as Hsc.
  pose proof (aggregate_status "health" Healthy results) as Hst.
  set (h := aggregate "health" Healthy results) in *.
  split; [exact Hsc|]. split; [apply aggregate_issues|].
  assert (Hcases : (score h <=? 50) = true /\ score h <= 50
                   \/ (score h <=? 50) = false /\ (score h <=? 75) = true
                      /\ 50 < score h <= 75
                   \/ (score h <=? 50) = false /\ (score h <=? 75) = false
                      /\ 75 < score h).
  { destruct (score h <=? 50) eqn:E1; [left; split; [reflexivity|lia]|].
    destruct (score h <=? 75) eqn:E2; [right; left|right; right];
      repeat split; lia. }
  repeat split; intros;
    destruct Hcases as [(E1 & ?) | [(E1 & E2 & ?) | (E1 & E2 & ?)]];
    rewrite ?E1, ?E2 in Hst; try congruence; try lia.
Qed.

(** A run of C2 on five categories: the CPU Critical alone, then the CPU
    and the disk. *)
Lemma calculate_health_spec_witness :
  (let h := PerformanceAnalyzer._calculate_health
              (PerformanceAnalyzer.__init__ default_config)
              [("cpu", reporting Critical "cpu"); ("memory", quiet);
               ("disk", quiet); ("network", quiet); ("processes", quiet)] in
   score h = 75 /\ health_status h = HWarning)
  /\ (let h := PerformanceAnalyzer._calculate_health
                 (PerformanceAnalyzer.__init__ default_config)
                 [("cpu", reporting Critical "cpu"); ("memory", quiet);
                  ("disk", reporting Critical "disk"); ("network", quiet);
                  ("processes", quiet)] in
      score h = 50 /\ health_status h = HCritical).
Proof.
  split.
  - apply (calculate_health_spec (PerformanceAnalyzer.__init__ default_config)
             [("cpu", reporting Critical "cpu"); ("memory", quiet);
              ("disk", quiet); ("network", quiet); ("processes", quiet)]);
      reflexivity.
  - apply (calculate_health_spec (PerformanceAnalyzer.__init__ default_config)
             [("cpu", reporting Critical "cpu"); ("memory", quiet);
              ("disk", reporting Critical "disk"); ("network", quiet);
              ("processes", quiet)]);
      reflexivity.
Defined.

Lemma visited_without_key : forall skip results,
  forallb (fun kv => negb (String.eqb (fst kv) skip)) results = true ->
  visited skip results = results.
Proof.
  intros skip results. unfold visited.
  induction results as [|kv results IH]; [reflexivity|].
  cbn [forallb filter]. intros H. apply andb_prop in H as [Hkv Hrest].
  rewrite Hkv. f_equal. now apply IH.
Qed.

Lemma no_aggregate_key_visited : forall results,
  no_aggregate_key results = true ->
  visited "health" results = results
  /\ visited "security_score" results = results.
Proof.
  intros results H. unfold no_aggregate_key in H.
  split; apply visited_without_key;
    rewrite forallb_forall in *; intros kv Hkv;
    specialize (H kv Hkv); apply andb_prop in H as [H1 H2]; assumption.
Qed.

Lemma aggregate_same_rule : forall results,
  no_aggregate_key results = true ->
  score (aggregate "security_score" Secure results)
  = score (aggregate "health" Healthy results)
  /\ health_issues (aggregate "security_score" Secure results)
     = health_issues (aggregate "health" Healthy results)
  /\ health_status (aggregate "security_score" Secure results)
     = security_label (health_status (aggregate "health" Healthy results)).
Proof.
  intros results H. destruct (no_aggregate_key_visited results H) as [Hh Hs].
  assert (Hsc : score (aggregate "security_score" Secure results)
                = score (aggregate "health" Healthy results))
    by (rewrite !aggregate_score, Hh, Hs; reflexivity).
  split; [exact Hsc|]. split.
  - rewrite !aggregate_issues, Hh, Hs. reflexivity.
  - rewrite !aggregate_status, Hsc.
    destruct (score (aggregate "health" Healthy results) <=? 50);
      [reflexivity|].
    destruct (score (aggregate "health" Healthy results) <=? 75);
      reflexivity.
Qed.

(** C3, amended: an all-Normal set of results aggregates to score 100 with
    no issues in each of the three domains; the status is Healthy for
    performance and resources and Secure for security.  The rule is shared:
    performance and resources aggregate every set of results alike, and on
    results with no entry named [health] or [security_score] the security
    aggregate has the score and the issues of the performance aggregate,
    and its status with Secure in the place of Healthy. *)
Theorem all_normal_aggregate :
  forall (pself : PerformanceAnalyzer.Self) (sself : SecurityAnalyzer.Self)
         (rself : ResourceAnalyzer.Self) results,
    (all_normal results ->
     PerformanceAnalyzer._calculate_health pself results
     = mkHealth Healthy 100 []
     /\ ResourceAnalyzer._calculate_health rself results
        = mkHealth Healthy 100 []
     /\ SecurityAnalyzer._calculate_security_score sself results
        = mkHealth Secure 100 [])
    /\ ResourceAnalyzer._calculate_health rself results
       = PerformanceAnalyzer._calculate_health pself results
    /\ (no_aggregate_key results = true ->
        score (SecurityAnalyzer._calculate_security_score sself results)
        = score (PerformanceAnalyzer._calculate_health pself results)
        /\ health_issues
             (SecurityAnalyzer._calculate_security_score sself results)
           = health_issues
               (PerformanceAnalyzer._calculate_health pself results)
        /\ health_status
             (SecurityAnalyzer._calculate_security_score sself results)
           = security_label
               (health_status
                  (PerformanceAnalyzer._calculate_health pself results))).
Proof.
  intros pself sself rself results.
  rewrite performance_calculate_health, resources_calculate_health,
    security_calculate_score.
  split.
  { intros Hall. repeat split; now apply aggregate_all_normal. }
  split; [reflexivity|].
  apply aggregate_same_rule.
Qed.

Lemma secure_results_all_normal : all_normal secure_results.
Proof. repeat constructor. Qed.

Lemma all_normal_aggregate_witness :
  all_normal secure_results
  /\ SecurityAnalyzer._calculate_security_score
       default_security secure_results
     = mkHealth Secure 100 []
  /\ (let results := [("firewall", reporting Critical "firewall");
                      ("antivirus", reporting Critical "antivirus");
                      ("ports", reporting Warning "ports")] in
      score (SecurityAnalyzer._calculate_security_score
               default_security results)
      = score (PerformanceAnalyzer._calculate_health
                 (PerformanceAnalyzer.__init__ default_config) results)
      /\ health_status (SecurityAnalyzer._calculate_security_score
                          default_security results)
         = security_label
             (health_status
                (PerformanceAnalyzer._calculate_health
                   (PerformanceAnalyzer.__init__ default_config) results))).
Proof.
  split; [exact secure_results_all_normal|].
  split.
  - apply (all_normal_aggregate
             (PerformanceAnalyzer.__init__ default_config)
             default_security
             (ResourceAnalyzer.__init__ default_config) secure_results).
    repeat constructor.
  - cbn zeta.
    destruct (all_normal_aggregate
                (PerformanceAnalyzer.__init__ default_config)
                default_security
                (ResourceAnalyzer.__init__ default_config)
                [("firewall", reporting Critical "firewall");
                 ("antivirus", reporting Critical "antivirus");
                 ("ports", reporting Warning "ports")])
      as (_ & _ & Hsame).
    destruct (Hsame eq_refl) as (Hscore & _ & Hstatus).
    split; [exact Hscore|exact Hstatus].
Defined.

(** C3 as stated fails in the security domain: six Normal categories
    aggregate to status Secure, not Healthy. *)
Lemma security_all_normal_not_healthy :
  all_normal secure_results
  /\ SecurityAnalyzer._calculate_security_score
       default_security secure_results
     <> mkHealth Healthy 100 [].
Proof.
  split.
  - repeat constructor.
  - vm_compute. discriminate.
Qed.

(** C10: with every other category held fixed, replacing a Normal result by
    any other result never raises the aggregated score, in each domain. *)
Theorem health_score_monotone :
  forall (pself : PerformanceAnalyzer.Self) (sself : SecurityAnalyzer.Self)
         (rself : ResourceAnalyzer.Self) before after k r r',
    status r = Normal ->
    score (PerformanceAnalyzer._calculate_health pself
             (before ++ (k, r') :: after))
    <= score (PerformanceAnalyzer._calculate_health pself
                (before ++ (k, r) :: after))
    /\ score (ResourceAnalyzer._calculate_health rself
                (before ++ (k, r') :: after))
       <= score (ResourceAnalyzer._calculate_health rself
                   (before ++ (k, r) :: after))
    /\ score (SecurityAnalyzer._calculate_security_score sself
                (before ++ (k, r') :: after))
       <= score (SecurityAnalyzer._calculate_security_score sself
                   (before ++ (k, r) :: after)).
Proof.
  intros. rewrite !performance_calculate_health, !resources_calculate_health,
    !security_calculate_score.
  repeat split; now apply aggregate_monotone.
Qed.

Lemma health_score_monotone_witness :
  score (PerformanceAnalyzer._calculate_health
           (PerformanceAnalyzer.__init__ default_config)
           ([("cpu", reporting Warning "cpu")]
            ++ ("memory", reporting Critical "memory") :: [("disk", quiet)]))
  <= score (PerformanceAnalyzer._calculate_health
              (PerformanceAnalyzer.__init__ default_config)
              ([("cpu", reporting Warning "cpu")]
               ++ ("memory", quiet) :: [("disk", quiet)])).
Proof.
  apply (health_score_monotone
           (PerformanceAnalyzer.__init__ default_config)
           default_security
           (ResourceAnalyzer.__init__ default_config)
           [("cpu", reporting Warning "cpu")] [("disk", quiet)]
           "memory" quiet (reporting Critical "memory")).
  reflexivity.
Defined.

(** C7: the score has no floor at 0.  On [exposed_host] the security
    analyzer finds firewall, antivirus and SSL Critical and ports, services
    and updates Warning, and the aggregate is 100 - 3*25 - 3*10 = -5 with
    status Critical. *)
Theorem security_score_negative :
  forall self : SecurityAnalyzer.Self,
  exists r h,
    SecurityAnalyzer.analyze self exposed_host = Ok r
    /\ category_status r "firewall" = Some Critical
    /\ category_status r "antivirus" = Some Critical
    /\ category_status r "ssl" = Some Critical
    /\ category_status r "ports" = Some Warning
    /\ category_status r "services" = Some Warning
    /\ category_status r "updates" = Some Warning
    /\ health_of r "security_score" = Some h
    /\ score h = 100 - 3 * 25 - 3 * 10
    /\ score h = -5
    /\ score h < 0
    /\ health_status h = HCritical.
Proof.
  intros self. eexists. eexists.
  split; [vm_compute; reflexivity|].
  repeat split; vm_compute; reflexivity.
Qed.

(** ** The shape of an analysis *)

Ltac step_bind :=
  match goal with
  | |- context [bind ?c _] =>
      let E := fresh "E" in destruct c eqn:E; cbn [bind]; try discriminate
  end.

Lemma security_analyze_inv : forall self m r,
  SecurityAnalyzer.analyze self m = Ok r ->
  exists p s u f a c,
    SecurityAnalyzer._analyze_ports self (dict_get m "ports" (PList [])) = Ok p
    /\ SecurityAnalyzer._analyze_services self
         (dict_get m "services" (PList [])) = Ok s
    /\ SecurityAnalyzer._analyze_updates self
         (dict_get m "updates" (PDict [])) = Ok u
    /\ SecurityAnalyzer._analyze_firewall self
         (dict_get m "firewall" (PDict [])) = Ok f
    /\ SecurityAnalyzer._analyze_antivirus self
         (dict_get m "antivirus" (PDict [])) = Ok a
    /\ SecurityAnalyzer._analyze_ssl self (dict_get m "ssl" (PList [])) = Ok c
    /\ r = [("ports", ECategory p); ("services", ECategory s);
            ("updates", ECategory u); ("firewall", ECategory f);
            ("antivirus", ECategory a); ("ssl", ECategory c);
            ("security_score",
             EHealth (SecurityAnalyzer._calculate_security_score self
                        [("ports", p); ("services", s); ("updates", u);
                         ("firewall", f); ("antivirus", a); ("ssl", c)]))].
Proof.
  intros self m r. unfold SecurityAnalyzer.analyze.
  do 6 step_bind. intros H. injection H as <-.
  do 6 eexists. repeat split; reflexivity.
Qed.

Lemma performance_analyze_inv : forall self m r,
  PerformanceAnalyzer.analyze self m = Ok r ->
  exists c me d n p,
    PerformanceAnalyzer._analyze_cpu self (dict_get m "cpu" (PDict [])) = Ok c
    /\ PerformanceAnalyzer._analyze_memory self
         (dict_get m "memory" (PDict [])) = Ok me
    /\ PerformanceAnalyzer._analyze_disk self
         (dict_get m "disk" (PDict [])) = Ok d
    /\ PerformanceAnalyzer._analyze_network self
         (dict_get m "network" (PDict [])) = Ok n
    /\ PerformanceAnalyzer._analyze_processes self
         (dict_get m "processes" (PList [])) = Ok p
    /\ r = [("cpu", ECategory c); ("memory", ECategory me);
            ("disk", ECategory d); ("network", ECategory n);
            ("processes", ECategory p);
            ("health",
             EHealth (PerformanceAnalyzer._calculate_health self
                        [("cpu", c); ("memory", me); ("disk", d);
                         ("network", n); ("processes", p)]))].
Proof.
  intros self m r. unfold PerformanceAnalyzer.analyze.
  do 5 step_bind. intros H. injection H as <-.
  do 5 eexists. repeat split; reflexivity.
Qed.

Lemma resources_analyze_inv : forall self m r,
  ResourceAnalyzer.analyze self m = Ok r ->
  exists d me s f p,
    ResourceAnalyzer._analyze_disk self (dict_get m "disk" (PDict [])) = Ok d
    /\ ResourceAnalyzer._analyze_memory self
         (dict_get m "memory" (PDict [])) = Ok me
    /\ ResourceAnalyzer._analyze_swap self
         (dict_get m "swap" (PDict [])) = Ok s
    /\ ResourceAnalyzer._analyze_file_system self
         (dict_get m "file_system" (PDict [])) = Ok f
    /\ ResourceAnalyzer._analyze_processes self
         (dict_get m "processes" (PList [])) = Ok p
    /\ r = [("disk", ECategory d); ("memory", ECategory me);
            ("swap", ECategory s); ("file_system", ECategory f);
            ("processes", ECategory p);
            ("health",
             EHealth (ResourceAnalyzer._calculate_health self
                        [("disk", d); ("memory", me); ("swap", s);
                         ("file_system", f); ("processes", p)]))].
Proof.
  intros self m r. unfold ResourceAnalyzer.analyze.
  do 5 step_bind. intros H. injection H as <-.
  do 5 eexists. repeat split; reflexivity.
Qed.

(** The two sibling analyzers keep their aggregate under [health]. *)
Lemma performance_health_key : forall self m r,
  PerformanceAnalyzer.analyze self m = Ok r ->
  exists h, health_of r "health" = Some h.
Proof.
  intros self m r H.
  destruct (performance_analyze_inv _ _ _ H) as (c & me & d & n & p & H').
  destruct H' as (_ & _ & _ & _ & _ & ->). eexists. reflexivity.
Qed.

Lemma resources_health_key : forall self m r,
  ResourceAnalyzer.analyze self m = Ok r ->
  exists h, health_of r "health" = Some h.
Proof.
  intros self m r H.
  destruct (resources_analyze_inv _ _ _ H) as (d & me & s & f & p & H').
  destruct H' as (_ & _ & _ & _ & _ & ->). eexists. reflexivity.
Qed.

(** C4, the code at the security analyzer: whatever the snapshot, the
    returned dict has no [health] key; the aggregate sits under
    [security_score]. *)
Theorem security_result_lacks_health :
  forall (self : SecurityAnalyzer.Self) m r,
    SecurityAnalyzer.analyze self m = Ok r ->
    lookup "health" r = None
    /\ exists h, health_of r "security_score" = Some h.
Proof.
  intros self m r H.
  destruct (security_analyze_inv _ _ _ H) as (p & s & u & f & a & c & H').
  destruct H' as (_ & _ & _ & _ & _ & _ & ->).
  split; [reflexivity|]. eexists. reflexivity.
Qed.

Lemma security_result_lacks_health_witness :
  exists r,
    SecurityAnalyzer.analyze default_security []
    = Ok r
    /\ lookup "health" r = None
    /\ exists h, health_of r "security_score" = Some h.
Proof.
  eexists. split; [vm_compute; reflexivity|].
  apply (security_result_lacks_health
           default_security []).
  vm_compute. reflexivity.
Defined.

(** ** The security checks *)









Lemma default_security_constructed :
  SecurityAnalyzer.__init__ default_config = Ok default_security.
Proof. reflexivity. Qed.





(** ** The usage-percentage evaluators *)

Lemma Qle_bool_false : forall x y : Q, Qle_bool x y = false -> (y < x)%Q.
Proof.
  intros x y H. apply Qnot_le_lt. intros Hle.
  apply Qle_bool_iff in Hle. congruence.
Qed.

Lemma py_ge_num : forall v u t,
  as_num v = Some u -> py_ge v t = Ok (Qle_bool t u).
Proof. intros v u t H. unfold py_ge. now rewrite H. Qed.

(** The two comparisons decide the status; [usage_cases] splits on them and
    leaves the order facts in the context. *)
Ltac usage_cases u t :=
  let Ec := fresh "Ec" in
  let Ew := fresh "Ew" in
  destruct (Qle_bool (critical t) u) eqn:Ec;
  [ apply Qle_bool_iff in Ec
  | apply Qle_bool_false in Ec;
    destruct (Qle_bool (warning t) u) eqn:Ew;
    [ apply Qle_bool_iff in Ew | apply Qle_bool_false in Ew ] ];
  cbn [bind]; eexists; (split; [reflexivity|]);
  cbn [status issues set_status append_issue fields app];
  repeat split; intros;
  try discriminate; try congruence; try lra; eauto.

Ltac usage_rule_of f :=
  intros record u Hu Hwc; unfold f; cbn [py_get bind];
  rewrite !(py_ge_num _ u) by exact Hu.

(** C1: each of the six usage-percentage evaluators (CPU, memory and disk
    of the performance analyzer; disk, memory and swap of the resource
    analyzer) returns Critical iff the usage reaches the critical cutoff,
    Warning iff it reaches the warning cutoff but not the critical one, and
    Normal iff it is below the warning cutoff; both cutoffs are inclusive;
    a message is appended exactly when the status is not Normal. *)
Theorem usage_evaluators_follow_thresholds :
  forall (pself : PerformanceAnalyzer.Self) (rself : ResourceAnalyzer.Self),
    usage_rule (PerformanceAnalyzer._analyze_cpu pself)
               (PerformanceAnalyzer.cpu (PerformanceAnalyzer.thresholds pself))
    /\ usage_rule (PerformanceAnalyzer._analyze_memory pself)
         (PerformanceAnalyzer.memory (PerformanceAnalyzer.thresholds pself))
    /\ usage_rule (PerformanceAnalyzer._analyze_disk pself)
         (PerformanceAnalyzer.disk (PerformanceAnalyzer.thresholds pself))
    /\ usage_rule (ResourceAnalyzer._analyze_disk rself)
         (ResourceAnalyzer.disk (ResourceAnalyzer.thresholds rself))
    /\ usage_rule (ResourceAnalyzer._analyze_memory rself)
         (ResourceAnalyzer.memory (ResourceAnalyzer.thresholds rself))
    /\ usage_rule (ResourceAnalyzer._analyze_swap rself)
         (ResourceAnalyzer.swap (ResourceAnalyzer.thresholds rself)).
Proof.
  intros pself rself. repeat split.
  - usage_rule_of PerformanceAnalyzer._analyze_cpu.
    usage_cases u (PerformanceAnalyzer.cpu (PerformanceAnalyzer.thresholds pself)).
  - usage_rule_of PerformanceAnalyzer._analyze_memory.
    usage_cases u (PerformanceAnalyzer.memory (PerformanceAnalyzer.thresholds pself)).
  - usage_rule_of PerformanceAnalyzer._analyze_disk.
    usage_cases u (PerformanceAnalyzer.disk (PerformanceAnalyzer.thresholds pself)).
  - usage_rule_of ResourceAnalyzer._analyze_disk.
    usage_cases u (ResourceAnalyzer.disk (ResourceAnalyzer.thresholds rself)).
  - usage_rule_of ResourceAnalyzer._analyze_memory.
    usage_cases u (ResourceAnalyzer.memory (ResourceAnalyzer.thresholds rself)).
  - usage_rule_of ResourceAnalyzer._analyze_swap.
    usage_cases u (ResourceAnalyzer.swap (ResourceAnalyzer.thresholds rself)).
Qed.

(** C1 at the default CPU cutoffs 80 and 90: a usage of exactly 80 is
    Warning, with one message. *)
Lemma usage_evaluators_follow_thresholds_witness :
  exists r,
    PerformanceAnalyzer._analyze_cpu
      (PerformanceAnalyzer.__init__ default_config)
      (PDict [("usage", PFloat 80.0)]) = Ok r
    /\ status r = Warning
    /\ exists msg, issues r = [msg].
Proof.
  destruct (usage_evaluators_follow_thresholds
              (PerformanceAnalyzer.__init__ default_config)
              (ResourceAnalyzer.__init__ default_config)) as (Hcpu & _).
  assert (Hwc : (warning (PerformanceAnalyzer.cpu
                            (PerformanceAnalyzer.thresholds
                               (PerformanceAnalyzer.__init__ default_config)))
                 <= critical (PerformanceAnalyzer.cpu
                                (PerformanceAnalyzer.thresholds
                                   (PerformanceAnalyzer.__init__
                                      default_config))))%Q).
  { unfold Qle. cbn. lia. }
  destruct (Hcpu [("usage", PFloat 80.0)] 80.0%Q eq_refl Hwc)
    as (r & Hr & _ & _ & _ & _ & Hmsg & _ & Hboundary).
  exists r. split; [exact Hr|].
  assert (Hst : status r = Warning).
  { apply Hboundary; [reflexivity|]. unfold Qlt. cbn. lia. }
  split; [exact Hst|]. apply Hmsg. rewrite Hst. discriminate.
Defined.

(** ** The SSL evaluator *)

Lemma nonempty_filter : forall {A : Type} (f : A -> bool) (l : list A),
  nonempty (filter f l) = existsb f l.
Proof.
  intros A f l. induction l as [|x l IH]; [reflexivity|].
  cbn [filter existsb]. destruct (f x); [reflexivity|exact IH].
Qed.

Lemma nonempty_app : forall {A : Type} (l1 l2 : list A),
  nonempty (l1 ++ l2) = nonempty l1 || nonempty l2.
Proof. intros A [|x l1] l2; reflexivity. Qed.

Lemma truthy_list : forall l, truthy (PList l) = nonempty l.
Proof. intros [|x l]; reflexivity. Qed.

Lemma existsb_unexpired : forall (f g : PyVal -> bool) certs,
  existsb f certs = false ->
  existsb (fun c => negb (f c) && g c) certs = existsb g certs.
Proof.
  intros f g certs. induction certs as [|c certs IH]; [reflexivity|].
  cbn [existsb]. destruct (f c); cbn [orb negb andb]; [discriminate|].
  intros H. now rewrite IH.
Qed.

Lemma cert_loop : forall certs expired expiring_soon,
  Forall (fun c => is_dict c = true) certs ->
  for_each SecurityAnalyzer.cert_step certs (expired, expiring_soon)
  = Ok (expired ++ filter cert_expired certs,
        expiring_soon
        ++ filter (fun c => negb (cert_expired c) && cert_expiring_soon c)
                  certs).
Proof.
  intros certs expired expiring_soon Hall. revert expired expiring_soon.
  induction Hall as [|c certs Hc _ IH]; intros expired expiring_soon.
  - cbn. now rewrite !app_nil_r.
  - destruct c; try discriminate.
    cbn [for_each SecurityAnalyzer.cert_step py_get bind filter
         cert_expired cert_expiring_soon].
    destruct (truthy (dict_get d "expired" (PBool false)));
      cbn [bind negb andb].
    + rewrite IH, <- app_assoc. reflexivity.
    + destruct (truthy (dict_get d "expiring_soon" (PBool false)));
        cbn [bind]; rewrite IH, <- ?app_assoc; reflexivity.
Qed.

(** C9: on a list of certificate records the SSL evaluator returns Critical
    if any certificate is expired, else Warning if any is expiring soon,
    else Normal; [{expired: true}, {expiring_soon: true}] is Critical. *)
Theorem ssl_expired_takes_precedence :
  forall self : SecurityAnalyzer.Self,
    (forall certs,
       Forall (fun c => is_dict c = true) certs ->
       exists r,
         SecurityAnalyzer._analyze_ssl self (PList certs) = Ok r
         /\ status r = (if existsb cert_expired certs then Critical
                        else if existsb cert_expiring_soon certs then Warning
                        else Normal))
    /\ exists r,
         SecurityAnalyzer._analyze_ssl self
           (PList [PDict [("expired", PBool true)];
                   PDict [("expiring_soon", PBool true)]]) = Ok r
         /\ status r = Critical.
Proof.
  intros self. split.
  - intros certs Hall. unfold SecurityAnalyzer._analyze_ssl.
    cbn [py_len py_iter bind]. rewrite (cert_loop certs [] []) by exact Hall.
    cbn [bind app]. rewrite !truthy_list, !nonempty_filter.
    destruct (existsb cert_expired certs) eqn:E.
    + eexists. split; reflexivity.
    + rewrite (existsb_unexpired _ _ _ E).
      destruct (existsb cert_expiring_soon certs);
        eexists; split; reflexivity.
  - eexists. split; vm_compute; reflexivity.
Qed.

Lemma ssl_expired_takes_precedence_witness :
  exists r,
    SecurityAnalyzer._analyze_ssl default_security
      (PList [PDict [("expiring_soon", PBool true)];
              PDict [("expired", PBool true); ("expiring_soon", PBool true)]])
    = Ok r
    /\ status r = Critical.
Proof.
  destruct (ssl_expired_takes_precedence
              default_security) as (H & _).
  apply (H [PDict [("expiring_soon", PBool true)];
            PDict [("expired", PBool true); ("expiring_soon", PBool true)]]).
  repeat constructor.
Defined.

(** ** The ports evaluator *)

Lemma find_port_hashable : forall v,
  hashable v = true ->
  exists service,
    SecurityAnalyzer.find_port v = Ok service
    /\ (number_in v vulnerable_numbers
        = match service with Some _ => true | None => false end).
Proof.
  intros v Hv. unfold SecurityAnalyzer.find_port, number_in.
  destruct v; try discriminate; cbn [as_num];
    try (eexists; split; reflexivity);
    cbn [find existsb SecurityAnalyzer.vulnerable_ports vulnerable_numbers
         fst];
    repeat match goal with
           | |- context [Qeq_bool ?a ?b] => destruct (Qeq_bool a b)
           end;
    eexists; split; reflexivity.
Qed.

Lemma port_loop : forall ports open,
  Forall (fun p => port_record p = true) ports ->
  for_each SecurityAnalyzer.port_step ports open
  = Ok (open ++ map flagged_entry (filter port_vulnerable ports)).
Proof.
  intros ports open Hall. revert open.
  induction Hall as [|p ports Hp _ IH]; intros open.
  - cbn. now rewrite app_nil_r.
  - unfold port_record in Hp. apply andb_prop in Hp as [Hdict Hhash].
    destruct p; try discriminate. cbn [port_number] in Hhash.
    destruct (find_port_hashable _ Hhash) as (service & Hfind & Hin).
    cbn [for_each filter]. unfold SecurityAnalyzer.port_step at 1.
    unfold port_vulnerable at 1. cbn [py_get bind port_number].
    rewrite Hfind, Hin. cbn [bind].
    destruct service as [name|]; cbn [bind].
    + rewrite IH. cbn [map]. rewrite <- app_assoc. cbn [app].
      unfold flagged_entry at 2. cbn [port_number port_state].
      rewrite Hfind. reflexivity.
    + apply IH.
Qed.

Lemma port_number_flagged_entry : forall p,
  port_number (flagged_entry p) = port_number p.
Proof. reflexivity. Qed.

(** C5, amended: on a list of port records the ports evaluator flags
    exactly those whose number lies in {21, 22, 23, 25, 3389}, whatever
    their state; the status is Warning when a port is flagged and Normal
    otherwise.  For [{port: 22, state: open}, {port: 8080, state: open}]
    only port 22 is flagged and the status is Warning. *)
Theorem ports_flagged_by_number :
  forall self : SecurityAnalyzer.Self,
    (forall ports,
       Forall (fun p => port_record p = true) ports ->
       exists r,
         SecurityAnalyzer._analyze_ports self (PList ports) = Ok r
         /\ flagged_numbers r
            = map port_number (filter port_vulnerable ports)
         /\ status r = (if existsb port_vulnerable ports then Warning
                        else Normal))
    /\ exists r,
         SecurityAnalyzer._analyze_ports self
           (PList [PDict [("port", PInt 22); ("state", PStr "open")];
                   PDict [("port", PInt 8080); ("state", PStr "open")]])
         = Ok r
         /\ flagged_numbers r = [PInt 22]
         /\ status r = Warning.
Proof.
  intros self. split.
  - intros ports Hall. unfold SecurityAnalyzer._analyze_ports.
    cbn [py_len py_iter bind]. rewrite (port_loop ports []) by exact Hall.
    cbn [bind app]. rewrite truthy_list.
    assert (Hne : nonempty (map flagged_entry (filter port_vulnerable ports))
                  = existsb port_vulnerable ports).
    { rewrite <- nonempty_filter.
      destruct (filter port_vulnerable ports); reflexivity. }
    rewrite Hne.
    assert (Hnums : map port_number
                      (map flagged_entry (filter port_vulnerable ports))
                    = map port_number (filter port_vulnerable ports)).
    { rewrite map_map. apply map_ext. exact port_number_flagged_entry. }
    destruct (existsb port_vulnerable ports);
      eexists; (split; [reflexivity|]); split; try reflexivity;
      unfold flagged_numbers; cbn [fields set_status append_issue lookup];
      cbn; exact Hnums.
  - eexists. split; [vm_compute; reflexivity|].
    split; vm_compute; reflexivity.
Qed.

Lemma ports_flagged_by_number_witness :
  exists r,
    SecurityAnalyzer._analyze_ports default_security
      (PList [PDict [("port", PInt 3389)];
              PDict [("port", PInt 443); ("state", PStr "open")]]) = Ok r
    /\ flagged_numbers r = [PInt 3389]
    /\ status r = Warning.
Proof.
  destruct (ports_flagged_by_number
              default_security) as (H & _).
  apply (H [PDict [("port", PInt 3389)];
            PDict [("port", PInt 443); ("state", PStr "open")]]).
  repeat constructor.
Defined.

(** C5 as stated fails on a port that is not open: port 22 with state
    [closed] is flagged and the status is Warning, although no supplied port
    is both open and in the vulnerable set. *)
Lemma closed_port_is_flagged :
  exists r,
    SecurityAnalyzer._analyze_ports default_security
      (PList [PDict [("port", PInt 22); ("state", PStr "closed")]]) = Ok r
    /\ flagged_numbers r = [PInt 22]
    /\ status r = Warning
    /\ filter (fun p => port_open p && port_vulnerable p)
         [PDict [("port", PInt 22); ("state", PStr "closed")]] = [].
Proof.
  eexists. split; [vm_compute; reflexivity|].
  repeat split; vm_compute; reflexivity.
Qed.

(** ** Totality on well-shaped snapshots *)

Lemma returns_ok : forall {A : Type} (a : A), returns (Ok a).
Proof. intros A a. exists a. reflexivity. Qed.

Lemma py_gt_number : forall v t,
  is_number v = true -> exists b, py_gt v t = Ok b.
Proof.
  intros v t. unfold is_number, py_gt.
  destruct (as_num v); [eexists; reflexivity|discriminate].
Qed.

Lemma py_ge_number : forall v t,
  is_number v = true -> exists b, py_ge v t = Ok b.
Proof.
  intros v t. unfold is_number, py_ge.
  destruct (as_num v); [eexists; reflexivity|discriminate].
Qed.

Lemma for_each_returns :
  forall {A S : Type} (body : S -> A -> result S) (ok : A -> bool),
    (forall s x, ok x = true -> returns (body s x)) ->
    forall xs s, forallb ok xs = true -> returns (for_each body xs s).
Proof.
  intros A S body ok Hbody xs.
  induction xs as [|x xs IH]; intros s Hall; [apply returns_ok|].
  cbn [forallb] in Hall. apply andb_prop in Hall as [Hx Hxs].
  cbn [for_each]. destruct (Hbody s x Hx) as (s' & ->). cbn [bind].
  now apply IH.
Qed.

Lemma field_is_dict : forall check k default v,
  field_is check k default v = true ->
  exists d, v = PDict d /\ check (dict_get d k default) = true.
Proof.
  intros check k default v H. destruct v; try discriminate.
  eexists. split; [reflexivity|exact H].
Qed.

Lemma is_dict_inv : forall v, is_dict v = true -> exists d, v = PDict d.
Proof. intros v H. destruct v; try discriminate. eexists. reflexivity. Qed.

Lemma list_of_inv : forall check v,
  list_of check v = true -> exists l, v = PList l /\ forallb check l = true.
Proof.
  intros check v H. destruct v; try discriminate.
  eexists. split; [reflexivity|exact H].
Qed.

(** Once the usage is a number, the two comparisons return and so does the
    evaluator. *)
Ltac usage_returns Husage :=
  apply field_is_dict in Husage as (d & -> & Hnum);
  cbn [py_get bind];
  match goal with
  | |- context [py_ge ?v ?t] =>
      let b := fresh "b" in
      let E := fresh "E" in
      destruct (py_ge_number v t Hnum) as (b & E); rewrite E; cbn [bind];
      destruct b; [apply returns_ok|]
  end;
  match goal with
  | |- context [py_ge ?v ?t] =>
      let b := fresh "b" in
      let E := fresh "E" in
      destruct (py_ge_number v t Hnum) as (b & E); rewrite E; cbn [bind];
      destruct b; apply returns_ok
  end.

Lemma performance_cpu_returns : forall self v,
  usage_record v = true -> returns (PerformanceAnalyzer._analyze_cpu self v).
Proof.
  intros self v H. unfold PerformanceAnalyzer._analyze_cpu. usage_returns H.
Qed.

Lemma performance_memory_returns : forall self v,
  usage_record v = true -> returns (PerformanceAnalyzer._analyze_memory self v).
Proof.
  intros self v H. unfold PerformanceAnalyzer._analyze_memory. usage_returns H.
Qed.

Lemma performance_disk_returns : forall self v,
  usage_record v = true -> returns (PerformanceAnalyzer._analyze_disk self v).
Proof.
  intros self v H. unfold PerformanceAnalyzer._analyze_disk. usage_returns H.
Qed.

Lemma resources_disk_returns : forall self v,
  usage_record v = true -> returns (ResourceAnalyzer._analyze_disk self v).
Proof.
  intros self v H. unfold ResourceAnalyzer._analyze_disk. usage_returns H.
Qed.

Lemma resources_memory_returns : forall self v,
  usage_record v = true -> returns (ResourceAnalyzer._analyze_memory self v).
Proof.
  intros self v H. unfold ResourceAnalyzer._analyze_memory. usage_returns H.
Qed.

Lemma resources_swap_returns : forall self v,
  usage_record v = true -> returns (ResourceAnalyzer._analyze_swap self v).
Proof.
  intros self v H. unfold ResourceAnalyzer._analyze_swap. usage_returns H.
Qed.

Lemma performance_network_returns : forall self v,
  is_dict v = true -> returns (PerformanceAnalyzer._analyze_network self v).
Proof.
  intros self v H. apply is_dict_inv in H as (d & ->). apply returns_ok.
Qed.

(** Rewrites a comparison on a value known to be a number by its outcome
    and splits on it. *)
Ltac compare_number H :=
  match goal with
  | |- context [py_gt ?v ?t] =>
      let b := fresh "b" in
      let E := fresh "E" in
      destruct (py_gt_number v t H) as (b & E); rewrite E; cbn [bind];
      destruct b; cbn [bind]
  end.

Lemma performance_process_step_returns : forall acc p,
  process_record p = true ->
  returns (PerformanceAnalyzer.process_step acc p).
Proof.
  intros [high_cpu high_memory] p H. unfold process_record in H.
  apply andb_prop in H as [Hcpu Hmem].
  apply field_is_dict in Hcpu as (d & -> & Hcpu). cbn [field_is] in Hmem.
  unfold PerformanceAnalyzer.process_step. cbn [py_get bind].
  compare_number Hcpu; compare_number Hmem; apply returns_ok.
Qed.

Lemma performance_processes_returns : forall self v,
  list_of process_record v = true ->
  returns (PerformanceAnalyzer._analyze_processes self v).
Proof.
  intros self v H. apply list_of_inv in H as (l & -> & Hl).
  unfold PerformanceAnalyzer._analyze_processes. cbn [py_len py_iter bind].
  destruct (for_each_returns PerformanceAnalyzer.process_step process_record
              performance_process_step_returns l ([], []) Hl)
    as ([high_cpu high_memory] & ->).
  cbn [bind]. apply returns_ok.
Qed.

Lemma resources_process_step_returns : forall acc p,
  process_record p = true ->
  returns (ResourceAnalyzer.process_step acc p).
Proof.
  intros [[high_cpu high_memory] zombie] p H. unfold process_record in H.
  apply andb_prop in H as [Hcpu Hmem].
  apply field_is_dict in Hcpu as (d & -> & Hcpu). cbn [field_is] in Hmem.
  unfold ResourceAnalyzer.process_step. cbn [py_get bind].
  compare_number Hcpu; compare_number Hmem;
    destruct (py_eq_str (dict_get d "status" PNone) "zombie"); cbn [bind];
    apply returns_ok.
Qed.

Lemma resources_processes_returns : forall self v,
  list_of process_record v = true ->
  returns (ResourceAnalyzer._analyze_processes self v).
Proof.
  intros self v H. apply list_of_inv in H as (l & -> & Hl).
  unfold ResourceAnalyzer._analyze_processes. cbn [py_len py_iter bind].
  destruct (for_each_returns ResourceAnalyzer.process_step process_record
              resources_process_step_returns l ([], [], []) Hl)
    as ([[high_cpu high_memory] zombie] & ->).
  cbn [bind]. apply returns_ok.
Qed.

Lemma large_file_step_returns : forall acc f,
  field_is is_number "size" (PInt 0) f = true ->
  returns (ResourceAnalyzer.large_file_step acc f).
Proof.
  intros acc f H. apply field_is_dict in H as (d & -> & Hsize).
  unfold ResourceAnalyzer.large_file_step. cbn [py_get bind].
  compare_number Hsize; apply returns_ok.
Qed.

Lemma resources_file_system_returns : forall self v,
  file_system_record v = true ->
  returns (ResourceAnalyzer._analyze_file_system self v).
Proof.
  intros self v H. apply field_is_dict in H as (d & -> & Hfiles).
  apply list_of_inv in Hfiles as (l & Hl & Hall).
  unfold ResourceAnalyzer._analyze_file_system. cbn [py_get bind].
  rewrite Hl. cbn [py_iter bind].
  destruct (for_each_returns ResourceAnalyzer.large_file_step _
              large_file_step_returns l [] Hall) as (large & ->).
  cbn [bind]. destruct (truthy (PList large)); apply returns_ok.
Qed.

Lemma port_step_returns : forall acc p,
  port_record p = true -> returns (SecurityAnalyzer.port_step acc p).
Proof.
  intros acc p H. unfold port_record in H. apply andb_prop in H as [Hd Hh].
  apply is_dict_inv in Hd as (d & ->). cbn [port_number] in Hh.
  destruct (find_port_hashable _ Hh) as (service & Hfind & _).
  unfold SecurityAnalyzer.port_step. cbn [py_get bind]. rewrite Hfind.
  cbn [bind]. destruct service; apply returns_ok.
Qed.

Lemma security_ports_returns : forall self v,
  list_of port_record v = true ->
  returns (SecurityAnalyzer._analyze_ports self v).
Proof.
  intros self v H. apply list_of_inv in H as (l & -> & Hl).
  unfold SecurityAnalyzer._analyze_ports. cbn [py_len py_iter bind].
  destruct (for_each_returns SecurityAnalyzer.port_step port_record
              port_step_returns l [] Hl) as (open & ->).
  cbn [bind]. destruct (truthy (PList open)); apply returns_ok.
Qed.

Lemma service_step_returns : forall acc s,
  service_record s = true -> returns (SecurityAnalyzer.service_step acc s).
Proof.
  intros acc s H. apply field_is_dict in H as (d & -> & Hname).
  unfold SecurityAnalyzer.service_step. cbn [py_get bind].
  destruct (dict_get d "name" (PStr "")); try discriminate.
  cbn [py_lower bind].
  destruct (existsb _ SecurityAnalyzer.vulnerable_services); cbn [bind];
    apply returns_ok.
Qed.

Lemma security_services_returns : forall self v,
  list_of service_record v = true ->
  returns (SecurityAnalyzer._analyze_services self v).
Proof.
  intros self v H. apply list_of_inv in H as (l & -> & Hl).
  unfold SecurityAnalyzer._analyze_services. cbn [py_len py_iter bind].
  destruct (for_each_returns SecurityAnalyzer.service_step service_record
              service_step_returns l [] Hl) as (vulnerable & ->).
  cbn [bind]. destruct (truthy (PList vulnerable)); apply returns_ok.
Qed.

Lemma security_updates_returns : forall self v,
  field_is is_number "updates_available" (PInt 0) v = true ->
  returns (SecurityAnalyzer._analyze_updates self v).
Proof.
  intros self v H. apply field_is_dict in H as (d & -> & Hnum).
  unfold SecurityAnalyzer._analyze_updates. cbn [py_get bind].
  compare_number Hnum; apply returns_ok.
Qed.

Lemma security_firewall_returns : forall self v,
  is_dict v = true -> returns (SecurityAnalyzer._analyze_firewall self v).
Proof.
  intros self v H. apply is_dict_inv in H as (d & ->).
  unfold SecurityAnalyzer._analyze_firewall. cbn [py_get bind].
  destruct (negb _); apply returns_ok.
Qed.

Lemma security_antivirus_returns : forall self v,
  is_dict v = true -> returns (SecurityAnalyzer._analyze_antivirus self v).
Proof.
  intros self v H. apply is_dict_inv in H as (d & ->).
  unfold SecurityAnalyzer._analyze_antivirus. cbn [py_get bind].
  destruct (negb _); apply returns_ok.
Qed.

Lemma security_ssl_returns : forall self v,
  list_of is_dict v = true -> returns (SecurityAnalyzer._analyze_ssl self v).
Proof.
  intros self v H. apply list_of_inv in H as (l & -> & Hl).
  unfold SecurityAnalyzer._analyze_ssl. cbn [py_len py_iter bind].
  rewrite (cert_loop l [] []) by (apply Forall_forall; intros c Hc;
    now apply (proj1 (forallb_forall _ _) Hl)).
  cbn [bind]. destruct (truthy _); [apply returns_ok|].
  destruct (truthy _); apply returns_ok.
Qed.

(** Consumes the next evaluator call of [analyze]. *)
Ltac next_evaluator L H :=
  let r := fresh "r" in
  let E := fresh "E" in
  destruct (L _ H) as (r & E); rewrite E; cbn [bind].

Lemma performance_analyze_returns : forall self m,
  performance_shape m = true -> returns (PerformanceAnalyzer.analyze self m).
Proof.
  intros self m H. unfold performance_shape in H.
  apply andb_prop in H as [H Hprocesses]. apply andb_prop in H as [H Hnetwork].
  apply andb_prop in H as [H Hdisk]. apply andb_prop in H as [Hcpu Hmemory].
  unfold PerformanceAnalyzer.analyze.
  next_evaluator (performance_cpu_returns self) Hcpu.
  next_evaluator (performance_memory_returns self) Hmemory.
  next_evaluator (performance_disk_returns self) Hdisk.
  next_evaluator (performance_network_returns self) Hnetwork.
  next_evaluator (performance_processes_returns self) Hprocesses.
  apply returns_ok.
Qed.

Lemma security_analyze_returns : forall self m,
  security_shape m = true -> returns (SecurityAnalyzer.analyze self m).
Proof.
  intros self m H. unfold security_shape in H.
  apply andb_prop in H as [H Hssl]. apply andb_prop in H as [H Hantivirus].
  apply andb_prop in H as [H Hfirewall]. apply andb_prop in H as [H Hupdates].
  apply andb_prop in H as [Hports Hservices].
  unfold SecurityAnalyzer.analyze.
  next_evaluator (security_ports_returns self) Hports.
  next_evaluator (security_services_returns self) Hservices.
  next_evaluator (security_updates_returns self) Hupdates.
  next_evaluator (security_firewall_returns self) Hfirewall.
  next_evaluator (security_antivirus_returns self) Hantivirus.
  next_evaluator (security_ssl_returns self) Hssl.
  apply returns_ok.
Qed.

Lemma resources_analyze_returns : forall self m,
  resources_shape m = true -> returns (ResourceAnalyzer.analyze self m).
Proof.
  intros self m H. unfold resources_shape in H.
  apply andb_prop in H as [H Hprocesses]. apply andb_prop in H as [H Hfs].
  apply andb_prop in H as [H Hswap]. apply andb_prop in H as [Hdisk Hmemory].
  unfold ResourceAnalyzer.analyze.
  next_evaluator (resources_disk_returns self) Hdisk.
  next_evaluator (resources_memory_returns self) Hmemory.
  next_evaluator (resources_swap_returns self) Hswap.
  next_evaluator (resources_file_system_returns self) Hfs.
  next_evaluator (resources_processes_returns self) Hprocesses.
  apply returns_ok.
Qed.

Lemma dict_get_missing : forall (m : dict) k default,
  lookup k m = None -> dict_get m k default = default.
Proof. intros m k default H. unfold dict_get. now rewrite H. Qed.

(** C8, amended: for analyzers whose cutoffs are numbers, as a [Threshold]
    holds them, and on every snapshot whose present categories have the
    shape the evaluators read (records, lists of records, numbers where a
    value is compared, a string where it is lower-cased), [analyze] of each
    domain returns.  A category the snapshot lacks is read as the empty
    record or list, so a snapshot with none of the categories is
    well-shaped for all three analyzers. *)
Theorem analyze_total_on_shaped_snapshots :
  forall (pself : PerformanceAnalyzer.Self) (sself : SecurityAnalyzer.Self)
         (rself : ResourceAnalyzer.Self) (m : dict),
    (performance_shape m = true ->
     returns (PerformanceAnalyzer.analyze pself m))
    /\ (security_shape m = true ->
        returns (SecurityAnalyzer.analyze sself m))
    /\ (resources_shape m = true ->
        returns (ResourceAnalyzer.analyze rself m))
    /\ (forall k default,
          lookup k m = None -> dict_get m k default = default)
    /\ ((forall k, In k category_keys -> lookup k m = None) ->
        performance_shape m = true /\ security_shape m = true
        /\ resources_shape m = true).
Proof.
  intros pself sself rself m.
  split; [apply performance_analyze_returns|].
  split; [apply security_analyze_returns|].
  split; [apply resources_analyze_returns|].
  split; [intros k default; apply dict_get_missing|].
  intros Hmissing.
  unfold performance_shape, security_shape, resources_shape.
  rewrite !dict_get_missing by (apply Hmissing; cbn [In category_keys]; tauto).
  repeat split; reflexivity.
Qed.

(** C8 on a snapshot that holds only the system information, so that
    every category is missing, and on [exposed_host]. *)
Lemma analyze_total_on_shaped_snapshots_witness :
  returns (PerformanceAnalyzer.analyze
             (PerformanceAnalyzer.__init__ default_config)
             [("system", PDict [("hostname", PStr "host")])])
  /\ returns (SecurityAnalyzer.analyze
                default_security exposed_host)
  /\ returns (ResourceAnalyzer.analyze
                (ResourceAnalyzer.__init__ default_config)
                [("system", PDict [("hostname", PStr "host")])])
  /\ dict_get [("system", PDict [("hostname", PStr "host")])] "network"
       (PDict []) = PDict []
  /\ resources_shape [("system", PDict [("hostname", PStr "host")])] = true.
Proof.
  pose proof (analyze_total_on_shaped_snapshots
                (PerformanceAnalyzer.__init__ default_config)
                default_security
                (ResourceAnalyzer.__init__ default_config)
                [("system", PDict [("hostname", PStr "host")])])
    as (Hperf & _ & Hres & Hget & Hnone).
  pose proof (analyze_total_on_shaped_snapshots
                (PerformanceAnalyzer.__init__ default_config)
                default_security
                (ResourceAnalyzer.__init__ default_config) exposed_host)
    as (_ & Hsec & _).
  split; [apply Hperf; reflexivity|].
  split; [apply Hsec; reflexivity|].
  split; [apply Hres; reflexivity|].
  split; [apply Hget; reflexivity|].
  apply Hnone. intros k Hk. cbn [In category_keys] in Hk.
  repeat destruct Hk as [<-|Hk]; try reflexivity. contradiction.
Defined.

(** C8 as stated fails when a field is present but holds no number: a
    process whose counters read [None] makes the performance and the
    resource analysis raise [TypeError], and a [firewall] entry of [None]
    makes the security analysis raise [AttributeError]. *)
Lemma analyze_raises_on_unreadable_field :
  PerformanceAnalyzer.analyze (PerformanceAnalyzer.__init__ default_config)
    [("processes", PList [unreadable_process])] = Raise TypeError
  /\ ResourceAnalyzer.analyze (ResourceAnalyzer.__init__ default_config)
       [("processes", PList [unreadable_process])] = Raise TypeError
  /\ SecurityAnalyzer.analyze default_security
       [("firewall", PNone)] = Raise AttributeError
  /\ ~ returns (PerformanceAnalyzer.analyze
                  (PerformanceAnalyzer.__init__ default_config)
                  [("processes", PList [unreadable_process])]).
Proof.
  split; [vm_compute; reflexivity|].
  split; [vm_compute; reflexivity|].
  split; [vm_compute; reflexivity|].
  intros (r & H). vm_compute in H. discriminate.
Qed.

(** * Further properties of the analyzers *)

(** ** Usage evaluators under any cutoffs *)

Lemma py_ge_not_number : forall v t,
  is_number v = false -> py_ge v t = Raise TypeError.
Proof.
  intros v t. unfold is_number, py_ge.
  destruct (as_num v); [discriminate|reflexivity].
Qed.

Ltac usage_cases_unordered u t :=
  let Ec := fresh "Ec" in
  let Ew := fresh "Ew" in
  destruct (Qle_bool (critical t) u) eqn:Ec;
  [ apply Qle_bool_iff in Ec
  | apply Qle_bool_false in Ec;
    destruct (Qle_bool (warning t) u) eqn:Ew;
    [ apply Qle_bool_iff in Ew | apply Qle_bool_false in Ew ] ];
  cbn [bind]; eexists; (split; [reflexivity|]);
  cbn [status issues set_status append_issue fields app];
  repeat split; intros;
  repeat match goal with H : _ /\ _ |- _ => destruct H end;
  try discriminate; try congruence; try lra.

Ltac usage_rule_unordered_of f :=
  intros record u Hu; unfold f; cbn [py_get bind];
  rewrite !(py_ge_num _ u) by exact Hu.

(** X1: the six usage evaluators decide the status by the two comparisons
    alone, whatever the order of the cutoffs: Critical iff the usage reaches
    the critical cutoff, Warning iff it reaches the warning cutoff and not
    the critical one, Normal iff it is below both.  When the configured
    critical cutoff is not above the warning cutoff, no usage is ever
    reported as Warning. *)
Theorem usage_status_any_cutoffs :
  forall (pself : PerformanceAnalyzer.Self) (rself : ResourceAnalyzer.Self),
    usage_rule_unordered (PerformanceAnalyzer._analyze_cpu pself)
      (PerformanceAnalyzer.cpu (PerformanceAnalyzer.thresholds pself))
    /\ usage_rule_unordered (PerformanceAnalyzer._analyze_memory pself)
         (PerformanceAnalyzer.memory (PerformanceAnalyzer.thresholds pself))
    /\ usage_rule_unordered (PerformanceAnalyzer._analyze_disk pself)
         (PerformanceAnalyzer.disk (PerformanceAnalyzer.thresholds pself))
    /\ usage_rule_unordered (ResourceAnalyzer._analyze_disk rself)
         (ResourceAnalyzer.disk (ResourceAnalyzer.thresholds rself))
    /\ usage_rule_unordered (ResourceAnalyzer._analyze_memory rself)
         (ResourceAnalyzer.memory (ResourceAnalyzer.thresholds rself))
    /\ usage_rule_unordered (ResourceAnalyzer._analyze_swap rself)
         (ResourceAnalyzer.swap (ResourceAnalyzer.thresholds rself)).
Proof.
  intros pself rself. repeat split.
  - usage_rule_unordered_of PerformanceAnalyzer._analyze_cpu.
    usage_cases_unordered u
      (PerformanceAnalyzer.cpu (PerformanceAnalyzer.thresholds pself)).
  - usage_rule_unordered_of PerformanceAnalyzer._analyze_memory.
    usage_cases_unordered u
      (PerformanceAnalyzer.memory (PerformanceAnalyzer.thresholds pself)).
  - usage_rule_unordered_of PerformanceAnalyzer._analyze_disk.
    usage_cases_unordered u
      (PerformanceAnalyzer.disk (PerformanceAnalyzer.thresholds pself)).
  - usage_rule_unordered_of ResourceAnalyzer._analyze_disk.
    usage_cases_unordered u
      (ResourceAnalyzer.disk (ResourceAnalyzer.thresholds rself)).
  - usage_rule_unordered_of ResourceAnalyzer._analyze_memory.
    usage_cases_unordered u
      (ResourceAnalyzer.memory (ResourceAnalyzer.thresholds rself)).
  - usage_rule_unordered_of ResourceAnalyzer._analyze_swap.
    usage_cases_unordered u
      (ResourceAnalyzer.swap (ResourceAnalyzer.thresholds rself)).
Qed.

Lemma usage_status_any_cutoffs_witness :
  exists r,
    PerformanceAnalyzer._analyze_cpu
      (PerformanceAnalyzer.__init__ inverted_config)
      (PDict [("usage", PFloat 92.5)]) = Ok r
    /\ status r <> Warning.
Proof.
  destruct (usage_status_any_cutoffs
              (PerformanceAnalyzer.__init__ inverted_config)
              (ResourceAnalyzer.__init__ default_config)) as (Hcpu & _).
  destruct (Hcpu [("usage", PFloat 92.5)] 92.5%Q eq_refl)
    as (r & Hr & _ & _ & _ & Hnever).
  exists r. split; [exact Hr|]. apply Hnever. unfold Qle. cbn. lia.
Defined.

(** ** When the usage evaluators raise *)

Ltac usage_failures_of f Hreturns :=
  intros v; split; [|split];
  [ intros Hd; destruct v; try discriminate Hd; reflexivity
  | intros Hd Hn; destruct v; try discriminate Hd;
    cbn [record_field] in Hn; unfold f; cbn [py_get bind];
    rewrite py_ge_not_number by exact Hn; reflexivity
  | split;
    [ intros (r & Hr); destruct v; try discriminate Hr;
      unfold usage_record, field_is;
      match goal with
      | |- is_number ?x = true =>
          destruct (is_number x) eqn:Hn; [reflexivity|];
          unfold f in Hr; cbn [py_get bind] in Hr;
          rewrite py_ge_not_number in Hr by exact Hn; discriminate Hr
      end
    | apply Hreturns ] ].

(** X2: in an analyzer whose cutoffs are numbers, as a [Threshold] holds
    them, a usage evaluator raises [AttributeError] on anything that is not
    a record, raises [TypeError] on a record whose usage is present and not
    a number, and returns exactly on the records whose usage, 0.0 when
    absent, is a number. *)
Theorem usage_evaluators_failures :
  forall (pself : PerformanceAnalyzer.Self) (rself : ResourceAnalyzer.Self),
    usage_failures (PerformanceAnalyzer._analyze_cpu pself)
    /\ usage_failures (PerformanceAnalyzer._analyze_memory pself)
    /\ usage_failures (PerformanceAnalyzer._analyze_disk pself)
    /\ usage_failures (ResourceAnalyzer._analyze_disk rself)
    /\ usage_failures (ResourceAnalyzer._analyze_memory rself)
    /\ usage_failures (ResourceAnalyzer._analyze_swap rself).
Proof.
  intros pself rself.
  split; [|split; [|split; [|split; [|split]]]].
  - usage_failures_of PerformanceAnalyzer._analyze_cpu
      (performance_cpu_returns pself).
  - usage_failures_of PerformanceAnalyzer._analyze_memory
      (performance_memory_returns pself).
  - usage_failures_of PerformanceAnalyzer._analyze_disk
      (performance_disk_returns pself).
  - usage_failures_of ResourceAnalyzer._analyze_disk
      (resources_disk_returns rself).
  - usage_failures_of ResourceAnalyzer._analyze_memory
      (resources_memory_returns rself).
  - usage_failures_of ResourceAnalyzer._analyze_swap
      (resources_swap_returns rself).
Qed.

Lemma usage_evaluators_failures_witness :
  PerformanceAnalyzer._analyze_cpu
    (PerformanceAnalyzer.__init__ default_config) (PList [])
  = Raise AttributeError
  /\ ResourceAnalyzer._analyze_swap
       (ResourceAnalyzer.__init__ default_config)
       (PDict [("usage", PStr "12%")])
     = Raise TypeError
  /\ returns (PerformanceAnalyzer._analyze_memory
                (PerformanceAnalyzer.__init__ default_config)
                (PDict [("available", PInt 1024)])).
Proof.
  destruct (usage_evaluators_failures
              (PerformanceAnalyzer.__init__ default_config)
              (ResourceAnalyzer.__init__ default_config))
    as (Hcpu & Hmem & _ & _ & _ & Hswap).
  split; [|split].
  - apply (Hcpu (PList [])). reflexivity.
  - apply (Hswap (PDict [("usage", PStr "12%")])); reflexivity.
  - apply (Hmem (PDict [("available", PInt 1024)])). reflexivity.
Defined.

(** ** The process evaluators *)

Lemma py_gt_exceeds : forall v t,
  is_number v = true -> py_gt v t = Ok (exceeds v t).
Proof.
  intros v t. unfold is_number, py_gt, exceeds.
  destruct (as_num v); [reflexivity|discriminate].
Qed.

Lemma process_record_inv : forall p,
  process_record p = true ->
  exists d, p = PDict d
            /\ is_number (dict_get d "cpu_percent" (PInt 0)) = true
            /\ is_number (dict_get d "memory_percent" (PInt 0)) = true.
Proof.
  intros p H. unfold process_record in H. apply andb_prop in H as [Hc Hm].
  destruct p; try discriminate. eexists. repeat split; assumption.
Qed.

Lemma performance_process_loop : forall l high_cpu_acc high_memory_acc,
  forallb process_record l = true ->
  for_each PerformanceAnalyzer.process_step l (high_cpu_acc, high_memory_acc)
  = Ok (high_cpu_acc ++ map high_cpu_entry (filter high_cpu l),
        high_memory_acc ++ map high_memory_entry (filter high_memory l)).
Proof.
  induction l as [|p l IH]; intros a b Hall.
  - cbn. now rewrite !app_nil_r.
  - cbn [forallb] in Hall. apply andb_prop in Hall as [Hp Hl].
    destruct (process_record_inv p Hp) as (d & -> & Hc & Hm).
    cbn [for_each filter]. unfold PerformanceAnalyzer.process_step at 1.
    unfold high_cpu at 1, high_memory at 1. cbn [py_get bind record_field].
    rewrite (py_gt_exceeds _ _ Hc). cbn [bind].
    destruct (exceeds (dict_get d "cpu_percent" (PInt 0)) 50); cbn [bind];
      rewrite (py_gt_exceeds _ _ Hm); cbn [bind];
      destruct (exceeds (dict_get d "memory_percent" (PInt 0)) 5);
      cbn [bind map]; rewrite IH by exact Hl; rewrite <- ?app_assoc;
      reflexivity.
Qed.

Lemma count_where_map : forall {A B : Type} (f : A -> bool) (g : A -> B) l,
  Z.of_nat (List.length (map g (filter f l))) = count_where f l.
Proof. intros. unfold count_where. now rewrite length_map. Qed.

Lemma count_where_nonneg : forall {A : Type} (f : A -> bool) l,
  0 <= count_where f l.
Proof. intros. unfold count_where. lia. Qed.

(** X3: on a list of process records the performance process evaluator
    keeps the processes with [cpu_percent > 50] and those with
    [memory_percent > 5], in order; the status is Warning iff more than five
    processes are in either list and Normal otherwise, with one message per
    list that is over five. *)
Theorem performance_processes_spec :
  forall (self : PerformanceAnalyzer.Self) (l : list PyVal),
    forallb process_record l = true ->
    exists r,
      PerformanceAnalyzer._analyze_processes self (PList l) = Ok r
      /\ fields r
         = [("total", PInt (Z.of_nat (List.length l)));
            ("high_cpu", PList (map high_cpu_entry (filter high_cpu l)));
            ("high_memory",
             PList (map high_memory_entry (filter high_memory l)))]
      /\ (status r = Warning <->
          5 < count_where high_cpu l \/ 5 < count_where high_memory l)
      /\ (status r = Normal <->
          count_where high_cpu l <= 5 /\ count_where high_memory l <= 5)
      /\ Z.of_nat (List.length (issues r))
         = b2z (5 <? count_where high_cpu l)
           + b2z (5 <? count_where high_memory l).
Proof.
  intros self l Hall. unfold PerformanceAnalyzer._analyze_processes.
  cbn [py_len py_iter bind].
  rewrite (performance_process_loop l [] []) by exact Hall.
  cbn [bind app]. rewrite !count_where_map.
  destruct (5 <? count_where high_cpu l) eqn:Ec;
    destruct (5 <? count_where high_memory l) eqn:Em;
    eexists; (split; [reflexivity|]);
    cbn [fields status issues set_status append_issue app List.length b2z];
    (split; [reflexivity|]);
    repeat split; intros;
    repeat match goal with H : _ /\ _ |- _ => destruct H end;
    try discriminate; try reflexivity; try lia.
Qed.

Lemma performance_processes_spec_witness :
  exists r,
    PerformanceAnalyzer._analyze_processes
      (PerformanceAnalyzer.__init__ default_config)
      (PList [PDict [("pid", PInt 7); ("cpu_percent", PFloat 99.5)];
              PDict [("pid", PInt 8); ("memory_percent", PInt 5)]]) = Ok r
    /\ status r = Normal.
Proof.
  destruct (performance_processes_spec
              (PerformanceAnalyzer.__init__ default_config)
              [PDict [("pid", PInt 7); ("cpu_percent", PFloat 99.5)];
               PDict [("pid", PInt 8); ("memory_percent", PInt 5)]]
              eq_refl) as (r & Hr & _ & _ & Hnormal & _).
  exists r. split; [exact Hr|]. apply Hnormal. split; vm_compute; discriminate.
Defined.

Lemma resources_process_loop : forall l cpu_acc memory_acc zombie_acc,
  forallb process_record l = true ->
  for_each ResourceAnalyzer.process_step l (cpu_acc, memory_acc, zombie_acc)
  = Ok (cpu_acc ++ map high_cpu_entry (filter high_cpu l),
        memory_acc ++ map high_memory_entry (filter high_memory l),
        zombie_acc ++ map zombie_entry (filter is_zombie l)).
Proof.
  induction l as [|p l IH]; intros a b c Hall.
  - cbn. now rewrite !app_nil_r.
  - cbn [forallb] in Hall. apply andb_prop in Hall as [Hp Hl].
    destruct (process_record_inv p Hp) as (d & -> & Hc & Hm).
    cbn [for_each filter]. unfold ResourceAnalyzer.process_step at 1.
    unfold high_cpu at 1, high_memory at 1, is_zombie at 1.
    cbn [py_get bind record_field].
    rewrite (py_gt_exceeds _ _ Hc). cbn [bind].
    destruct (exceeds (dict_get d "cpu_percent" (PInt 0)) 50); cbn [bind];
      rewrite (py_gt_exceeds _ _ Hm); cbn [bind];
      destruct (exceeds (dict_get d "memory_percent" (PInt 0)) 5);
      cbn [bind map];
      destruct (py_eq_str (dict_get d "status" PNone) "zombie");
      cbn [bind map]; rewrite IH by exact Hl; rewrite <- ?app_assoc;
      reflexivity.
Qed.

Lemma nonempty_map : forall {A B : Type} (g : A -> B) (l : list A),
  nonempty (map g l) = nonempty l.
Proof. intros A B g [|x l]; reflexivity. Qed.

(** X4: on a list of process records the resource process evaluator keeps
    the high-CPU, the high-memory and the zombie processes, in order; the
    status is Warning iff there is a zombie or more than five processes in
    either of the other lists, and Normal otherwise; the messages come in
    the order zombie, CPU, memory, one for each condition that holds. *)
Theorem resources_processes_spec :
  forall (self : ResourceAnalyzer.Self) (l : list PyVal),
    forallb process_record l = true ->
    exists r,
      ResourceAnalyzer._analyze_processes self (PList l) = Ok r
      /\ fields r
         = [("total", PInt (Z.of_nat (List.length l)));
            ("high_cpu", PList (map high_cpu_entry (filter high_cpu l)));
            ("high_memory",
             PList (map high_memory_entry (filter high_memory l)));
            ("zombie", PList (map zombie_entry (filter is_zombie l)))]
      /\ (status r = Warning <->
          existsb is_zombie l = true \/ 5 < count_where high_cpu l
          \/ 5 < count_where high_memory l)
      /\ (status r = Normal <->
          existsb is_zombie l = false /\ count_where high_cpu l <= 5
          /\ count_where high_memory l <= 5)
      /\ issues r
         = (if existsb is_zombie l
            then [[Lit "Found "; Val (PInt (count_where is_zombie l));
                   Lit " zombie processes"]]
            else [])
           ++ (if 5 <? count_where high_cpu l
               then [[Lit "High number of CPU-intensive processes: ";
                      Val (PInt (count_where high_cpu l))]]
               else [])
           ++ (if 5 <? count_where high_memory l
               then [[Lit "High number of memory-intensive processes: ";
                      Val (PInt (count_where high_memory l))]]
               else []).
Proof.
  intros self l Hall. unfold ResourceAnalyzer._analyze_processes.
  cbn [py_len py_iter bind].
  rewrite (resources_process_loop l [] [] []) by exact Hall.
  cbn [bind app]. rewrite !count_where_map, truthy_list, nonempty_map,
    nonempty_filter.
  destruct (existsb is_zombie l) eqn:Ez;
    destruct (5 <? count_where high_cpu l) eqn:Ec;
    destruct (5 <? count_where high_memory l) eqn:Em;
    eexists; (split; [reflexivity|]);
    cbn [fields status issues set_status append_issue app];
    (split; [reflexivity|]);
    repeat split; intros;
    repeat match goal with
           | H : _ /\ _ |- _ => destruct H
           | H : _ \/ _ |- _ => destruct H
           end;
    try discriminate; try reflexivity; try lia; auto.
Qed.

Lemma resources_processes_spec_witness :
  exists r,
    ResourceAnalyzer._analyze_processes
      (ResourceAnalyzer.__init__ default_config)
      (PList [PDict [("pid", PInt 7); ("status", PStr "zombie")];
              PDict [("pid", PInt 8); ("status", PStr "running")]]) = Ok r
    /\ status r = Warning.
Proof.
  destruct (resources_processes_spec
              (ResourceAnalyzer.__init__ default_config)
              [PDict [("pid", PInt 7); ("status", PStr "zombie")];
               PDict [("pid", PInt 8); ("status", PStr "running")]]
              eq_refl) as (r & Hr & _ & Hwarning & _).
  exists r. split; [exact Hr|]. apply Hwarning. left. reflexivity.
Defined.

(** ** The file system evaluator *)

Lemma exceeds_int : forall z t : Z,
  exceeds (PInt z) (inject_Z t) = (t <? z).
Proof.
  intros z t. unfold exceeds, as_num, Qle_bool, inject_Z. cbn [Qnum Qden].
  rewrite !Z.mul_1_r. symmetry. apply Z.ltb_antisym.
Qed.

Lemma large_file_loop : forall files acc,
  forallb (field_is is_number "size" (PInt 0)) files = true ->
  for_each ResourceAnalyzer.large_file_step files acc
  = Ok (acc ++ filter large_file files).
Proof.
  induction files as [|f files IH]; intros acc Hall.
  - cbn. now rewrite app_nil_r.
  - cbn [forallb] in Hall. apply andb_prop in Hall as [Hf Hfiles].
    apply field_is_dict in Hf as (d & -> & Hsize).
    cbn [for_each filter]. unfold ResourceAnalyzer.large_file_step at 1.
    unfold large_file at 1. cbn [py_get bind record_field].
    change (inject_Z (1024 * 1024 * 1024)) with (inject_Z gibibyte).
    rewrite (py_gt_exceeds _ _ Hsize). cbn [bind].
    destruct (exceeds (dict_get d "size" (PInt 0)) (inject_Z gibibyte));
      cbn [bind]; rewrite IH by exact Hfiles; rewrite <- ?app_assoc;
      reflexivity.
Qed.

(** X5: the file system evaluator reports Warning iff some entry of
    [largest_files] has a size above 2^30 bytes, with one message carrying
    their number, and Normal otherwise; the comparison is strict, so a file
    of exactly 2^30 bytes is not counted. *)
Theorem file_system_spec :
  forall (self : ResourceAnalyzer.Self) (d : dict) (files : list PyVal),
    dict_get d "largest_files" (PList []) = PList files ->
    forallb (field_is is_number "size" (PInt 0)) files = true ->
    exists r,
      ResourceAnalyzer._analyze_file_system self (PDict d) = Ok r
      /\ (status r = Warning <-> existsb large_file files = true)
      /\ (status r = Normal <-> existsb large_file files = false)
      /\ issues r
         = (if existsb large_file files
            then [[Lit "Found "; Val (PInt (count_where large_file files));
                   Lit " files larger than 1GB"]]
            else [])
      /\ forall z, large_file (PDict [("size", PInt z)]) = (2 ^ 30 <? z).
Proof.
  intros self d files Hfiles Hall.
  unfold ResourceAnalyzer._analyze_file_system. cbn [py_get bind].
  rewrite Hfiles. cbn [py_iter bind].
  rewrite (large_file_loop files []) by exact Hall. cbn [bind app].
  rewrite truthy_list, nonempty_filter.
  assert (Hlarge : forall z, large_file (PDict [("size", PInt z)])
                             = (2 ^ 30 <? z)).
  { intros z. unfold large_file. cbn [record_field].
    change (dict_get [("size", PInt z)] "size" (PInt 0)) with (PInt z).
    apply exceeds_int. }
  destruct (existsb large_file files);
    eexists; (split; [reflexivity|]);
    cbn [status issues set_status append_issue app];
    repeat split; intros; try discriminate; try reflexivity; try apply Hlarge.
Qed.

Lemma file_system_spec_witness :
  exists r,
    ResourceAnalyzer._analyze_file_system
      (ResourceAnalyzer.__init__ default_config)
      (PDict [("largest_files",
               PList [PDict [("path", PStr "/var/a"); ("size", PInt (2 ^ 30))];
                      PDict [("path", PStr "/var/b"); ("size", PInt 4096)]])])
    = Ok r
    /\ status r = Normal.
Proof.
  destruct (file_system_spec
              (ResourceAnalyzer.__init__ default_config)
              [("largest_files",
                PList [PDict [("path", PStr "/var/a"); ("size", PInt (2 ^ 30))];
                       PDict [("path", PStr "/var/b"); ("size", PInt 4096)]])]
              [PDict [("path", PStr "/var/a"); ("size", PInt (2 ^ 30))];
               PDict [("path", PStr "/var/b"); ("size", PInt 4096)]]
              eq_refl eq_refl) as (r & Hr & _ & Hnormal & _).
  exists r. split; [exact Hr|]. apply Hnormal. reflexivity.
Defined.

(** ** The services evaluator *)

Lemma service_loop : forall l acc,
  forallb service_record l = true ->
  for_each SecurityAnalyzer.service_step l acc
  = Ok (acc ++ map service_entry (filter service_vulnerable l)).
Proof.
  induction l as [|s l IH]; intros acc Hall.
  - cbn. now rewrite app_nil_r.
  - cbn [forallb] in Hall. apply andb_prop in Hall as [Hs Hl].
    apply field_is_dict in Hs as (d & -> & Hname).
    destruct (dict_get d "name" (PStr "")) as [| | | |n| |] eqn:En;
      try discriminate.
    assert (Hn : service_name (PDict d) = lower n).
    { unfold service_name. cbn [record_field]. now rewrite En. }
    assert (He : service_entry (PDict d)
                 = PDict [("name", PStr (lower n));
                          ("status", dict_get d "status" (PStr "unknown"))]).
    { unfold service_entry. now rewrite Hn. }
    cbn [for_each filter]. unfold SecurityAnalyzer.service_step at 1.
    cbn [py_get bind]. rewrite En. cbn [py_lower bind].
    unfold service_vulnerable at 1. rewrite Hn.
    unfold SecurityAnalyzer.vulnerable_services.
    destruct (existsb (String.eqb (lower n))
                ["telnet"; "ftp"; "rsh"; "rlogin"; "rexec"]);
      cbn [bind map]; rewrite IH by exact Hl; rewrite <- ?app_assoc;
      rewrite ?He; reflexivity.
Qed.

(** X6: on a list of service records the services evaluator flags exactly
    the services whose lower-cased name is telnet, ftp, rsh, rlogin or rexec,
    in order and whatever their [status]; the result is Warning with one
    message when a service is flagged and Normal otherwise. *)
Theorem services_spec :
  forall (self : SecurityAnalyzer.Self) (l : list PyVal),
    forallb service_record l = true ->
    exists r,
      SecurityAnalyzer._analyze_services self (PList l) = Ok r
      /\ fields r
         = [("total", PInt (Z.of_nat (List.length l)));
            ("vulnerable",
             PList (map service_entry (filter service_vulnerable l)))]
      /\ status r = (if existsb service_vulnerable l then Warning else Normal)
      /\ issues r
         = (if existsb service_vulnerable l
            then [[Lit "Found ";
                   Val (PInt (count_where service_vulnerable l));
                   Lit " potentially vulnerable services running"]]
            else []).
Proof.
  intros self l Hall. unfold SecurityAnalyzer._analyze_services.
  cbn [py_len py_iter bind]. rewrite (service_loop l []) by exact Hall.
  cbn [bind app]. rewrite truthy_list, nonempty_map, nonempty_filter,
    count_where_map.
  destruct (existsb service_vulnerable l);
    eexists; (split; [reflexivity|]); repeat split; reflexivity.
Qed.

Lemma services_spec_witness :
  exists r,
    SecurityAnalyzer._analyze_services
      default_security
      (PList [PDict [("name", PStr "TelNet"); ("status", PStr "stopped")];
              PDict [("name", PStr "sshd"); ("status", PStr "running")]])
    = Ok r
    /\ status r = Warning
    /\ fields r
       = [("total", PInt 2);
          ("vulnerable",
           PList [PDict [("name", PStr "telnet");
                         ("status", PStr "stopped")]])].
Proof.
  destruct (services_spec
              default_security
              [PDict [("name", PStr "TelNet"); ("status", PStr "stopped")];
               PDict [("name", PStr "sshd"); ("status", PStr "running")]]
              eq_refl) as (r & Hr & Hfields & Hstatus & _).
  exists r. split; [exact Hr|]. split; [exact Hstatus|exact Hfields].
Defined.

(** ** Updates, firewall and antivirus *)

(** X7: the updates evaluator reports Warning iff the number of available
    updates, 0 when absent, is above zero, and Normal otherwise; it never
    reports Critical. *)
Theorem updates_spec :
  forall (self : SecurityAnalyzer.Self) (d : dict) (n : Q),
    as_num (dict_get d "updates_available" (PInt 0)) = Some n ->
    exists r,
      SecurityAnalyzer._analyze_updates self (PDict d) = Ok r
      /\ (status r = Warning <-> (0 < n)%Q)
      /\ (status r = Normal <-> (n <= 0)%Q)
      /\ (status r = Normal <-> issues r = [])
      /\ fields r
         = [("last_update", dict_get d "last_update" (PStr "unknown"));
            ("updates_available", dict_get d "updates_available" (PInt 0))].
Proof.
  intros self d n Hn. unfold SecurityAnalyzer._analyze_updates.
  cbn [py_get bind]. unfold py_gt. rewrite Hn. cbn [bind].
  destruct (Qle_bool n 0) eqn:E; cbn [negb];
    [apply Qle_bool_iff in E | apply Qle_bool_false in E];
    eexists; (split; [reflexivity|]);
    cbn [status issues fields set_status append_issue app];
    repeat split; intros; try discriminate; try reflexivity; try lra.
Qed.

Lemma updates_spec_witness :
  exists r,
    SecurityAnalyzer._analyze_updates
      default_security
      (PDict [("last_update", PStr "2024-01-01")]) = Ok r
    /\ status r = Normal.
Proof.
  destruct (updates_spec default_security
              [("last_update", PStr "2024-01-01")] 0%Q eq_refl)
    as (r & Hr & _ & Hnormal & _).
  exists r. split; [exact Hr|]. apply Hnormal. unfold Qle. cbn. lia.
Defined.

(** X8: on any record the firewall and the antivirus evaluators report
    Critical, with their one message, iff [enabled] is absent or false in a
    condition (False, None, 0, an empty string or container), and Normal
    otherwise; the other fields do not matter and the status is never
    Warning. *)
Theorem firewall_antivirus_spec :
  forall (self : SecurityAnalyzer.Self) (d : dict),
    (exists r,
       SecurityAnalyzer._analyze_firewall self (PDict d) = Ok r
       /\ (status r = Critical <->
           truthy (dict_get d "enabled" (PBool false)) = false)
       /\ (status r = Normal <->
           truthy (dict_get d "enabled" (PBool false)) = true)
       /\ issues r = (if truthy (dict_get d "enabled" (PBool false)) then []
                      else [[Lit "Firewall is not enabled"]]))
    /\ (exists r,
          SecurityAnalyzer._analyze_antivirus self (PDict d) = Ok r
          /\ (status r = Critical <->
              truthy (dict_get d "enabled" (PBool false)) = false)
          /\ (status r = Normal <->
              truthy (dict_get d "enabled" (PBool false)) = true)
          /\ issues r = (if truthy (dict_get d "enabled" (PBool false))
                         then [] else [[Lit "Antivirus is not enabled"]])).
Proof.
  intros self d.
  unfold SecurityAnalyzer._analyze_firewall, SecurityAnalyzer._analyze_antivirus.
  cbn [py_get bind].
  destruct (truthy (dict_get d "enabled" (PBool false))); cbn [negb];
    split; eexists; (split; [reflexivity|]);
    cbn [status issues set_status append_issue app];
    repeat split; intros; try discriminate; reflexivity.
Qed.

(** ** The range of the scores *)

(** Opens the calls an evaluator makes before it builds its result. *)
Ltac open_evaluator H :=
  repeat match type of H with
         | bind ?c _ = Ok _ =>
             let E := fresh "E" in
             destruct c eqn:E; cbn [bind] in H; [|discriminate H]
         | _ =>
             match goal with
             | a : (_ * _)%type |- _ => destruct a
             end
         | (if ?b then _ else _) = Ok _ => destruct b
         end.

Ltac settle_status H :=
  open_evaluator H; injection H as <-;
  cbn [status set_status append_issue];
  repeat match goal with
         | |- context [if ?b then _ else _] => destruct b
         end;
  cbn [status set_status append_issue]; try discriminate; try reflexivity.

Lemma performance_network_normal : forall self v r,
  PerformanceAnalyzer._analyze_network self v = Ok r -> status r = Normal.
Proof.
  intros self v r H. unfold PerformanceAnalyzer._analyze_network in H.
  settle_status H.
Qed.

Lemma performance_processes_not_critical : forall self v r,
  PerformanceAnalyzer._analyze_processes self v = Ok r ->
  status r <> Critical.
Proof.
  intros self v r H. unfold PerformanceAnalyzer._analyze_processes in H.
  settle_status H.
Qed.

Lemma resources_processes_not_critical : forall self v r,
  ResourceAnalyzer._analyze_processes self v = Ok r -> status r <> Critical.
Proof.
  intros self v r H. unfold ResourceAnalyzer._analyze_processes in H.
  settle_status H.
Qed.

Lemma resources_file_system_not_critical : forall self v r,
  ResourceAnalyzer._analyze_file_system self v = Ok r ->
  status r <> Critical.
Proof.
  intros self v r H. unfold ResourceAnalyzer._analyze_file_system in H.
  settle_status H.
Qed.

Lemma security_ports_not_critical : forall self v r,
  SecurityAnalyzer._analyze_ports self v = Ok r -> status r <> Critical.
Proof.
  intros self v r H. unfold SecurityAnalyzer._analyze_ports in H.
  settle_status H.
Qed.

Lemma security_services_not_critical : forall self v r,
  SecurityAnalyzer._analyze_services self v = Ok r -> status r <> Critical.
Proof.
  intros self v r H. unfold SecurityAnalyzer._analyze_services in H.
  settle_status H.
Qed.

Lemma security_updates_not_critical : forall self v r,
  SecurityAnalyzer._analyze_updates self v = Ok r -> status r <> Critical.
Proof.
  intros self v r H. unfold SecurityAnalyzer._analyze_updates in H.
  settle_status H.
Qed.

Lemma security_firewall_not_warning : forall self v r,
  SecurityAnalyzer._analyze_firewall self v = Ok r -> status r <> Warning.
Proof.
  intros self v r H. unfold SecurityAnalyzer._analyze_firewall in H.
  settle_status H.
Qed.

Lemma security_antivirus_not_warning : forall self v r,
  SecurityAnalyzer._analyze_antivirus self v = Ok r -> status r <> Warning.
Proof.
  intros self v r H. unfold SecurityAnalyzer._analyze_antivirus in H.
  settle_status H.
Qed.

(** Splits on the statuses of the categories of an analysis and computes
    the score in each case. *)
Ltac by_statuses :=
  repeat match goal with
         | c : CategoryResult |- _ =>
             let s := fresh "s" in destruct c as [? s ?]; destruct s
         end;
  cbn [status] in *; try congruence;
  eexists; (split; [reflexivity|]); vm_compute;
  repeat split; (discriminate || reflexivity).

(** X9: whatever the snapshot, an analysis that returns carries a score
    that is a multiple of 5 and lies between 15 and 100 for performance,
    between 5 and 100 for resources, and between -5 and 100 for security:
    network is always Normal, the process, file system, ports, services and
    updates evaluators never report Critical, and firewall and antivirus
    never report Warning.  Only the security score can be negative. *)
Theorem score_ranges :
  forall (pself : PerformanceAnalyzer.Self) (sself : SecurityAnalyzer.Self)
         (rself : ResourceAnalyzer.Self) (m : dict),
    (forall r,
       PerformanceAnalyzer.analyze pself m = Ok r ->
       exists h, health_of r "health" = Some h
                 /\ 15 <= score h <= 100 /\ score h mod 5 = 0)
    /\ (forall r,
          ResourceAnalyzer.analyze rself m = Ok r ->
          exists h, health_of r "health" = Some h
                    /\ 5 <= score h <= 100 /\ score h mod 5 = 0)
    /\ (forall r,
          SecurityAnalyzer.analyze sself m = Ok r ->
          exists h, health_of r "security_score" = Some h
                    /\ -5 <= score h <= 100 /\ score h mod 5 = 0).
Proof.
  intros pself sself rself m. split; [|split]; intros r H.
  - destruct (performance_analyze_inv _ _ _ H)
      as (c & me & d & n & p & _ & _ & _ & Hn & Hp & ->).
    apply performance_network_normal in Hn.
    apply performance_processes_not_critical in Hp.
    clear H. by_statuses.
  - destruct (resources_analyze_inv _ _ _ H)
      as (d & me & s & f & p & _ & _ & _ & Hf & Hp & ->).
    apply resources_file_system_not_critical in Hf.
    apply resources_processes_not_critical in Hp.
    clear H. by_statuses.
  - destruct (security_analyze_inv _ _ _ H)
      as (p & s & u & f & a & c & Hp & Hs & Hu & Hf & Ha & _ & ->).
    apply security_ports_not_critical in Hp.
    apply security_services_not_critical in Hs.
    apply security_updates_not_critical in Hu.
    apply security_firewall_not_warning in Hf.
    apply security_antivirus_not_warning in Ha.
    clear H. by_statuses.
Qed.

Lemma score_ranges_witness :
  exists r h,
    SecurityAnalyzer.analyze default_security
      exposed_host = Ok r
    /\ health_of r "security_score" = Some h
    /\ -5 <= score h <= 100 /\ score h mod 5 = 0.
Proof.
  destruct (score_ranges (PerformanceAnalyzer.__init__ default_config)
              default_security
              (ResourceAnalyzer.__init__ default_config) exposed_host)
    as (_ & _ & Hsec).
  eexists. destruct (Hsec _ eq_refl) as (h & Hh & Hrange & Hmod).
  exists h. split; [reflexivity|]. split; [exact Hh|]. split; assumption.
Defined.

(** X10: on every snapshot that holds none of the six security categories
    the security analysis is the same: ports, services, updates and SSL
    Normal, firewall and antivirus Critical, score 50 and status Critical,
    with the two messages in that order. *)
Theorem security_without_security_metrics :
  forall (self : SecurityAnalyzer.Self) (m : dict),
    (forall k, In k security_keys -> lookup k m = None) ->
    exists r,
      SecurityAnalyzer.analyze self m = Ok r
      /\ category_status r "ports" = Some Normal
      /\ category_status r "services" = Some Normal
      /\ category_status r "updates" = Some Normal
      /\ category_status r "firewall" = Some Critical
      /\ category_status r "antivirus" = Some Critical
      /\ category_status r "ssl" = Some Normal
      /\ health_of r "security_score"
         = Some (mkHealth HCritical 50
                   [[Lit "Firewall is not enabled"];
                    [Lit "Antivirus is not enabled"]]).
Proof.
  intros self m Hmissing. unfold SecurityAnalyzer.analyze.
  rewrite !dict_get_missing
    by (apply Hmissing; cbn [In security_keys]; tauto).
  eexists. split; [vm_compute; reflexivity|].
  repeat split; reflexivity.
Qed.

Lemma security_without_security_metrics_witness :
  exists r,
    SecurityAnalyzer.analyze default_security
      [("cpu", PDict [("usage", PFloat 12.5)]); ("processes", PList [])]
    = Ok r
    /\ health_of r "security_score"
       = Some (mkHealth HCritical 50
                 [[Lit "Firewall is not enabled"];
                  [Lit "Antivirus is not enabled"]]).
Proof.
  destruct (security_without_security_metrics
              default_security
              [("cpu", PDict [("usage", PFloat 12.5)]);
               ("processes", PList [])]) as (r & Hr & H).
  - intros k Hk. cbn [In security_keys] in Hk.
    repeat destruct Hk as [<-|Hk]; try reflexivity. contradiction.
  - exists r. split; [exact Hr|]. apply H.
Defined.

(** ** Order and the aggregate's own key *)

Lemma Permutation_filter : forall {A : Type} (f : A -> bool) (l l' : list A),
  Permutation l l' -> Permutation (filter f l) (filter f l').
Proof.
  intros A f l l' H. induction H as [|x l l' _ IH|x y l|l l' l'' _ IH1 _ IH2].
  - constructor.
  - cbn [filter]. destruct (f x); [now constructor|exact IH].
  - cbn [filter]. destruct (f x), (f y); try apply Permutation_refl.
    apply perm_swap.
  - now apply Permutation_trans with (filter f l').
Qed.

Lemma aggregate_permutation : forall skip init results results',
  Permutation results results' ->
  score (aggregate skip init results) = score (aggregate skip init results')
  /\ health_status (aggregate skip init results)
     = health_status (aggregate skip init results')
  /\ Permutation (health_issues (aggregate skip init results))
                 (health_issues (aggregate skip init results')).
Proof.
  intros skip init results results' H.
  assert (Hv : Permutation (visited skip results) (visited skip results'))
    by (now apply Permutation_filter).
  assert (Hsc : score (aggregate skip init results)
                = score (aggregate skip init results')).
  { rewrite !aggregate_score. unfold count_status.
    rewrite (Permutation_length (Permutation_filter
               (fun kv => status_eqb (status (snd kv)) Critical) _ _ Hv)).
    rewrite (Permutation_length (Permutation_filter
               (fun kv => status_eqb (status (snd kv)) Warning) _ _ Hv)).
    reflexivity. }
  split; [exact Hsc|]. split.
  - rewrite !aggregate_status, Hsc. reflexivity.
  - rewrite !aggregate_issues. unfold contributed.
    now apply Permutation_flat_map.
Qed.

(** X11: the order of the categories does not change the aggregate, apart
    from the order of its issues: permuted results give the same score and
    the same status, and the same issues up to order, in each domain. *)
Theorem aggregate_order_irrelevant :
  forall (pself : PerformanceAnalyzer.Self) (sself : SecurityAnalyzer.Self)
         (rself : ResourceAnalyzer.Self) results results',
    Permutation results results' ->
    (score (PerformanceAnalyzer._calculate_health pself results)
     = score (PerformanceAnalyzer._calculate_health pself results')
     /\ health_status (PerformanceAnalyzer._calculate_health pself results)
        = health_status (PerformanceAnalyzer._calculate_health pself results')
     /\ Permutation
          (health_issues (PerformanceAnalyzer._calculate_health pself results))
          (health_issues
             (PerformanceAnalyzer._calculate_health pself results')))
    /\ (score (ResourceAnalyzer._calculate_health rself results)
        = score (ResourceAnalyzer._calculate_health rself results')
        /\ health_status (ResourceAnalyzer._calculate_health rself results)
           = health_status (ResourceAnalyzer._calculate_health rself results')
        /\ Permutation
             (health_issues (ResourceAnalyzer._calculate_health rself results))
             (health_issues
                (ResourceAnalyzer._calculate_health rself results')))
    /\ (score (SecurityAnalyzer._calculate_security_score sself results)
        = score (SecurityAnalyzer._calculate_security_score sself results')
        /\ health_status
             (SecurityAnalyzer._calculate_security_score sself results)
           = health_status
               (SecurityAnalyzer._calculate_security_score sself results')
        /\ Permutation
             (health_issues
                (SecurityAnalyzer._calculate_security_score sself results))
             (health_issues
                (SecurityAnalyzer._calculate_security_score sself results'))).
Proof.
  intros pself sself rself results results' H.
  rewrite !performance_calculate_health, !resources_calculate_health,
    !security_calculate_score.
  split; [|split]; now apply aggregate_permutation.
Qed.

Lemma aggregate_order_irrelevant_witness :
  score (PerformanceAnalyzer._calculate_health
           (PerformanceAnalyzer.__init__ default_config)
           [("cpu", reporting Critical "cpu"); ("disk", reporting Warning "disk")])
  = score (PerformanceAnalyzer._calculate_health
             (PerformanceAnalyzer.__init__ default_config)
             [("disk", reporting Warning "disk");
              ("cpu", reporting Critical "cpu")]).
Proof.
  apply (aggregate_order_irrelevant
           (PerformanceAnalyzer.__init__ default_config)
           default_security
           (ResourceAnalyzer.__init__ default_config)
           [("cpu", reporting Critical "cpu"); ("disk", reporting Warning "disk")]
           [("disk", reporting Warning "disk");
            ("cpu", reporting Critical "cpu")]).
  apply perm_swap.
Defined.

Lemma aggregate_visited : forall skip init results results',
  visited skip results = visited skip results' ->
  aggregate skip init results = aggregate skip init results'.
Proof.
  intros skip init results results' Hv.
  assert (Hsc : score (aggregate skip init results)
                = score (aggregate skip init results'))
    by (rewrite !aggregate_score, Hv; reflexivity).
  destruct (aggregate skip init results') as [st sc iss] eqn:E.
  apply health_result_eq.
  - rewrite aggregate_status, Hsc.
    pose proof (aggregate_status skip init results') as Hst.
    rewrite E in Hst. cbn [score health_status] in *. now rewrite Hst.
  - exact Hsc.
  - rewrite aggregate_issues, Hv, <- aggregate_issues with (init := init).
    now rewrite E.
Qed.

(** X12: each aggregator passes over whatever is stored under its own key:
    an entry named [health] changes nothing for performance and resources,
    and an entry named [security_score] changes nothing for security, so
    aggregating a result dict again after the aggregate was stored gives the
    same aggregate. *)
Theorem aggregate_skips_own_key :
  forall (pself : PerformanceAnalyzer.Self) (sself : SecurityAnalyzer.Self)
         (rself : ResourceAnalyzer.Self) before after stored,
    PerformanceAnalyzer._calculate_health pself
      (before ++ ("health", stored) :: after)
    = PerformanceAnalyzer._calculate_health pself (before ++ after)
    /\ ResourceAnalyzer._calculate_health rself
         (before ++ ("health", stored) :: after)
       = ResourceAnalyzer._calculate_health rself (before ++ after)
    /\ SecurityAnalyzer._calculate_security_score sself
         (before ++ ("security_score", stored) :: after)
       = SecurityAnalyzer._calculate_security_score sself (before ++ after).
Proof.
  intros. rewrite !performance_calculate_health, !resources_calculate_health,
    !security_calculate_score.
  repeat split; apply aggregate_visited;
    rewrite !visited_app, visited_cons; reflexivity.
Qed.

(** ** Loading the thresholds *)

Lemma update_threshold_app : forall t values values',
  update_threshold t (values ++ values')
  = update_threshold (update_threshold t values) values'.
Proof. intros. unfold update_threshold. apply fold_left_app. Qed.

Lemma performance_fold_update_metric : forall ths t,
  let out := fold_left PerformanceAnalyzer.update_metric ths t in
  PerformanceAnalyzer.cpu out
  = update_threshold (PerformanceAnalyzer.cpu t) (overrides_for "cpu" ths)
  /\ PerformanceAnalyzer.memory out
     = update_threshold (PerformanceAnalyzer.memory t)
         (overrides_for "memory" ths)
  /\ PerformanceAnalyzer.disk out
     = update_threshold (PerformanceAnalyzer.disk t)
         (overrides_for "disk" ths).
Proof.
  induction ths as [|[metric values] ths IH]; intros t; cbn zeta.
  - repeat split; reflexivity.
  - cbn [fold_left].
    specialize (IH (PerformanceAnalyzer.update_metric t (metric, values))).
    cbn zeta in IH. destruct IH as (Hc & Hm & Hd). rewrite Hc, Hm, Hd.
    unfold overrides_for. cbn [filter fst flat_map snd].
    unfold PerformanceAnalyzer.update_metric.
    destruct (String.eqb metric "cpu") eqn:Ecpu.
    { apply String.eqb_eq in Ecpu. subst metric.
      cbn [String.eqb Ascii.eqb Bool.eqb flat_map snd
           PerformanceAnalyzer.cpu PerformanceAnalyzer.memory
           PerformanceAnalyzer.disk].
      rewrite update_threshold_app. repeat split; reflexivity. }
    destruct (String.eqb metric "memory") eqn:Emem.
    { apply String.eqb_eq in Emem. subst metric.
      cbn [String.eqb Ascii.eqb Bool.eqb flat_map snd
           PerformanceAnalyzer.cpu PerformanceAnalyzer.memory
           PerformanceAnalyzer.disk].
      rewrite update_threshold_app. repeat split; reflexivity. }
    destruct (String.eqb metric "disk") eqn:Edisk;
      cbn [flat_map snd PerformanceAnalyzer.cpu PerformanceAnalyzer.memory
           PerformanceAnalyzer.disk];
      rewrite ?update_threshold_app; repeat split; reflexivity.
Qed.

Lemma resources_fold_update_metric : forall ths t,
  let out := fold_left ResourceAnalyzer.update_metric ths t in
  ResourceAnalyzer.disk out
  = update_threshold (ResourceAnalyzer.disk t) (overrides_for "disk" ths)
  /\ ResourceAnalyzer.memory out
     = update_threshold (ResourceAnalyzer.memory t)
         (overrides_for "memory" ths)
  /\ ResourceAnalyzer.swap out
     = update_threshold (ResourceAnalyzer.swap t)
         (overrides_for "swap" ths).
Proof.
  induction ths as [|[metric values] ths IH]; intros t; cbn zeta.
  - repeat split; reflexivity.
  - cbn [fold_left].
    specialize (IH (ResourceAnalyzer.update_metric t (metric, values))).
    cbn zeta in IH. destruct IH as (Hd & Hm & Hs). rewrite Hd, Hm, Hs.
    unfold overrides_for. cbn [filter fst flat_map snd].
    unfold ResourceAnalyzer.update_metric.
    destruct (String.eqb metric "disk") eqn:Edisk.
    { apply String.eqb_eq in Edisk. subst metric.
      cbn [String.eqb Ascii.eqb Bool.eqb flat_map snd
           ResourceAnalyzer.disk ResourceAnalyzer.memory
           ResourceAnalyzer.swap].
      rewrite update_threshold_app. repeat split; reflexivity. }
    destruct (String.eqb metric "memory") eqn:Emem.
    { apply String.eqb_eq in Emem. subst metric.
      cbn [String.eqb Ascii.eqb Bool.eqb flat_map snd
           ResourceAnalyzer.disk ResourceAnalyzer.memory
           ResourceAnalyzer.swap].
      rewrite update_threshold_app. repeat split; reflexivity. }
    destruct (String.eqb metric "swap") eqn:Eswap;
      cbn [flat_map snd ResourceAnalyzer.disk ResourceAnalyzer.memory
           ResourceAnalyzer.swap];
      rewrite ?update_threshold_app; repeat split; reflexivity.
Qed.

(** X13: the cutoffs an analyzer loads for a metric are its defaults (CPU
    and disk 80/90, memory 75/85, swap 70/80) updated with the values the
    configuration gives for that metric in that analyzer's own section, and
    with nothing else: entries for other metrics, for metrics the analyzer
    does not know, and the other domain's section have no effect. *)
Theorem thresholds_per_metric :
  forall cfg : Config,
    (let ths := configured_thresholds cfg cfg_performance in
     let loaded := PerformanceAnalyzer._load_thresholds cfg in
     PerformanceAnalyzer.cpu loaded
     = update_threshold (mkThreshold 80.0 90.0) (overrides_for "cpu" ths)
     /\ PerformanceAnalyzer.memory loaded
        = update_threshold (mkThreshold 75.0 85.0) (overrides_for "memory" ths)
     /\ PerformanceAnalyzer.disk loaded
        = update_threshold (mkThreshold 80.0 90.0) (overrides_for "disk" ths))
    /\ (let ths := configured_thresholds cfg cfg_resources in
        let loaded := ResourceAnalyzer._load_thresholds cfg in
        ResourceAnalyzer.disk loaded
        = update_threshold (mkThreshold 80.0 90.0) (overrides_for "disk" ths)
        /\ ResourceAnalyzer.memory loaded
           = update_threshold (mkThreshold 75.0 85.0)
               (overrides_for "memory" ths)
        /\ ResourceAnalyzer.swap loaded
           = update_threshold (mkThreshold 70.0 80.0)
               (overrides_for "swap" ths)).
Proof.
  intros [[[perf sec res]|]]; [|repeat split; reflexivity].
  split.
  - unfold configured_thresholds, PerformanceAnalyzer._load_thresholds.
    cbn [config_data cfg_performance].
    destruct perf as [[[ths|] chk]|]; try (repeat split; reflexivity).
    cbn [cfg_thresholds].
    apply (performance_fold_update_metric ths).
  - unfold configured_thresholds, ResourceAnalyzer._load_thresholds.
    cbn [config_data cfg_resources].
    destruct res as [[[ths|] chk]|]; try (repeat split; reflexivity).
    cbn [cfg_thresholds].
    apply (resources_fold_update_metric ths).
Qed.

Lemma lookup_absent : forall {V : Type} k (d : list (string * V)),
  ~ In k (map fst d) -> lookup k d = None.
Proof.
  intros V k d. induction d as [|[k' v] d IH]; [reflexivity|].
  cbn [map fst In lookup]. intros H.
  destruct (String.eqb k k') eqn:E.
  - apply String.eqb_eq in E. subst k'. exfalso. apply H. now left.
  - apply IH. intros Hin. apply H. now right.
Qed.

Lemma update_threshold_cons : forall t k v values,
  update_threshold t ((k, v) :: values)
  = update_threshold
      (if String.eqb k "warning" then mkThreshold v (critical t)
       else if String.eqb k "critical" then mkThreshold (warning t) v
       else t) values.
Proof. reflexivity. Qed.

(** X14: an override is merged field by field.  For override values with
    distinct keys, the warning cutoff becomes the configured [warning] if
    there is one and is kept otherwise, and likewise the critical cutoff;
    other keys change nothing, and the order of the two cutoffs is not
    checked. *)
Theorem update_threshold_fieldwise :
  forall (t : Threshold) (values : list (string * Q)),
    NoDup (map fst values) ->
    warning (update_threshold t values)
    = match lookup "warning" values with
      | Some w => w
      | None => warning t
      end
    /\ critical (update_threshold t values)
       = match lookup "critical" values with
         | Some c => c
         | None => critical t
         end.
Proof.
  intros t values Hnd. revert t.
  induction values as [|[k v] values IH]; intros t; [split; reflexivity|].
  cbn [map fst] in Hnd. apply NoDup_cons_iff in Hnd as [Hk Hnd].
  rewrite update_threshold_cons. specialize (IH Hnd). cbn [lookup].
  destruct (String.eqb k "warning") eqn:Ew.
  - apply String.eqb_eq in Ew. subst k.
    destruct (IH (mkThreshold v (critical t))) as (Hw & Hc).
    rewrite Hw, Hc, (lookup_absent _ _ Hk). cbn [String.eqb Ascii.eqb Bool.eqb].
    split; reflexivity.
  - rewrite (String.eqb_sym "warning" k), Ew.
    destruct (String.eqb k "critical") eqn:Ec.
    + apply String.eqb_eq in Ec. subst k.
      destruct (IH (mkThreshold (warning t) v)) as (Hw & Hc).
      rewrite Hw, Hc, (lookup_absent _ _ Hk).
      cbn [String.eqb Ascii.eqb Bool.eqb]. split; reflexivity.
    + rewrite (String.eqb_sym "critical" k), Ec. apply IH.
Qed.

Lemma update_threshold_fieldwise_witness :
  warning (update_threshold (mkThreshold 80.0 90.0)
             [("critical", 70.0%Q); ("comment", 1%Q)]) = 80.0%Q
  /\ critical (update_threshold (mkThreshold 80.0 90.0)
                 [("critical", 70.0%Q); ("comment", 1%Q)]) = 70.0%Q.
Proof.
  apply (update_threshold_fieldwise (mkThreshold 80.0 90.0)
           [("critical", 70.0%Q); ("comment", 1%Q)]).
  repeat constructor; cbn; intuition discriminate.
Defined.

(** ** What the report plots *)

(** X15: when the three analyses of a snapshot are handed to the report
    under the keys [performance], [security] and [resources], the bar chart
    of health scores shows the performance and the resource score, and 0
    for security whatever the security score is: the report reads the key
    [health], which the security analysis does not have. *)
Theorem plotted_scores :
  forall (pself : PerformanceAnalyzer.Self) (sself : SecurityAnalyzer.Self)
         (rself : ResourceAnalyzer.Self) (m : dict)
         (rp rs rr : AnalysisResult)
         (analysis_results : list (string * AnalysisResult)),
    PerformanceAnalyzer.analyze pself m = Ok rp ->
    SecurityAnalyzer.analyze sself m = Ok rs ->
    ResourceAnalyzer.analyze rself m = Ok rr ->
    lookup "performance" analysis_results = Some rp ->
    lookup "security" analysis_results = Some rs ->
    lookup "resources" analysis_results = Some rr ->
    exists hp hr,
      health_of rp "health" = Some hp
      /\ health_of rr "health" = Some hr
      /\ ReportGenerator._plot_health_scores analysis_results
         = [("Performance", PInt (score hp)); ("Security", PInt 0);
            ("Resources", PInt (score hr))].
Proof.
  intros pself sself rself m rp rs rr ar Hp Hs Hr Lp Ls Lr.
  destruct (performance_analyze_inv _ _ _ Hp)
    as (? & ? & ? & ? & ? & _ & _ & _ & _ & _ & ->).
  destruct (security_analyze_inv _ _ _ Hs)
    as (? & ? & ? & ? & ? & ? & _ & _ & _ & _ & _ & _ & ->).
  destruct (resources_analyze_inv _ _ _ Hr)
    as (? & ? & ? & ? & ? & _ & _ & _ & _ & _ & ->).
  eexists. eexists. split; [reflexivity|]. split; [reflexivity|].
  unfold ReportGenerator._plot_health_scores, ReportGenerator.domain_score.
  rewrite Lp, Ls, Lr. reflexivity.
Qed.

Lemma plotted_scores_witness :
  exists rp rs rr,
    PerformanceAnalyzer.analyze (PerformanceAnalyzer.__init__ default_config)
      exposed_host = Ok rp
    /\ SecurityAnalyzer.analyze default_security
         exposed_host = Ok rs
    /\ ResourceAnalyzer.analyze (ResourceAnalyzer.__init__ default_config)
         exposed_host = Ok rr
    /\ ReportGenerator._plot_health_scores
         [("performance", rp); ("security", rs); ("resources", rr)]
       = [("Performance", PInt 100); ("Security", PInt 0);
          ("Resources", PInt 100)].
Proof.
  destruct (PerformanceAnalyzer.analyze
              (PerformanceAnalyzer.__init__ default_config) exposed_host)
    as [rp|] eqn:Ep; [|discriminate (Ep)].
  destruct (SecurityAnalyzer.analyze
              default_security exposed_host)
    as [rs|] eqn:Es; [|discriminate (Es)].
  destruct (ResourceAnalyzer.analyze
              (ResourceAnalyzer.__init__ default_config) exposed_host)
    as [rr|] eqn:Er; [|discriminate (Er)].
  exists rp, rs, rr.
  destruct (plotted_scores _ _ _ _ _ _ _
              [("performance", rp); ("security", rs); ("resources", rr)]
              Ep Es Er eq_refl eq_refl eq_refl)
    as (hp & hr & Hhp & Hhr & Hplot).
  injection Ep as <-. injection Er as <-.
  injection Hhp as <-. injection Hhr as <-.
  repeat split; try reflexivity. exact Hplot.
Defined.

(** ** The process evaluators raise on a bad process *)

Lemma py_gt_not_number : forall v t,
  is_number v = false -> py_gt v t = Raise TypeError.
Proof.
  intros v t. unfold is_number, py_gt.
  destruct (as_num v); [discriminate|reflexivity].
Qed.

Lemma performance_process_step_raises : forall acc p,
  process_record p = false ->
  exists e, PerformanceAnalyzer.process_step acc p = Raise e.
Proof.
  intros [high_cpu_acc high_memory_acc] p H.
  unfold PerformanceAnalyzer.process_step.
  destruct p; try (eexists; reflexivity).
  unfold process_record in H. cbn [field_is] in H. cbn [py_get bind].
  destruct (is_number (dict_get d "cpu_percent" (PInt 0))) eqn:Hc.
  - cbn [andb] in H. rewrite (py_gt_exceeds _ _ Hc). cbn [bind].
    destruct (exceeds _ 50); cbn [bind];
      rewrite (py_gt_not_number _ _ H); eexists; reflexivity.
  - rewrite (py_gt_not_number _ _ Hc). eexists. reflexivity.
Qed.

Lemma resources_process_step_raises : forall acc p,
  process_record p = false ->
  exists e, ResourceAnalyzer.process_step acc p = Raise e.
Proof.
  intros [[high_cpu_acc high_memory_acc] zombie_acc] p H.
  unfold ResourceAnalyzer.process_step.
  destruct p; try (eexists; reflexivity).
  unfold process_record in H. cbn [field_is] in H. cbn [py_get bind].
  destruct (is_number (dict_get d "cpu_percent" (PInt 0))) eqn:Hc.
  - cbn [andb] in H. rewrite (py_gt_exceeds _ _ Hc). cbn [bind].
    destruct (exceeds _ 50); cbn [bind];
      rewrite (py_gt_not_number _ _ H); eexists; reflexivity.
  - rewrite (py_gt_not_number _ _ Hc). eexists. reflexivity.
Qed.

Lemma for_each_raises :
  forall {A S : Type} (body : S -> A -> result S) (ok : A -> bool),
    (forall s x, ok x = true -> returns (body s x)) ->
    (forall s x, ok x = false -> exists e, body s x = Raise e) ->
    forall xs s, forallb ok xs = false ->
                 exists e, for_each body xs s = Raise e.
Proof.
  intros A S body ok Hok Hbad xs.
  induction xs as [|x xs IH]; intros s Hall; [discriminate|].
  cbn [forallb] in Hall. cbn [for_each].
  destruct (ok x) eqn:Ex.
  - destruct (Hok s x Ex) as (s' & ->). cbn [bind]. now apply IH.
  - destruct (Hbad s x Ex) as (e & ->). exists e. reflexivity.
Qed.

(** X16: on a list of processes each process evaluator returns exactly when
    every element is a record whose [cpu_percent] and [memory_percent], 0
    when absent, are numbers; one process with a counter that is present
    but not a number (for instance [None]) makes the whole evaluation
    raise. *)
Theorem process_evaluators_return_iff :
  forall (pself : PerformanceAnalyzer.Self) (rself : ResourceAnalyzer.Self)
         (l : list PyVal),
    (returns (PerformanceAnalyzer._analyze_processes pself (PList l))
     <-> forallb process_record l = true)
    /\ (returns (ResourceAnalyzer._analyze_processes rself (PList l))
        <-> forallb process_record l = true).
Proof.
  intros pself rself l. split; split.
  - intros (r & Hr). destruct (forallb process_record l) eqn:E;
      [reflexivity|].
    unfold PerformanceAnalyzer._analyze_processes in Hr.
    cbn [py_len py_iter bind] in Hr.
    destruct (for_each_raises PerformanceAnalyzer.process_step process_record
                performance_process_step_returns
                performance_process_step_raises l ([], []) E) as (e & He).
    rewrite He in Hr. discriminate Hr.
  - intros H. apply performance_processes_returns. exact H.
  - intros (r & Hr). destruct (forallb process_record l) eqn:E;
      [reflexivity|].
    unfold ResourceAnalyzer._analyze_processes in Hr.
    cbn [py_len py_iter bind] in Hr.
    destruct (for_each_raises ResourceAnalyzer.process_step process_record
                resources_process_step_returns
                resources_process_step_raises l ([], [], []) E) as (e & He).
    rewrite He in Hr. discriminate Hr.
  - intros H. apply resources_processes_returns. exact H.
Qed.

Lemma process_evaluators_return_iff_witness :
  ~ returns (ResourceAnalyzer._analyze_processes
               (ResourceAnalyzer.__init__ default_config)
               (PList [PDict [("pid", PInt 4); ("cpu_percent", PFloat 1.5)];
                       unreadable_process])).
Proof.
  intros H.
  apply (process_evaluators_return_iff
           (PerformanceAnalyzer.__init__ default_config)
           (ResourceAnalyzer.__init__ default_config)
           [PDict [("pid", PInt 4); ("cpu_percent", PFloat 1.5)];
            unreadable_process]) in H.
  discriminate H.
Defined.

(** ** What the analyzers see of a collected snapshot *)

Lemma py_ge_default_usage : forall c : Q,
  (0 < c)%Q -> py_ge (PFloat 0.0) c = Ok false.
Proof.
  intros c Hc. unfold py_ge, as_num. f_equal.
  destruct (Qle_bool c 0.0) eqn:E; [|reflexivity].
  apply Qle_bool_iff in E. exfalso.
  assert (H0 : (0.0 == 0)%Q) by reflexivity. rewrite H0 in E. lra.
Qed.

(** X17: the usage the evaluators read from a collected snapshot is always
    the default 0.0, whatever the host reports: the collector stores the
    CPU percentage under [usage_percent], the memory and swap percentages
    one level down under [memory.virtual] and [memory.swap], and the disk
    percentages per partition, while the evaluators read [usage] at the top
    of [cpu], [memory], [disk] and [swap].  With cutoffs above zero the six
    usage results are Normal without issues, and the network counters read
    as 0. *)
Theorem collected_usage_is_default :
  forall (host : MetricsCollector.Host)
         (pself : PerformanceAnalyzer.Self) (rself : ResourceAnalyzer.Self),
    positive_cutoffs
      (PerformanceAnalyzer.cpu (PerformanceAnalyzer.thresholds pself)) ->
    positive_cutoffs
      (PerformanceAnalyzer.memory (PerformanceAnalyzer.thresholds pself)) ->
    positive_cutoffs
      (PerformanceAnalyzer.disk (PerformanceAnalyzer.thresholds pself)) ->
    positive_cutoffs
      (ResourceAnalyzer.disk (ResourceAnalyzer.thresholds rself)) ->
    positive_cutoffs
      (ResourceAnalyzer.memory (ResourceAnalyzer.thresholds rself)) ->
    positive_cutoffs
      (ResourceAnalyzer.swap (ResourceAnalyzer.thresholds rself)) ->
    let m := MetricsCollector.collect_all host in
    PerformanceAnalyzer._analyze_cpu pself (dict_get m "cpu" (PDict []))
    = Ok (mkCategory [("usage", PFloat 0.0)] Normal [])
    /\ PerformanceAnalyzer._analyze_memory pself
         (dict_get m "memory" (PDict []))
       = Ok (mkCategory [("usage", PFloat 0.0); ("available", PInt 0);
                         ("total", PInt 0)] Normal [])
    /\ PerformanceAnalyzer._analyze_disk pself (dict_get m "disk" (PDict []))
       = Ok (mkCategory [("usage", PFloat 0.0); ("free", PInt 0);
                         ("total", PInt 0)] Normal [])
    /\ PerformanceAnalyzer._analyze_network pself
         (dict_get m "network" (PDict []))
       = Ok (mkCategory [("bytes_sent", PInt 0); ("bytes_recv", PInt 0);
                         ("packets_sent", PInt 0); ("packets_recv", PInt 0)]
                        Normal [])
    /\ ResourceAnalyzer._analyze_disk rself (dict_get m "disk" (PDict []))
       = Ok (mkCategory [("usage", PFloat 0.0); ("free", PInt 0);
                         ("total", PInt 0)] Normal [])
    /\ ResourceAnalyzer._analyze_memory rself
         (dict_get m "memory" (PDict []))
       = Ok (mkCategory [("usage", PFloat 0.0); ("available", PInt 0);
                         ("total", PInt 0)] Normal [])
    /\ ResourceAnalyzer._analyze_swap rself (dict_get m "swap" (PDict []))
       = Ok (mkCategory [("usage", PFloat 0.0); ("free", PInt 0);
                         ("total", PInt 0)] Normal []).
Proof.
  intros host pself rself [Hcw Hcc] [Hmw Hmc] [Hdw Hdc] [Hrdw Hrdc]
    [Hrmw Hrmc] [Hrsw Hrsc] m. subst m.
  unfold PerformanceAnalyzer._analyze_cpu, PerformanceAnalyzer._analyze_memory,
    PerformanceAnalyzer._analyze_disk, PerformanceAnalyzer._analyze_network,
    ResourceAnalyzer._analyze_disk, ResourceAnalyzer._analyze_memory,
    ResourceAnalyzer._analyze_swap.
  unfold MetricsCollector.collect_all, MetricsCollector._collect_cpu_metrics,
    MetricsCollector._collect_memory_metrics,
    MetricsCollector._collect_disk_metrics,
    MetricsCollector._collect_network_metrics.
  destruct (MetricsCollector.loadavg host) as [[load1 load5] load15].
  cbn [dict_get lookup String.eqb Ascii.eqb Bool.eqb py_get bind].
  rewrite !py_ge_default_usage by assumption.
  cbn [bind]. repeat split; reflexivity.
Qed.

Lemma default_cutoffs_positive :
  positive_cutoffs (mkThreshold 80.0 90.0)
  /\ positive_cutoffs (mkThreshold 75.0 85.0)
  /\ positive_cutoffs (mkThreshold 70.0 80.0).
Proof. unfold positive_cutoffs, Qlt. cbn. lia. Qed.

Lemma collected_usage_is_default_witness :
  PerformanceAnalyzer._analyze_cpu
    (PerformanceAnalyzer.__init__ default_config)
    (dict_get (MetricsCollector.collect_all busy_host) "cpu" (PDict []))
  = Ok (mkCategory [("usage", PFloat 0.0)] Normal [])
  /\ ResourceAnalyzer._analyze_swap
       (ResourceAnalyzer.__init__ default_config)
       (dict_get (MetricsCollector.collect_all busy_host) "swap" (PDict []))
     = Ok (mkCategory [("usage", PFloat 0.0); ("free", PInt 0);
                       ("total", PInt 0)] Normal []).
Proof.
  destruct (collected_usage_is_default busy_host
              (PerformanceAnalyzer.__init__ default_config)
              (ResourceAnalyzer.__init__ default_config))
    as (Hcpu & _ & _ & _ & _ & _ & Hswap);
    try (unfold positive_cutoffs, Qlt; cbn; lia).
  split; [exact Hcpu|exact Hswap].
Defined.

(** X18: the security analysis of a collected snapshot does not depend on
    the host: the collector gathers none of the six security categories, so
    firewall and antivirus are reported as not enabled and the result is
    always score 50 with status Critical. *)
Theorem collected_security_is_constant :
  forall (host : MetricsCollector.Host) (self : SecurityAnalyzer.Self),
    exists r,
      SecurityAnalyzer.analyze self (MetricsCollector.collect_all host) = Ok r
      /\ category_status r "firewall" = Some Critical
      /\ category_status r "antivirus" = Some Critical
      /\ category_status r "ports" = Some Normal
      /\ category_status r "services" = Some Normal
      /\ category_status r "updates" = Some Normal
      /\ category_status r "ssl" = Some Normal
      /\ health_of r "security_score"
         = Some (mkHealth HCritical 50
                   [[Lit "Firewall is not enabled"];
                    [Lit "Antivirus is not enabled"]]).
Proof.
  intros host self. unfold SecurityAnalyzer.analyze.
  rewrite !dict_get_missing by reflexivity.
  eexists. split; [vm_compute; reflexivity|].
  repeat split; reflexivity.
Qed.

(** ** The largest files *)

Lemma insert_by_size_perm : forall x l,
  Permutation (MetricsCollector.insert_by_size x l) (x :: l).
Proof.
  intros x l. induction l as [|y l IH]; [apply Permutation_refl|].
  cbn [MetricsCollector.insert_by_size].
  destruct (snd x <? snd y); [|apply Permutation_refl].
  apply Permutation_trans with (y :: x :: l);
    [now constructor | apply perm_swap].
Qed.

Lemma sort_by_size_perm : forall l,
  Permutation (MetricsCollector.sort_by_size l) l.
Proof.
  induction l as [|x l IH]; [constructor|].
  cbn [MetricsCollector.sort_by_size fold_right].
  apply Permutation_trans with (x :: MetricsCollector.sort_by_size l);
    [apply insert_by_size_perm | now constructor].
Qed.

Lemma insert_by_size_sorted : forall x l,
  StronglySorted by_size l ->
  StronglySorted by_size (MetricsCollector.insert_by_size x l).
Proof.
  intros x l Hl. induction Hl as [|y l Hl IH Hy].
  - repeat constructor.
  - cbn [MetricsCollector.insert_by_size].
    destruct (snd x <? snd y) eqn:E.
    + apply Z.ltb_lt in E. constructor; [exact IH|].
      apply (Permutation_Forall (Permutation_sym (insert_by_size_perm x l))).
      constructor; [unfold by_size; lia|exact Hy].
    + apply Z.ltb_ge in E. constructor; [now constructor|].
      constructor; [exact E|].
      apply Forall_forall. intros z Hz.
      apply (proj1 (Forall_forall _ _) Hy) in Hz. unfold by_size in *. lia.
Qed.

Lemma sort_by_size_sorted : forall l,
  StronglySorted by_size (MetricsCollector.sort_by_size l).
Proof.
  induction l as [|x l IH]; [constructor|].
  cbn [MetricsCollector.sort_by_size fold_right].
  now apply insert_by_size_sorted.
Qed.

Lemma firstn_In : forall {A : Type} n (l : list A) x,
  In x (firstn n l) -> In x l.
Proof.
  intros A n l. revert n. induction l as [|y l IH]; intros [|n] x H;
    cbn [firstn In] in *; try contradiction.
  destruct H as [H|H]; [now left|right; now apply (IH n)].
Qed.

Lemma firstn_sorted : forall n l,
  StronglySorted by_size l -> StronglySorted by_size (firstn n l).
Proof.
  intros n l Hl. revert n. induction Hl as [|x l Hl IH Hx]; intros [|n];
    cbn [firstn]; try constructor.
  - apply IH.
  - apply Forall_forall. intros z Hz. apply firstn_In in Hz.
    now apply (proj1 (Forall_forall _ _) Hx).
Qed.

Lemma file_fold_tracked : forall (P : string * Z -> Prop) root files acc,
  (forall path size, 1024 * 1024 < size -> P (path, size)) ->
  Forall P acc ->
  Forall P (fold_left (MetricsCollector.file_step root) files acc).
Proof.
  intros P root files. induction files as [|[name size] files IH];
    intros acc HP Hacc; [exact Hacc|].
  cbn [fold_left]. apply IH; [exact HP|].
  unfold MetricsCollector.file_step. cbn [fst snd].
  destruct size as [size|]; [|exact Hacc].
  destruct (1024 * 1024 <? size) eqn:E; [|exact Hacc].
  apply Z.ltb_lt in E. apply Forall_app. split; [exact Hacc|].
  constructor; [now apply HP|constructor].
Qed.

Lemma walk_loop_tracked : forall (P : string * Z -> Prop) entries tf td acc,
  (forall path size, 1024 * 1024 < size -> P (path, size)) ->
  Forall P acc ->
  Forall P (snd (MetricsCollector.walk_loop entries (tf, td, acc))).
Proof.
  intros P entries. induction entries as [|entry entries IH];
    intros tf td acc HP Hacc; [exact Hacc|].
  cbn [MetricsCollector.walk_loop].
  destruct (1000000 <? _).
  - cbn [snd]. now apply file_fold_tracked.
  - apply IH; [exact HP|]. now apply file_fold_tracked.
Qed.

(** X19: the [largest_files] the collector reports are at most 100, each
    above 1 MiB, in decreasing order of size, and all among the files the
    walk tracked; when the walk tracked no more than 100 files they are all
    reported. *)
Theorem collected_largest_files :
  forall host : MetricsCollector.Host,
    exists total_files total_dirs files,
      MetricsCollector._collect_file_system_metrics host
      = PDict [("total_files", PInt total_files);
               ("total_dirs", PInt total_dirs);
               ("largest_files",
                PList (map MetricsCollector.file_entry files))]
      /\ (List.length files <= 100)%nat
      /\ Forall (fun f => 1048576 < snd f) files
      /\ StronglySorted by_size files
      /\ (forall f, In f files -> In f (tracked_files host))
      /\ ((List.length (tracked_files host) <= 100)%nat ->
          Permutation files (tracked_files host)).
Proof.
  intros host.
  pose proof (walk_loop_tracked (fun f => 1048576 < snd f)
                (MetricsCollector.walk host) 0 0 []
                (fun path size H => H) (Forall_nil _)) as Htracked.
  unfold MetricsCollector._collect_file_system_metrics, tracked_files in *.
  destruct (MetricsCollector.walk_loop (MetricsCollector.walk host) (0, 0, []))
    as [[total_files total_dirs] tracked].
  cbn [snd] in *.
  exists total_files, total_dirs,
    (firstn 100 (MetricsCollector.sort_by_size tracked)).
  split; [reflexivity|]. split; [apply firstn_le_length|].
  split.
  { apply Forall_forall. intros f Hf. apply firstn_In in Hf.
    apply (Permutation_in _ (sort_by_size_perm tracked)) in Hf.
    now apply (proj1 (Forall_forall _ _) Htracked). }
  split; [apply firstn_sorted, sort_by_size_sorted|].
  split.
  { intros f Hf. apply firstn_In in Hf.
    now apply (Permutation_in _ (sort_by_size_perm tracked)) in Hf. }
  intros Hlen. rewrite firstn_all2; [apply sort_by_size_perm|].
  now rewrite (Permutation_length (sort_by_size_perm tracked)).
Qed.

Lemma collected_largest_files_witness :
  exists files,
    MetricsCollector._collect_file_system_metrics busy_host
    = PDict [("total_files", PInt 5); ("total_dirs", PInt 2);
             ("largest_files",
              PList (map MetricsCollector.file_entry files))]
    /\ Permutation files (tracked_files busy_host)
    /\ In ("/var/dump.bin", 2147483648) (tracked_files busy_host).
Proof.
  destruct (collected_largest_files busy_host)
    as (tf & td & files & Hfs & _ & _ & _ & Hin & Hperm).
  exists files.
  assert (Hshape : tf = 5 /\ td = 2
                   /\ files = [("/swapfile", 4294967296);
                               ("/var/dump.bin", 2147483648);
                               ("/vmlinuz", 8000000)]).
  { vm_compute in Hfs. injection Hfs as Htf Htd Hfiles.
    repeat split; try congruence.
    revert Hfiles. clear.
    destruct files as [|[p1 s1] [|[p2 s2] [|[p3 s3] [|? ?]]]];
      cbn; intros H; try discriminate H.
    injection H as <- <- <- <- <- <-. reflexivity. }
  destruct Hshape as (-> & -> & Hfiles).
  split; [exact Hfs|]. split.
  - apply Hperm. vm_compute. lia.
  - apply Hin. rewrite Hfiles. cbn [In]. tauto.
Defined.

Lemma filter_none : forall {A : Type} (f : A -> bool) (l : list A),
  (forall x, In x l -> f x = false) -> filter f l = [].
Proof.
  intros A f l. induction l as [|x l IH]; intros H; [reflexivity|].
  cbn [filter]. rewrite (H x) by now left.
  apply IH. intros y Hy. apply H. now right.
Qed.

Lemma above_gibibyte_below : forall x l,
  Forall (by_size x) l -> above_gibibyte x = false ->
  forall y, In y l -> above_gibibyte y = false.
Proof.
  intros x l Hl Hx y Hy. apply (proj1 (Forall_forall _ _) Hl) in Hy.
  unfold above_gibibyte, by_size in *.
  apply Z.ltb_ge in Hx. apply Z.ltb_ge. lia.
Qed.

Lemma sorted_prefix_count : forall l n,
  StronglySorted by_size l ->
  List.length (filter above_gibibyte (firstn n l))
  = Nat.min n (List.length (filter above_gibibyte l)).
Proof.
  intros l n Hl. revert n.
  induction Hl as [|x l Hl IH Hx]; intros [|n]; cbn [firstn filter];
    try reflexivity.
  destruct (above_gibibyte x) eqn:Ex.
  - cbn [List.length Nat.min]. now rewrite IH.
  - rewrite !filter_none; [reflexivity| |].
    + now apply (above_gibibyte_below x).
    + intros y Hy. apply firstn_In in Hy.
      now apply (above_gibibyte_below x l).
Qed.

Lemma existsb_count : forall {A : Type} (f : A -> bool) (l : list A),
  existsb f l = (0 <? count_where f l).
Proof.
  intros A f l. rewrite <- nonempty_filter. unfold count_where.
  destruct (filter f l); cbn [nonempty List.length]; [reflexivity|].
  symmetry. apply Z.ltb_lt. lia.
Qed.

Lemma reported_large_files : forall tracked,
  count_where above_gibibyte
    (firstn 100 (MetricsCollector.sort_by_size tracked))
  = Z.min 100 (count_where above_gibibyte tracked).
Proof.
  intros tracked. unfold count_where.
  rewrite sorted_prefix_count by apply sort_by_size_sorted.
  rewrite (Permutation_length
             (Permutation_filter above_gibibyte _ _
                (sort_by_size_perm tracked))).
  lia.
Qed.

Lemma large_file_entry : forall f,
  large_file (MetricsCollector.file_entry f) = above_gibibyte f.
Proof. intros [path size]. apply exceeds_int. Qed.

Lemma filter_large_entries : forall files,
  filter large_file (map MetricsCollector.file_entry files)
  = map MetricsCollector.file_entry (filter above_gibibyte files).
Proof.
  induction files as [|f files IH]; [reflexivity|].
  cbn [map filter]. rewrite large_file_entry, IH.
  destruct (above_gibibyte f); reflexivity.
Qed.

Lemma file_entries_shape : forall files,
  forallb (field_is is_number "size" (PInt 0))
          (map MetricsCollector.file_entry files) = true.
Proof.
  induction files as [|f files IH]; [reflexivity|].
  cbn [map forallb]. now rewrite IH.
Qed.

(** X20: the file system evaluator never raises on what the collector
    reports; it gives Warning iff the walk tracked a file above one
    gibibyte, and the number in its message is the number of such files,
    capped at 100 because the collector keeps the 100 largest. *)
Theorem collected_file_system_analysis :
  forall (host : MetricsCollector.Host) (self : ResourceAnalyzer.Self),
    exists r,
      ResourceAnalyzer._analyze_file_system self
        (MetricsCollector._collect_file_system_metrics host) = Ok r
      /\ (status r = Warning <->
          existsb above_gibibyte (tracked_files host) = true)
      /\ (status r = Normal <->
          existsb above_gibibyte (tracked_files host) = false)
      /\ issues r
         = (if existsb above_gibibyte (tracked_files host)
            then [[Lit "Found ";
                   Val (PInt (Z.min 100
                                (count_where above_gibibyte
                                   (tracked_files host))));
                   Lit " files larger than 1GB"]]
            else []).
Proof.
  intros host self.
  unfold MetricsCollector._collect_file_system_metrics, tracked_files.
  destruct (MetricsCollector.walk_loop (MetricsCollector.walk host) (0, 0, []))
    as [[total_files total_dirs] tracked].
  cbn [snd].
  set (files := firstn 100 (MetricsCollector.sort_by_size tracked)).
  assert (Hcount : count_where above_gibibyte files
                   = Z.min 100 (count_where above_gibibyte tracked))
    by apply reported_large_files.
  assert (Hany : existsb above_gibibyte files
                 = existsb above_gibibyte tracked).
  { rewrite !existsb_count, Hcount.
    pose proof (count_where_nonneg above_gibibyte tracked).
    destruct (0 <? count_where above_gibibyte tracked) eqn:E.
    - apply Z.ltb_lt in E. apply Z.ltb_lt. lia.
    - apply Z.ltb_ge in E. apply Z.ltb_ge. lia. }
  unfold ResourceAnalyzer._analyze_file_system.
  cbn [py_get bind dict_get lookup String.eqb Ascii.eqb Bool.eqb py_iter].
  rewrite (large_file_loop _ []) by apply file_entries_shape.
  cbn [bind app]. rewrite truthy_list, filter_large_entries, nonempty_map,
    nonempty_filter, count_where_map, Hany, Hcount.
  destruct (existsb above_gibibyte tracked);
    eexists; (split; [reflexivity|]);
    cbn [status issues set_status append_issue app];
    repeat split; intros; try discriminate; reflexivity.
Qed.

Lemma collected_file_system_analysis_witness :
  exists r,
    ResourceAnalyzer._analyze_file_system
      (ResourceAnalyzer.__init__ default_config)
      (MetricsCollector._collect_file_system_metrics busy_host) = Ok r
    /\ status r = Warning.
Proof.
  destruct (collected_file_system_analysis busy_host
              (ResourceAnalyzer.__init__ default_config))
    as (r & Hr & Hwarning & _).
  exists r. split; [exact Hr|]. apply Hwarning. reflexivity.
Defined.

Lemma firewall_antivirus_spec_witness :
  exists r,
    SecurityAnalyzer._analyze_firewall
      default_security
      (PDict [("enabled", PStr ""); ("rules", PList [PStr "allow ssh"])])
    = Ok r
    /\ status r = Critical.
Proof.
  destruct (firewall_antivirus_spec
              default_security
              [("enabled", PStr ""); ("rules", PList [PStr "allow ssh"])])
    as ((r & Hr & Hcritical & _) & _).
  exists r. split; [exact Hr|]. apply Hcritical. reflexivity.
Defined.

(** ** The lists of the SSL evaluator *)

Lemma existsb_false_forall : forall {A : Type} (f : A -> bool) (l : list A),
  existsb f l = false -> forall x, In x l -> f x = false.
Proof.
  intros A f l H x Hx. destruct (f x) eqn:E; [|reflexivity].
  assert (Hex : existsb f l = true)
    by (apply existsb_exists; exists x; now split).
  congruence.
Qed.

(** X21: on a list of certificate records the SSL evaluator lists the
    expired certificates and, apart from them, the ones expiring soon, so
    that no certificate is in both lists; when a certificate is expired the
    only message is the count of expired ones, and the certificates
    expiring soon are listed without a message. *)
Theorem ssl_lists_spec :
  forall (self : SecurityAnalyzer.Self) (certs : list PyVal),
    Forall (fun c => is_dict c = true) certs ->
    exists r,
      SecurityAnalyzer._analyze_ssl self (PList certs) = Ok r
      /\ fields r
         = [("total", PInt (Z.of_nat (List.length certs)));
            ("expired", PList (filter cert_expired certs));
            ("expiring_soon",
             PList (filter (fun c => negb (cert_expired c)
                                     && cert_expiring_soon c) certs))]
      /\ issues r
         = (if existsb cert_expired certs
            then [[Lit "Found "; Val (PInt (count_where cert_expired certs));
                   Lit " expired SSL certificates"]]
            else if existsb cert_expiring_soon certs
            then [[Lit "Found ";
                   Val (PInt (count_where cert_expiring_soon certs));
                   Lit " SSL certificates expiring soon"]]
            else []).
Proof.
  intros self certs Hall. unfold SecurityAnalyzer._analyze_ssl.
  cbn [py_len py_iter bind]. rewrite (cert_loop certs [] []) by exact Hall.
  cbn [bind app]. rewrite !truthy_list, !nonempty_filter.
  destruct (existsb cert_expired certs) eqn:E.
  - eexists. repeat split; reflexivity.
  - rewrite (existsb_unexpired _ _ _ E).
    assert (Hsame : filter (fun c => negb (cert_expired c)
                                     && cert_expiring_soon c) certs
                    = filter cert_expiring_soon certs).
    { apply filter_ext_in. intros c Hc.
      rewrite (existsb_false_forall _ _ E c Hc). reflexivity. }
    destruct (existsb cert_expiring_soon certs);
      eexists; (split; [reflexivity|]); split; try reflexivity.
    cbn [issues set_status append_issue app]. unfold count_where.
    now rewrite Hsame.
Qed.

Lemma ssl_lists_spec_witness :
  exists r,
    SecurityAnalyzer._analyze_ssl default_security
      (PList [PDict [("expired", PBool true); ("expiring_soon", PBool true)];
              PDict [("expiring_soon", PBool true)]]) = Ok r
    /\ issues r = [[Lit "Found "; Val (PInt 1);
                    Lit " expired SSL certificates"]].
Proof.
  destruct (ssl_lists_spec default_security
              [PDict [("expired", PBool true); ("expiring_soon", PBool true)];
               PDict [("expiring_soon", PBool true)]])
    as (r & Hr & _ & Hissues); [repeat constructor|].
  exists r. split; [exact Hr|exact Hissues].
Defined.

(** ** The health of a collected snapshot *)

(** Evaluates the usage and network evaluators of an analysis of a
    collected snapshot, up to the first evaluator that reads the snapshot's
    lists. *)
Ltac read_collected H :=
  unfold MetricsCollector.collect_all, MetricsCollector._collect_cpu_metrics,
    MetricsCollector._collect_memory_metrics,
    MetricsCollector._collect_disk_metrics,
    MetricsCollector._collect_network_metrics in H;
  destruct (MetricsCollector.loadavg _) as [[? ?] ?];
  cbn [dict_get lookup String.eqb Ascii.eqb Bool.eqb py_get bind] in H;
  rewrite !py_ge_default_usage in H by assumption;
  cbn [bind] in H.

Ltac one_of_scores :=
  repeat split;
  first [ reflexivity
        | left; reflexivity
        | right; left; reflexivity
        | right; right; reflexivity
        | right; reflexivity ].

(** X22: with cutoffs above zero, an analysis of a collected snapshot that
    returns is always Healthy for performance, with score 100 or 90, and
    for resources, with score 100, 90 or 80: CPU, memory, disk and swap are
    read as 0 percent, so only the process list and the largest files can
    lower the score, by 10 each. *)
Theorem collected_health_is_healthy :
  forall (host : MetricsCollector.Host)
         (pself : PerformanceAnalyzer.Self) (rself : ResourceAnalyzer.Self),
    positive_cutoffs
      (PerformanceAnalyzer.cpu (PerformanceAnalyzer.thresholds pself)) ->
    positive_cutoffs
      (PerformanceAnalyzer.memory (PerformanceAnalyzer.thresholds pself)) ->
    positive_cutoffs
      (PerformanceAnalyzer.disk (PerformanceAnalyzer.thresholds pself)) ->
    positive_cutoffs
      (ResourceAnalyzer.disk (ResourceAnalyzer.thresholds rself)) ->
    positive_cutoffs
      (ResourceAnalyzer.memory (ResourceAnalyzer.thresholds rself)) ->
    positive_cutoffs
      (ResourceAnalyzer.swap (ResourceAnalyzer.thresholds rself)) ->
    (forall r,
       PerformanceAnalyzer.analyze pself (MetricsCollector.collect_all host)
       = Ok r ->
       exists h,
         health_of r "health" = Some h
         /\ health_status h = Healthy
         /\ (score h = 100 \/ score h = 90)
         /\ category_status r "cpu" = Some Normal
         /\ category_status r "memory" = Some Normal
         /\ category_status r "disk" = Some Normal)
    /\ (forall r,
          ResourceAnalyzer.analyze rself (MetricsCollector.collect_all host)
          = Ok r ->
          exists h,
            health_of r "health" = Some h
            /\ health_status h = Healthy
            /\ (score h = 100 \/ score h = 90 \/ score h = 80)
            /\ category_status r "disk" = Some Normal
            /\ category_status r "memory" = Some Normal
            /\ category_status r "swap" = Some Normal).
Proof.
  intros host pself rself [Hcw Hcc] [Hmw Hmc] [Hdw Hdc] [Hrdw Hrdc]
    [Hrmw Hrmc] [Hrsw Hrsc].
  split; intros r H.
  - unfold PerformanceAnalyzer.analyze, PerformanceAnalyzer._analyze_cpu,
      PerformanceAnalyzer._analyze_memory, PerformanceAnalyzer._analyze_disk,
      PerformanceAnalyzer._analyze_network in H.
    read_collected H.
    destruct (PerformanceAnalyzer._analyze_processes _ _) as [rproc|] eqn:Ep;
      cbn [bind] in H; [|discriminate H].
    injection H as <-. apply performance_processes_not_critical in Ep.
    destruct rproc as [pf ps pi]; destruct ps; cbn [status] in Ep;
      try congruence; eexists; (split; [reflexivity|]); one_of_scores.
  - unfold ResourceAnalyzer.analyze, ResourceAnalyzer._analyze_disk,
      ResourceAnalyzer._analyze_memory, ResourceAnalyzer._analyze_swap in H.
    read_collected H.
    destruct (ResourceAnalyzer._analyze_file_system _ _) as [rfs|] eqn:Ef;
      cbn [bind] in H; [|discriminate H].
    destruct (ResourceAnalyzer._analyze_processes _ _) as [rproc|] eqn:Ep;
      cbn [bind] in H; [|discriminate H].
    injection H as <-. apply resources_processes_not_critical in Ep.
    apply resources_file_system_not_critical in Ef.
    destruct rproc as [pf ps pi]; destruct ps; cbn [status] in Ep;
      try congruence;
      destruct rfs as [ff fs fi]; destruct fs; cbn [status] in Ef;
      try congruence; eexists; (split; [reflexivity|]); one_of_scores.
Qed.

Lemma collected_health_is_healthy_witness :
  exists r h,
    ResourceAnalyzer.analyze (ResourceAnalyzer.__init__ default_config)
      (MetricsCollector.collect_all readable_host) = Ok r
    /\ health_of r "health" = Some h
    /\ health_status h = Healthy
    /\ (score h = 100 \/ score h = 90 \/ score h = 80).
Proof.
  destruct (collected_health_is_healthy readable_host
              (PerformanceAnalyzer.__init__ default_config)
              (ResourceAnalyzer.__init__ default_config))
    as (_ & Hres); try (unfold positive_cutoffs, Qlt; cbn; lia).
  eexists.
  destruct (Hres _ eq_refl) as (h & Hh & Hst & Hsc & _).
  exists h. split; [reflexivity|]. repeat split; assumption.
Defined.
